(** * The label-and-select pipeline: annotator, selection client, orchestrator

    A shallow embedding of the three scripts of the repository

      - [image_search_annotator.py]  (module [Annotator]),
      - [vlm_selector.py]            (module [Selector]),
      - [main.py]                    (module [Orchestrator]),

    over a small model of the Python features they use (module [Py]):
    unicode strings, [str.strip], [print], exceptions, [sys.exit],
    [try]/[except]/[finally] and [with].  Calls into the outside world
    (the browser, the file system, the remote model, child processes) are
    answered by an explicit world value and recorded in a trace. *)

From Stdlib Require Import List NArith ZArith Bool Lia String Ascii FinFun.
From Stdlib Require Import DecimalString DecimalNat DecimalZ.
Import ListNotations.

Set Implicit Arguments.

(* ================================================================== *)
(** * Python values and control flow *)
(* ================================================================== *)

Module Py.

(** A Python 3 [str] is a sequence of unicode code points. *)
Definition pystr : Type := list N.

(** ** String literals

    Literals are written as UTF-8 text and decoded once. *)

Definition cont (b : N) : N := N.land b 63.

Fixpoint utf8_decode (bs : list N) : pystr :=
  match bs with
  | [] => []
  | b0 :: r0 =>
    if (b0 <? 128)%N then b0 :: utf8_decode r0
    else match r0 with
    | [] => [65533%N]
    | b1 :: r1 =>
      if (b0 <? 224)%N then
        (N.land b0 31 * 64 + cont b1)%N :: utf8_decode r1
      else match r1 with
      | [] => [65533%N]
      | b2 :: r2 =>
        if (b0 <? 240)%N then
          (N.land b0 15 * 4096 + cont b1 * 64 + cont b2)%N :: utf8_decode r2
        else match r2 with
        | [] => [65533%N]
        | b3 :: r3 =>
          (N.land b0 7 * 262144 + cont b1 * 4096 + cont b2 * 64 + cont b3)%N
            :: utf8_decode r3
        end
      end
    end
  end.

Fixpoint bytes_of_string (s : string) : list N :=
  match s with
  | EmptyString => []
  | String c r => N_of_ascii c :: bytes_of_string r
  end.

(** [u "text"] is the Python string with that text. *)
Definition u (s : string) : pystr := utf8_decode (bytes_of_string s).

Fixpoint pystr_eqb (a b : pystr) : bool :=
  match a, b with
  | [], [] => true
  | x :: a', y :: b' => (x =? y)%N && pystr_eqb a' b'
  | _, _ => false
  end.

(** Truth value of a [str]: empty is false. *)
Definition truthy (s : pystr) : bool :=
  match s with [] => false | _ :: _ => true end.

(** Truth value of a value that is a [str] or [None]. *)
Definition truthy_opt (o : option pystr) : bool :=
  match o with None => false | Some s => truthy s end.

(** ** [str.strip]

    [str.isspace] on one code point: the characters whose general
    category is Zs or whose bidirectional class is WS, B or S. *)
Definition isspace (c : N) : bool :=
  ((9 <=? c) && (c <=? 13) || (28 <=? c) && (c <=? 32)
   || (c =? 133) || (c =? 160) || (c =? 5760)
   || (8192 <=? c) && (c <=? 8202)
   || (c =? 8232) || (c =? 8233) || (c =? 8239) || (c =? 8287)
   || (c =? 12288))%N.

Fixpoint lstrip (s : pystr) : pystr :=
  match s with
  | [] => []
  | c :: r => if isspace c then lstrip r else s
  end.

Definition rstrip (s : pystr) : pystr := rev (lstrip (rev s)).

Definition strip (s : pystr) : pystr := rstrip (lstrip s).

(** ** [str] of an integer *)

Fixpoint pystr_of_string (s : string) : pystr :=
  match s with
  | EmptyString => []
  | String c r => N_of_ascii c :: pystr_of_string r
  end.

Definition str_of_nat (n : nat) : pystr :=
  pystr_of_string (NilEmpty.string_of_uint (Nat.to_uint n)).

Definition str_of_Z (z : Z) : pystr :=
  pystr_of_string (NilZero.string_of_int (Z.to_int z)).

(** ** Effects

    A computation yields the events it performed, in order, and how it
    ended: normally with a value, with an exception of type [E] (the
    subclasses of [Exception] it can meet), or with [SystemExit], which
    [except Exception] does not catch. *)

Inductive stream := Stdout | Stderr.

Inductive event (Op : Type) : Type :=
| EvPrint (f : stream) (text : pystr)
| EvOp (op : Op).
Arguments EvPrint {Op} f text.

Inductive outcome (E A : Type) : Type :=
| Normal (a : A)
| Raised (e : E)
| SysExit (code : Z).
Arguments Normal {E A} a.
Arguments Raised {E A} e.
Arguments SysExit {E A} code.

Definition M (Op E A : Type) : Type := (list (event Op) * outcome E A)%type.

Definition trace_of {Op E A} (m : M Op E A) : list (event Op) := fst m.
Definition outcome_of {Op E A} (m : M Op E A) : outcome E A := snd m.

Section Monad.
Context {Op E : Type}.

Definition ret {A} (a : A) : M Op E A := ([], Normal a).

Definition bind {A B} (m : M Op E A) (k : A -> M Op E B) : M Op E B :=
  match m with
  | (t, Normal a) => let (t', r) := k a in (t ++ t', r)
  | (t, Raised e) => (t, Raised e)
  | (t, SysExit c) => (t, SysExit c)
  end.

Definition raise {A} (e : E) : M Op E A := ([], Raised e).

(** [sys.exit(code)] *)
Definition sys_exit {A} (code : Z) : M Op E A := ([], SysExit code).

(** [print(text)] and [print(text, file=sys.stderr)] *)
Definition print (text : pystr) : M Op E unit :=
  ([EvPrint Stdout text], Normal tt).
Definition eprint (text : pystr) : M Op E unit :=
  ([EvPrint Stderr text], Normal tt).

(** One [except C as e:] clause: [None] when [e] is not an instance
    of [C]. *)
Definition except_clause (A : Type) : Type := E -> option (M Op E A).

Fixpoint select_clause {A} (cs : list (except_clause A)) (e : E)
  : option (M Op E A) :=
  match cs with
  | [] => None
  | c :: cs' =>
    match c e with
    | Some h => Some h
    | None => select_clause cs' e
    end
  end.

(** [try: body  except ...: ...]: the first matching clause runs. *)
Definition try_except {A} (body : M Op E A) (cs : list (except_clause A))
  : M Op E A :=
  match body with
  | (t, Raised e) =>
    match select_clause cs e with
    | Some (t', r) => (t ++ t', r)
    | None => (t, Raised e)
    end
  | _ => body
  end.

(** [try: body  finally: fin]: [fin] always runs; what [body] ended
    with stands unless [fin] itself raises or exits. *)
Definition try_finally {A} (body : M Op E A) (fin : M Op E unit)
  : M Op E A :=
  let (t, r) := body in
  let (t', r') := fin in
  (t ++ t',
   match r' with
   | Normal _ => r
   | Raised e => Raised e
   | SysExit c => SysExit c
   end).

(** [with enter as x: body]: [leave] runs when the block is left, on
    every path, once [enter] has returned. *)
Definition with_ {R A} (enter : M Op E R) (body : R -> M Op E A)
           (leave : M Op E unit) : M Op E A :=
  bind enter (fun x => try_finally (body x) leave).
End Monad.

(** ** A script run as a process *)

(** Exit status of the interpreter: 0 when the script runs to its end,
    1 on an uncaught exception, the argument of [sys.exit] otherwise. *)
Definition exit_status {Op E A} (m : M Op E A) : Z :=
  match outcome_of m with
  | Normal _ => 0
  | Raised _ => 1
  | SysExit c => c
  end%Z.

(** Text written by [print] to one of the two streams. *)
Fixpoint printed {Op} (f : stream) (t : list (event Op)) : pystr :=
  match t with
  | [] => []
  | EvPrint Stdout s :: t' =>
    match f with Stdout => s ++ [10%N] ++ printed f t' | Stderr => printed f t' end
  | EvPrint Stderr s :: t' =>
    match f with Stderr => s ++ [10%N] ++ printed f t' | Stdout => printed f t' end
  | EvOp _ :: t' => printed f t'
  end.

End Py.

Import Py.

Declare Scope py_scope.
Delimit Scope py_scope with py.
Notation "x <- c1 ;; c2" := (bind c1 (fun x => c2))
  (at level 61, c1 at next level, right associativity) : py_scope.
Notation "c1 ;; c2" := (bind c1 (fun _ => c2))
  (at level 61, right associativity) : py_scope.
Open Scope py_scope.
Open Scope list_scope.

(* ================================================================== *)
(** * image_search_annotator.py *)
(* ================================================================== *)

Module Annotator.

(** The exceptions a Playwright call can raise: the library's
    [TimeoutError] (imported as [PlaywrightTimeoutError]) and any other
    subclass of [Exception]. *)
Inductive page_exn : Type :=
| PlaywrightTimeoutError (msg : pystr)
| OtherException (msg : pystr).

(** [str(e)] *)
Definition str_exn (e : page_exn) : pystr :=
  match e with
  | PlaywrightTimeoutError msg => msg
  | OtherException msg => msg
  end.

(** The call sites of the function, in source order. *)
Inductive site : Type :=
| at_sync_playwright      (* line 17  *)
| at_launch               (* line 20  *)
| at_new_page             (* line 21  *)
| at_goto                 (* line 26  *)
| at_wait_search_box      (* line 32  *)
| at_fill                 (* line 33  *)
| at_press                (* line 34  *)
| at_wait_results         (* line 41  *)
| at_settle               (* line 43  *)
| at_evaluate             (* line 93  *)
| at_screenshot           (* line 99  *)
| at_linger               (* line 102 *)
| at_error_screenshot     (* lines 107 and 111 *)
| at_close.               (* line 115 *)

Section JsNumbers.

(** JavaScript numbers (IEEE 754 doubles) and their [+]; nothing below
    depends on how they are represented. *)
Variable num : Type.
Variable js_add : num -> num -> num.

(** ** The page, as the injected script sees it *)

(** What [getBoundingClientRect()] returns: viewport coordinates. *)
Record DOMRect : Type := {
  rect_top : num;
  rect_left : num;
  rect_width : num;
  rect_height : num
}.

Record img_element : Type := {
  getBoundingClientRect : DOMRect
}.

(** A CSS length written [`${v}px`]. *)
Inductive css_length : Type :=
| px (v : num).

Record label_style : Type := {
  position : pystr;
  top : css_length;
  left : css_length;
  backgroundColor : pystr;
  color : pystr;
  padding : pystr;
  fontSize : pystr;
  fontWeight : pystr;
  border : pystr;
  borderRadius : pystr;
  zIndex : pystr;
  fontFamily : pystr;
  boxShadow : pystr
}.

(** The [div] created for one image. *)
Record label_element : Type := {
  innerText : pystr;
  style : label_style
}.

(** The live page: the scroll offset of the window, the elements that
    [document.querySelectorAll('div.img_cont img.mimg')] returns, in
    document order, and the children appended to [document.body]. *)
Record page_state : Type := {
  scrollX : num;
  scrollY : num;
  images : list img_element;
  body_children : list label_element
}.

Definition appendChild (pg : page_state) (label : label_element)
  : page_state :=
  {| scrollX := scrollX pg;
     scrollY := scrollY pg;
     images := images pg;
     body_children := body_children pg ++ [label] |}.

(** [list.forEach((x, index) => ...)], threading the page. *)
Fixpoint forEach {T St : Type} (f : T -> nat -> St -> St) (l : list T)
         (index : nat) (st : St) : St :=
  match l with
  | [] => st
  | x :: l' => forEach f l' (S index) (f x index st)
  end.

(** The [label] element the callback builds, lines 58-81. *)
Definition make_label (pg : page_state) (img : img_element) (index : nat)
  : label_element :=
  let rect := getBoundingClientRect img in
  {| innerText := str_of_nat (index + 1);
     style :=
       {| position := u "absolute";
          top := px (js_add (scrollY pg) (rect_top rect));
          left := px (js_add (scrollX pg) (rect_left rect));
          backgroundColor := u "rgba(255, 20, 20, 0.85)";
          color := u "white";
          padding := u "3px 6px";
          fontSize := u "16px";
          fontWeight := u "bold";
          border := u "2px solid white";
          borderRadius := u "4px";
          zIndex := u "9999";
          fontFamily := u "Arial, sans-serif";
          boxShadow := u "0 0 5px rgba(0,0,0,0.5)" |} |}.

(** The callback of [forEach], lines 56-85: build the label, then
    [document.body.appendChild(label)]. *)
Definition annotate_one (img : img_element) (index : nat) (pg : page_state)
  : page_state :=
  appendChild pg (make_label pg img index).

(** [js_code], lines 50-90: the page afterwards and the value returned. *)
Definition js_code (pg : page_state) : page_state * nat :=
  let imgs := images pg in
  (forEach annotate_one imgs 0 pg, List.length imgs).

(** The labels one evaluation of [js_code] adds to the page. *)
Definition labels_added (pg : page_state) : list label_element :=
  skipn (List.length (body_children pg)) (body_children (fst (js_code pg))).

(** ** The browser *)

Inductive op : Type :=
| sync_playwright_start
| chromium_launch (headless : bool)
| new_page
| goto (url : pystr) (timeout : Z)
| wait_for_selector (selector state : pystr) (timeout : Z)
| fill (selector value : pystr)
| press (selector key : pystr)
| wait_for_timeout (ms : Z)
| evaluate (after : page_state) (returned : nat)
| screenshot (path : pystr) (full_page : bool)
| browser_close
| sync_playwright_stop.

(** A call and how it ended: [None] when it returned. *)
Definition call_record : Type := (op * option page_exn)%type.

(** The world answers every call site: whether the call there raises,
    and which page the injected script runs against. *)
Record world : Type := {
  fault : site -> option page_exn;
  page : page_state
}.

Definition run (T : Type) : Type := M call_record page_exn T.

Definition call (w : world) (s : site) (c : op) : run unit :=
  match fault w s with
  | None => ([EvOp (c, None)], Normal tt)
  | Some e => ([EvOp (c, Some e)], Raised e)
  end.

(** [page.evaluate(js_code)] *)
Definition page_evaluate (w : world) : run nat :=
  let (after, n) := js_code (page w) in
  call w at_evaluate (evaluate after n) ;; ret n.

(** [page.screenshot(path=..., full_page=...)]; Playwright captures the
    viewport only unless [full_page] is given and true. *)
Definition page_screenshot (w : world) (s : site) (path : pystr)
           (full_page : option bool) : run unit :=
  call w s (screenshot path
              (match full_page with Some b => b | None => false end)).

(** [except PlaywrightTimeoutError as e], lines 104-108. *)
Definition on_timeout (w : world) : except_clause (Op:=call_record) unit :=
  fun e =>
    match e with
    | PlaywrightTimeoutError _ =>
      Some (print (u "操作超时: " ++ str_exn e) ;;
            print (u "请检查您的网络连接，或尝试增加超时时间。") ;;
            page_screenshot w at_error_screenshot (u "error_screenshot.png") None ;;
            print (u "已保存当前页面的截图 'error_screenshot.png' 以供调试。"))
    | OtherException _ => None
    end.

(** [except Exception as e], lines 109-112. *)
Definition on_exception (w : world) : except_clause (Op:=call_record) unit :=
  fun e =>
    Some (print (u "发生未知错误: " ++ str_exn e) ;;
          page_screenshot w at_error_screenshot (u "error_screenshot.png") None ;;
          print (u "已保存当前页面的截图 'error_screenshot.png' 以供调试。")).

(** The [try] block, lines 24-102. *)
Definition try_block (w : world) (query : pystr) : run unit :=
  print (u "正在导航到必应图片...") ;;
  call w at_goto (goto (u "https://www.bing.com/images/search") 60000) ;;
  print (u "正在搜索关键词: '" ++ query ++ u "'...") ;;
  let search_box_selector := u "#sb_form_q" in
  call w at_wait_search_box
       (wait_for_selector search_box_selector (u "visible") 10000) ;;
  call w at_fill (fill search_box_selector query) ;;
  call w at_press (press search_box_selector (u "Enter")) ;;
  print (u "等待搜索结果加载...") ;;
  let image_container_selector := u "div.img_cont" in
  call w at_wait_results
       (wait_for_selector image_container_selector (u "visible") 15000) ;;
  call w at_settle (wait_for_timeout 3000) ;;
  print (u "正在执行 JavaScript 以标注图片...") ;;
  annotated_count <- page_evaluate w ;;
  print (u "成功标注了 " ++ str_of_nat annotated_count ++ u " 张图片。") ;;
  let screenshot_path := u "labeled_screenshot.png" in
  print (u "正在截取全屏并保存到 '" ++ screenshot_path ++ u "'...") ;;
  page_screenshot w at_screenshot screenshot_path (Some true) ;;
  print (u "截图成功保存。") ;;
  call w at_linger (wait_for_timeout 3000).

(** The [try] block under its two [except] clauses, lines 23-112. *)
Definition handled (w : world) (query : pystr) : run unit :=
  try_except (try_block w query) [on_timeout w; on_exception w].

(** The [finally] block, lines 113-116. *)
Definition finally_block (w : world) : run unit :=
  call w at_close browser_close ;;
  print (u "浏览器已关闭。").

(** Leaving [with sync_playwright()] stops the driver, and with it
    every browser it launched. *)
Definition stop_playwright : run unit :=
  ([EvOp (sync_playwright_stop, None)], Normal tt).

(** [annotate_image_search(query, headless=True)], lines 10-116. *)
Definition annotate_image_search (w : world) (query : pystr)
           (headless : bool) : run unit :=
  with_ (call w at_sync_playwright sync_playwright_start)
    (fun _ =>
       call w at_launch (chromium_launch false) ;;
       call w at_new_page new_page ;;
       try_finally (handled w query) (finally_block w))
    stop_playwright.

(** ** The script, lines 118-139 *)

(** The parsed command line. *)
Record Namespace : Type := {
  args_query : pystr;
  args_headless : bool
}.

(** [--visible] is a [store_false] flag with [dest="headless"]: absent,
    [headless] is [True]; present, it is [False]. *)
Definition parse_args (query : pystr) (visible_given : bool) : Namespace :=
  {| args_query := query; args_headless := negb visible_given |}.

Definition script (w : world) (args : Namespace) : run unit :=
  annotate_image_search w (args_query args) (args_headless args).

End JsNumbers.

End Annotator.

(* ================================================================== *)
(** * vlm_selector.py *)
(* ================================================================== *)

Module Selector.

(** The exceptions the script can meet, all subclasses of [Exception]. *)
Inductive sel_exn : Type :=
| FileNotFoundError (msg : pystr)
| IndexError (msg : pystr)
| AttributeError (msg : pystr)
| OtherException (msg : pystr).

(** [str(e)] *)
Definition str_exn (e : sel_exn) : pystr :=
  match e with
  | FileNotFoundError msg => msg
  | IndexError msg => msg
  | AttributeError msg => msg
  | OtherException msg => msg
  end.

(** The request of lines 84-101: one user message with a text part and
    an image part. *)
Record request : Type := {
  model : pystr;
  content_text : pystr;
  content_image_url : pystr;
  max_tokens : Z
}.

(** [response.choices[i].message.content] is a [str] or [None]. *)
Record choice : Type := {
  message_content : option pystr
}.

Inductive file_outcome : Type :=
| FileBytes (data : list N)
| FileRaises (e : sel_exn).

Inductive api_outcome : Type :=
| Response (choices : list choice)
| ApiRaises (e : sel_exn).

(** The process environment (after [load_dotenv()], line 35), the file
    system, the [base64] codec, and the OpenAI client with the endpoint
    behind it. *)
Record world : Type := {
  getenv : pystr -> option pystr;
  read_binary : pystr -> file_outcome;
  b64encode : list N -> pystr;
  OpenAI : pystr -> pystr -> option sel_exn;
  chat_completions_create : request -> api_outcome
}.

Inductive op : Type :=
| new_client (api_key base_url : pystr)
| open_read (path : pystr)
| create_completion (req : request).

Definition run (T : Type) : Type := M op sel_exn T.

Definition perform (c : op) : run unit := ([EvOp c], Normal tt).

(** [open(image_path, "rb")] and [read()], line 40-41. *)
Definition read_image (w : world) (image_path : pystr) : run (list N) :=
  perform (open_read image_path) ;;
  match read_binary w image_path with
  | FileBytes data => ret data
  | FileRaises e => raise e
  end.

(** [encode_image_to_base64], lines 37-47. *)
Definition encode_image_to_base64 (w : world) (image_path : pystr)
  : run pystr :=
  try_except
    (data <- read_image w image_path ;;
     ret (b64encode w data))
    [ (fun e =>
         match e with
         | FileNotFoundError _ =>
           Some (eprint (u "错误：图片文件未找到于 '" ++ image_path ++ u "'。") ;;
                 sys_exit 1)
         | _ => None
         end);
      (fun e =>
         Some (eprint (u "错误：编码图片时出错: " ++ str_exn e) ;;
               sys_exit 1)) ].

(** The string returned at line 67. *)
Definition CONFIG_ERROR : pystr :=
  u "错误：请确保 OPENAI_API_KEY, OPENAI_API_BASE, 和 OPENAI_MODEL_NAME 环境变量都已设置。".

Definition nl : pystr := [10%N].
Definition dquote : pystr := [34%N].
Definition indent : pystr := u "        ".

(** The f-string of lines 77-81. *)
Definition prompt_template (text_prompt : pystr) : pystr :=
  nl ++ indent
  ++ u "这是一张带有数字标签的图片搜索结果截图。请仔细观察图片中的每个带标签的区域。"
  ++ nl ++ indent
  ++ u "根据以下描述：'" ++ text_prompt ++ u "'，找出最匹配的图片。"
  ++ nl ++ indent
  ++ u "你的回答必须**仅仅**是那张最匹配图片的数字标签，不要包含任何其他文字、解释或标点符号。"
  ++ nl ++ indent.

(** [client.chat.completions.create(...)], lines 84-101. *)
Definition create (w : world) (req : request) : run (list choice) :=
  perform (create_completion req) ;;
  match chat_completions_create w req with
  | Response choices => ret choices
  | ApiRaises e => raise e
  end.

(** [response.choices[0].message.content.strip()], line 104. *)
Definition first_content_stripped (choices : list choice) : run pystr :=
  match choices with
  | [] => raise (IndexError (u "list index out of range"))
  | c :: _ =>
    match message_content c with
    | None =>
      raise (AttributeError (u "'NoneType' object has no attribute 'strip'"))
    | Some content => ret (strip content)
    end
  end.

(** [OpenAI(api_key=..., base_url=...)], line 70. *)
Definition make_client (w : world) (api_key base_url : pystr) : run unit :=
  perform (new_client api_key base_url) ;;
  match OpenAI w api_key base_url with
  | None => ret tt
  | Some e => raise e
  end.

(** Python's [all] on values that are a [str] or [None]. *)
Definition all (l : list (option pystr)) : bool := forallb truthy_opt l.

(** [call_vlm_api], lines 50-107. *)
Definition call_vlm_api (w : world) (image_path text_prompt : pystr)
  : run pystr :=
  let api_key := getenv w (u "OPENAI_API_KEY") in
  let base_url := getenv w (u "OPENAI_API_BASE") in
  let model_name := getenv w (u "OPENAI_MODEL_NAME") in
  if negb (all [api_key; base_url; model_name]) then ret CONFIG_ERROR
  else
    match api_key, base_url, model_name with
    | Some api_key, Some base_url, Some model_name =>
      try_except
        (make_client w api_key base_url ;;
         base64_image <- encode_image_to_base64 w image_path ;;
         let image_url := u "data:image/png;base64," ++ base64_image in
         choices <- create w {| model := model_name;
                                content_text := prompt_template text_prompt;
                                content_image_url := image_url;
                                max_tokens := 10 |} ;;
         first_content_stripped choices)
        [ fun e => Some (ret (u "调用API时发生未知错误: " ++ str_exn e)) ]
    | _, _, _ => ret CONFIG_ERROR   (* not reached: all three are set *)
    end.

(** [main], lines 109-125, on [sys.argv]. *)
Definition main (w : world) (sys_argv : list pystr) : run unit :=
  match sys_argv with
  | [_; image_file_path; user_text_prompt] =>
    selected_label <- call_vlm_api w image_file_path user_text_prompt ;;
    print selected_label
  | _ =>
    eprint (u "用法: python vlm_selector.py <图片路径> " ++ dquote
            ++ u "<文本描述>" ++ dquote) ;;
    sys_exit 1
  end.

End Selector.

(* ================================================================== *)
(** * main.py *)
(* ================================================================== *)

Module Orchestrator.

(** What [subprocess.run(..., check=True)] can raise. *)
Inductive run_exn : Type :=
| CalledProcessError (returncode : Z) (stdout stderr : pystr)
| FileNotFoundError (msg : pystr)
| OtherException (msg : pystr).

(** The keyword arguments of the two [subprocess.run] calls. *)
Record subprocess_call : Type := {
  argv : list pystr;
  check : bool;
  capture_output : bool;
  text : bool;
  encoding : option pystr
}.

(** How starting and waiting for a child ends: it exits with a status
    and its captured, decoded output; the executable is not found; or
    anything else goes wrong (the output cannot be decoded, say). *)
Inductive spawn_outcome : Type :=
| Exited (returncode : Z) (stdout stderr : pystr)
| NotFound (msg : pystr)
| Failed (msg : pystr).

Record world : Type := {
  sys_executable : pystr;
  spawn : subprocess_call -> spawn_outcome
}.

Record CompletedProcess : Type := {
  cp_returncode : Z;
  cp_stdout : pystr;
  cp_stderr : pystr
}.

Definition run (T : Type) : Type := M subprocess_call run_exn T.

(** [subprocess.run] *)
Definition subprocess_run (w : world) (c : subprocess_call)
  : run CompletedProcess :=
  ([EvOp c],
   match spawn w c with
   | Exited rc out err =>
     if check c && negb (rc =? 0)%Z
     then Raised (CalledProcessError rc out err)
     else Normal {| cp_returncode := rc; cp_stdout := out; cp_stderr := err |}
   | NotFound msg => Raised (FileNotFoundError msg)
   | Failed msg => Raised (OtherException msg)
   end).

Definition annotator_call (w : world) (query : pystr) : subprocess_call :=
  {| argv := [sys_executable w; u "image_search_annotator.py"; query];
     check := true; capture_output := true; text := true;
     encoding := None |}.

(** [run_image_search], lines 9-39. *)
Definition run_image_search (w : world) (query : pystr) : run bool :=
  print (u "正在使用查询 '" ++ query ++ u "' 搜索图像...") ;;
  try_except
    (subprocess_run w (annotator_call w query) ;;
     print (u "图像搜索和标注完成。") ;;
     ret true)
    [ (fun e =>
         match e with
         | CalledProcessError returncode stdout stderr =>
           Some (eprint (u "错误: 运行 image_search_annotator.py 失败。") ;;
                 eprint (u "返回码: " ++ str_of_Z returncode) ;;
                 eprint (u "输出: " ++ stdout) ;;
                 eprint (u "错误输出: " ++ stderr) ;;
                 ret false)
         | _ => None
         end);
      (fun e =>
         match e with
         | FileNotFoundError _ =>
           Some (eprint (u "错误: 'image_search_annotator.py' 未找到。请确保它在当前目录中。") ;;
                 ret false)
         | _ => None
         end) ].

Definition selector_call (w : world) (prompt : pystr) : subprocess_call :=
  let image_path := u "labeled_screenshot.png" in
  {| argv := [sys_executable w; u "vlm_selector.py"; image_path; prompt];
     check := true; capture_output := true; text := true;
     encoding := Some (u "gbk") |}.

(** [run_vlm_selector], lines 42-75; [None] is Python's [None]. *)
Definition run_vlm_selector (w : world) (prompt : pystr)
  : run (option pystr) :=
  print (u "正在使用提示 '" ++ prompt ++ u "' 运行 VLM 选择器...") ;;
  try_except
    (result <- subprocess_run w (selector_call w prompt) ;;
     let selected_label := strip (cp_stdout result) in
     print (u "VLM 选择器完成，输出为: '" ++ selected_label ++ u "'") ;;
     ret (Some selected_label))
    [ (fun e =>
         match e with
         | CalledProcessError returncode stdout stderr =>
           Some (eprint (u "错误: 运行 vlm_selector.py 失败。") ;;
                 eprint (u "返回码: " ++ str_of_Z returncode) ;;
                 eprint (u "输出: " ++ stdout) ;;
                 eprint (u "错误输出: " ++ stderr) ;;
                 ret None)
         | _ => None
         end);
      (fun e =>
         match e with
         | FileNotFoundError _ =>
           Some (eprint (u "错误: 'vlm_selector.py' 或 'labeled_screenshot.png' 未找到。") ;;
                 ret None)
         | _ => None
         end) ].

(** The parsed command line: [-q/--query] and [-p/--prompt]. *)
Record Namespace : Type := {
  args_query : pystr;
  args_prompt : pystr
}.

(** A [str] or [None] inside an f-string. *)
Definition format (o : option pystr) : pystr :=
  match o with
  | Some s => s
  | None => u "None"
  end.

Definition rule : pystr := u "=====================================".

(** The line that reports the selected label, line 99. *)
Definition report (label : pystr) : pystr :=
  u "VLM选择的图片是: " ++ label.

(** [main], lines 77-103, after [parse_args]. *)
Definition main (w : world) (args : Namespace) : run unit :=
  ok <- run_image_search w (args_query args) ;;
  if negb ok then sys_exit 1
  else
    selected_image_label <- run_vlm_selector w (args_prompt args) ;;
    if truthy_opt selected_image_label then
      print ([10%N] ++ rule) ;;
      print (report (format selected_image_label)) ;;
      print rule
    else
      eprint ([10%N] ++ u "无法从VLM选择器获取结果。") ;;
      sys_exit 1.

End Orchestrator.

(* ================================================================== *)
(** * The scripts run together *)
(* ================================================================== *)

Module Pipeline.

(** ** Codecs

    A codec encodes character by character and decodes a whole byte
    string; [None] is Python's [UnicodeEncodeError], respectively
    [UnicodeDecodeError], under [errors='strict']. *)
Record codec : Type := {
  encode_char : N -> option (list N);
  decode : list N -> option pystr
}.

(** [str.encode(errors='strict')] *)
Fixpoint encode_strict (cd : codec) (s : pystr) : option (list N) :=
  match s with
  | [] => Some []
  | c :: r =>
    match encode_char cd c, encode_strict cd r with
    | Some bs, Some rest => Some (bs ++ rest)
    | _, _ => None
    end
  end.

Definition hex_digit (d : N) : N :=
  if (d <? 10)%N then (48 + d)%N else (87 + d)%N.

(** The [n] lowest hexadecimal digits of [c], highest first. *)
Fixpoint hex (n : nat) (c : N) : list N :=
  match n with
  | O => []
  | S n' => hex n' (c / 16) ++ [hex_digit (c mod 16)]
  end.

(** The escape [errors='backslashreplace'] writes for a character. *)
Definition backslash_escape (c : N) : list N :=
  if (c <? 256)%N then [92; 120]%N ++ hex 2 c
  else if (c <? 65536)%N then [92; 117]%N ++ hex 4 c
  else [92; 85]%N ++ hex 8 c.

(** [str.encode(errors='backslashreplace')] *)
Fixpoint encode_replace (cd : codec) (s : pystr) : list N :=
  match s with
  | [] => []
  | c :: r =>
    match encode_char cd c with
    | Some bs => bs
    | None => backslash_escape c
    end ++ encode_replace cd r
  end.

(** [bytes.decode(errors='strict')]; the empty byte string decodes to
    the empty string whatever the codec. *)
Definition decode_bytes (cd : codec) (bs : list N) : option pystr :=
  match bs with
  | [] => Some []
  | _ => decode cd bs
  end.

(** *** UTF-8 *)

Definition utf8_encode_char (c : N) : option (list N) :=
  if (c <? 128)%N then Some [c]
  else if (c <? 2048)%N then Some [192 + c / 64; 128 + c mod 64]%N
  else if (c <? 65536)%N then
    if (55296 <=? c)%N && (c <=? 57343)%N then None
    else Some [224 + c / 4096; 128 + (c / 64) mod 64; 128 + c mod 64]%N
  else if (c <? 1114112)%N then
    Some [240 + c / 262144; 128 + (c / 4096) mod 64;
          128 + (c / 64) mod 64; 128 + c mod 64]%N
  else None.

Definition is_cont (b : N) : bool := (128 <=? b)%N && (b <=? 191)%N.

(** Strict decoding: no stray or missing continuation byte, no overlong
    form, no surrogate, nothing above U+10FFFF. *)
Fixpoint utf8_decode_strict (bs : list N) : option pystr :=
  match bs with
  | [] => Some []
  | b0 :: r0 =>
    if (b0 <? 128)%N then option_map (cons b0) (utf8_decode_strict r0)
    else match r0 with
    | [] => None
    | b1 :: r1 =>
      if (b0 <? 192)%N || negb (is_cont b1) then None
      else if (b0 <? 224)%N then
        let c := ((b0 - 192) * 64 + (b1 - 128))%N in
        if (c <? 128)%N then None
        else option_map (cons c) (utf8_decode_strict r1)
      else match r1 with
      | [] => None
      | b2 :: r2 =>
        if negb (is_cont b2) then None
        else if (b0 <? 240)%N then
          let c := ((b0 - 224) * 4096 + (b1 - 128) * 64 + (b2 - 128))%N in
          if (c <? 2048)%N || (55296 <=? c)%N && (c <=? 57343)%N then None
          else option_map (cons c) (utf8_decode_strict r2)
        else match r2 with
        | [] => None
        | b3 :: r3 =>
          if negb (is_cont b3) || (248 <=? b0)%N then None
          else
            let c := ((b0 - 240) * 262144 + (b1 - 128) * 4096
                      + (b2 - 128) * 64 + (b3 - 128))%N in
            if (c <? 65536)%N || (1114112 <=? c)%N then None
            else option_map (cons c) (utf8_decode_strict r3)
        end
      end
    end
  end.

Definition utf8 : codec :=
  {| encode_char := utf8_encode_char; decode := utf8_decode_strict |}.

(** *** GBK

    The table of Python's [gbk] codec: row [i] holds, for the lead byte
    [0x81 + i], the characters of the trail bytes [0x40] to [0xFE] in
    order, with [?] where the pair is not assigned. *)
Definition gbk_rows : list string := [
  "丂丄丅丆丏丒丗丟丠両丣並丩丮丯丱丳丵丷丼乀乁乂乄乆乊乑乕乗乚乛乢乣乤乥乧乨乪乫乬乭乮乯乲乴乵乶乷乸乹乺乻乼乽乿亀亁亂亃亄亅亇亊?亐亖亗亙亜亝亞亣亪亯亰亱亴亶亷亸亹亼亽亾仈仌仏仐仒仚仛仜仠仢仦仧仩仭仮仯仱仴仸仹仺仼仾伀伂伃伄伅伆伇伈伋伌伒伓伔伕伖伜伝伡伣伨伩伬伭伮伱伳伵伷伹伻伾伿佀佁佂佄佅佇佈佉佊佋佌佒佔佖佡佢佦佨佪佫佭佮佱佲併佷佸佹佺佽侀侁侂侅來侇侊侌侎侐侒侓侕侖侘侙侚侜侞侟価侢";
  "侤侫侭侰侱侲侳侴侶侷侸侹侺侻侼侽侾俀俁係俆俇俈俉俋俌俍俒俓俔俕俖俙俛俠俢俤俥俧俫俬俰俲俴俵俶俷俹俻俼俽俿倀倁倂倃倄倅倆倇倈倉倊?個倎倐們倓倕倖倗倛倝倞倠倢倣値倧倫倯倰倱倲倳倴倵倶倷倸倹倻倽倿偀偁偂偄偅偆偉偊偋偍偐偑偒偓偔偖偗偘偙偛偝偞偟偠偡偢偣偤偦偧偨偩偪偫偭偮偯偰偱偲偳側偵偸偹偺偼偽傁傂傃傄傆傇傉傊傋傌傎傏傐傑傒傓傔傕傖傗傘備傚傛傜傝傞傟傠傡傢傤傦傪傫傭傮傯傰傱傳傴債傶傷傸傹傼";
  "傽傾傿僀僁僂僃僄僅僆僇僈僉僊僋僌働僎僐僑僒僓僔僕僗僘僙僛僜僝僞僟僠僡僢僣僤僥僨僩僪僫僯僰僱僲僴僶僷僸價僺僼僽僾僿儀儁儂儃億儅儈?儉儊儌儍儎儏儐儑儓儔儕儖儗儘儙儚儛儜儝儞償儠儢儣儤儥儦儧儨儩優儫儬儭儮儯儰儱儲儳儴儵儶儷儸儹儺儻儼儽儾兂兇兊兌兎兏児兒兓兗兘兙兛兝兞兟兠兡兣兤兦內兩兪兯兲兺兾兿冃冄円冇冊冋冎冏冐冑冓冔冘冚冝冞冟冡冣冦冧冨冩冪冭冮冴冸冹冺冾冿凁凂凃凅凈凊凍凎凐凒凓凔凕凖凗";
  "凘凙凚凜凞凟凢凣凥処凧凨凩凪凬凮凱凲凴凷凾刄刅刉刋刌刏刐刓刔刕刜刞刟刡刢刣別刦刧刪刬刯刱刲刴刵刼刾剄剅剆則剈剉剋剎剏剒剓剕剗剘?剙剚剛剝剟剠剢剣剤剦剨剫剬剭剮剰剱剳剴創剶剷剸剹剺剻剼剾劀劃劄劅劆劇劉劊劋劌劍劎劏劑劒劔劕劖劗劘劙劚劜劤劥劦劧劮劯劰労劵劶劷劸効劺劻劼劽勀勁勂勄勅勆勈勊勌勍勎勏勑勓勔動勗務勚勛勜勝勞勠勡勢勣勥勦勧勨勩勪勫勬勭勮勯勱勲勳勴勵勶勷勸勻勼勽匁匂匃匄匇匉匊匋匌匎";
  "匑匒匓匔匘匛匜匞匟匢匤匥匧匨匩匫匬匭匯匰匱匲匳匴匵匶匷匸匼匽區卂卄卆卋卌卍卐協単卙卛卝卥卨卪卬卭卲卶卹卻卼卽卾厀厁厃厇厈厊厎厏?厐厑厒厓厔厖厗厙厛厜厞厠厡厤厧厪厫厬厭厯厰厱厲厳厴厵厷厸厹厺厼厽厾叀參叄叅叆叇収叏叐叒叓叕叚叜叝叞叡叢叧叴叺叾叿吀吂吅吇吋吔吘吙吚吜吢吤吥吪吰吳吶吷吺吽吿呁呂呄呅呇呉呌呍呎呏呑呚呝呞呟呠呡呣呥呧呩呪呫呬呭呮呯呰呴呹呺呾呿咁咃咅咇咈咉咊咍咑咓咗咘咜咞咟咠咡";
  "咢咥咮咰咲咵咶咷咹咺咼咾哃哅哊哋哖哘哛哠員哢哣哤哫哬哯哰哱哴哵哶哷哸哹哻哾唀唂唃唄唅唈唊唋唌唍唎唒唓唕唖唗唘唙唚唜唝唞唟唡唥唦?唨唩唫唭唲唴唵唶唸唹唺唻唽啀啂啅啇啈啋啌啍啎問啑啒啓啔啗啘啙啚啛啝啞啟啠啢啣啨啩啫啯啰啱啲啳啴啹啺啽啿喅喆喌喍喎喐喒喓喕喖喗喚喛喞喠喡喢喣喤喥喦喨喩喪喫喬喭單喯喰喲喴営喸喺喼喿嗀嗁嗂嗃嗆嗇嗈嗊嗋嗎嗏嗐嗕嗗嗘嗙嗚嗛嗞嗠嗢嗧嗩嗭嗮嗰嗱嗴嗶嗸嗹嗺嗻嗼嗿嘂嘃嘄嘅";
  "嘆嘇嘊嘋嘍嘐嘑嘒嘓嘔嘕嘖嘗嘙嘚嘜嘝嘠嘡嘢嘥嘦嘨嘩嘪嘫嘮嘯嘰嘳嘵嘷嘸嘺嘼嘽嘾噀噁噂噃噄噅噆噇噈噉噊噋噏噐噑噒噓噕噖噚噛噝噞噟噠噡?噣噥噦噧噭噮噯噰噲噳噴噵噷噸噹噺噽噾噿嚀嚁嚂嚃嚄嚇嚈嚉嚊嚋嚌嚍嚐嚑嚒嚔嚕嚖嚗嚘嚙嚚嚛嚜嚝嚞嚟嚠嚡嚢嚤嚥嚦嚧嚨嚩嚪嚫嚬嚭嚮嚰嚱嚲嚳嚴嚵嚶嚸嚹嚺嚻嚽嚾嚿囀囁囂囃囄囅囆囇囈囉囋囌囍囎囏囐囑囒囓囕囖囘囙囜団囥囦囧囨囩囪囬囮囯囲図囶囷囸囻囼圀圁圂圅圇國圌圍圎圏圐圑";
  "園圓圔圕圖圗團圙圚圛圝圞圠圡圢圤圥圦圧圫圱圲圴圵圶圷圸圼圽圿坁坃坄坅坆坈坉坋坒坓坔坕坖坘坙坢坣坥坧坬坮坰坱坲坴坵坸坹坺坽坾坿垀?垁垇垈垉垊垍垎垏垐垑垔垕垖垗垘垙垚垜垝垞垟垥垨垪垬垯垰垱垳垵垶垷垹垺垻垼垽垾垿埀埁埄埅埆埇埈埉埊埌埍埐埑埓埖埗埛埜埞埡埢埣埥埦埧埨埩埪埫埬埮埰埱埲埳埵埶執埻埼埾埿堁堃堄堅堈堉堊堌堎堏堐堒堓堔堖堗堘堚堛堜堝堟堢堣堥堦堧堨堩堫堬堭堮堯報堲堳場堶堷堸堹堺堻堼堽";
  "堾堿塀塁塂塃塅塆塇塈塉塊塋塎塏塐塒塓塕塖塗塙塚塛塜塝塟塠塡塢塣塤塦塧塨塩塪塭塮塯塰塱塲塳塴塵塶塷塸塹塺塻塼塽塿墂墄墆墇墈墊墋墌?墍墎墏墐墑墔墕墖増墘墛墜墝墠墡墢墣墤墥墦墧墪墫墬墭墮墯墰墱墲墳墴墵墶墷墸墹墺墻墽墾墿壀壂壃壄壆壇壈壉壊壋壌壍壎壏壐壒壓壔壖壗壘壙壚壛壜壝壞壟壠壡壢壣壥壦壧壨壩壪壭壯壱売壴壵壷壸壺壻壼壽壾壿夀夁夃夅夆夈変夊夋夌夎夐夑夒夓夗夘夛夝夞夠夡夢夣夦夨夬夰夲夳夵夶夻";
  "夽夾夿奀奃奅奆奊奌奍奐奒奓奙奛奜奝奞奟奡奣奤奦奧奨奩奪奫奬奭奮奯奰奱奲奵奷奺奻奼奾奿妀妅妉妋妌妎妏妐妑妔妕妘妚妛妜妝妟妠妡妢妦?妧妬妭妰妱妳妴妵妶妷妸妺妼妽妿姀姁姂姃姄姅姇姈姉姌姍姎姏姕姖姙姛姞姟姠姡姢姤姦姧姩姪姫姭姮姯姰姱姲姳姴姵姶姷姸姺姼姽姾娀娂娊娋娍娎娏娐娒娔娕娖娗娙娚娛娝娞娡娢娤娦娧娨娪娫娬娭娮娯娰娳娵娷娸娹娺娻娽娾娿婁婂婃婄婅婇婈婋婌婍婎婏婐婑婒婓婔婖婗婘婙婛婜婝婞婟婠";
  "婡婣婤婥婦婨婩婫婬婭婮婯婰婱婲婳婸婹婻婼婽婾媀媁媂媃媄媅媆媇媈媉媊媋媌媍媎媏媐媑媓媔媕媖媗媘媙媜媝媞媟媠媡媢媣媤媥媦媧媨媩媫媬?媭媮媯媰媱媴媶媷媹媺媻媼媽媿嫀嫃嫄嫅嫆嫇嫈嫊嫋嫍嫎嫏嫐嫑嫓嫕嫗嫙嫚嫛嫝嫞嫟嫢嫤嫥嫧嫨嫪嫬嫭嫮嫯嫰嫲嫳嫴嫵嫶嫷嫸嫹嫺嫻嫼嫽嫾嫿嬀嬁嬂嬃嬄嬅嬆嬇嬈嬊嬋嬌嬍嬎嬏嬐嬑嬒嬓嬔嬕嬘嬙嬚嬛嬜嬝嬞嬟嬠嬡嬢嬣嬤嬥嬦嬧嬨嬩嬪嬫嬬嬭嬮嬯嬰嬱嬳嬵嬶嬸嬹嬺嬻嬼嬽嬾嬿孁孂孃孄孅孆孇";
  "孈孉孊孋孌孍孎孏孒孖孞孠孡孧孨孫孭孮孯孲孴孶孷學孹孻孼孾孿宂宆宊宍宎宐宑宒宔宖実宧宨宩宬宭宮宯宱宲宷宺宻宼寀寁寃寈寉寊寋寍寎寏?寑寔寕寖寗寘寙寚寛寜寠寢寣實寧審寪寫寬寭寯寱寲寳寴寵寶寷寽対尀専尃尅將專尋尌對導尐尒尓尗尙尛尞尟尠尡尣尦尨尩尪尫尭尮尯尰尲尳尵尶尷屃屄屆屇屌屍屒屓屔屖屗屘屚屛屜屝屟屢層屧屨屩屪屫屬屭屰屲屳屴屵屶屷屸屻屼屽屾岀岃岄岅岆岇岉岊岋岎岏岒岓岕岝岞岟岠岡岤岥岦岧岨";
  "岪岮岯岰岲岴岶岹岺岻岼岾峀峂峃峅峆峇峈峉峊峌峍峎峏峐峑峓峔峕峖峗峘峚峛峜峝峞峟峠峢峣峧峩峫峬峮峯峱峲峳峴峵島峷峸峹峺峼峽峾峿崀?崁崄崅崈崉崊崋崌崍崏崐崑崒崓崕崗崘崙崚崜崝崟崠崡崢崣崥崨崪崫崬崯崰崱崲崳崵崶崷崸崹崺崻崼崿嵀嵁嵂嵃嵄嵅嵆嵈嵉嵍嵎嵏嵐嵑嵒嵓嵔嵕嵖嵗嵙嵚嵜嵞嵟嵠嵡嵢嵣嵤嵥嵦嵧嵨嵪嵭嵮嵰嵱嵲嵳嵵嵶嵷嵸嵹嵺嵻嵼嵽嵾嵿嶀嶁嶃嶄嶅嶆嶇嶈嶉嶊嶋嶌嶍嶎嶏嶐嶑嶒嶓嶔嶕嶖嶗嶘嶚嶛嶜嶞嶟嶠";
  "嶡嶢嶣嶤嶥嶦嶧嶨嶩嶪嶫嶬嶭嶮嶯嶰嶱嶲嶳嶴嶵嶶嶸嶹嶺嶻嶼嶽嶾嶿巀巁巂巃巄巆巇巈巉巊巋巌巎巏巐巑巒巓巔巕巖巗巘巙巚巜巟巠巣巤巪巬巭?巰巵巶巸巹巺巻巼巿帀帄帇帉帊帋帍帎帒帓帗帞帟帠帡帢帣帤帥帨帩帪師帬帯帰帲帳帴帵帶帹帺帾帿幀幁幃幆幇幈幉幊幋幍幎幏幐幑幒幓幖幗幘幙幚幜幝幟幠幣幤幥幦幧幨幩幪幫幬幭幮幯幰幱幵幷幹幾庁庂広庅庈庉庌庍庎庒庘庛庝庡庢庣庤庨庩庪庫庬庮庯庰庱庲庴庺庻庼庽庿廀廁廂廃廄廅";
  "廆廇廈廋廌廍廎廏廐廔廕廗廘廙廚廜廝廞廟廠廡廢廣廤廥廦廧廩廫廬廭廮廯廰廱廲廳廵廸廹廻廼廽弅弆弇弉弌弍弎弐弒弔弖弙弚弜弝弞弡弢弣弤?弨弫弬弮弰弲弳弴張弶強弸弻弽弾弿彁彂彃彄彅彆彇彈彉彊彋彌彍彎彏彑彔彙彚彛彜彞彟彠彣彥彧彨彫彮彯彲彴彵彶彸彺彽彾彿徃徆徍徎徏徑従徔徖徚徛徝從徟徠徢徣徤徥徦徧復徫徬徯徰徱徲徳徴徶徸徹徺徻徾徿忀忁忂忇忈忊忋忎忓忔忕忚忛応忞忟忢忣忥忦忨忩忬忯忰忲忳忴忶忷忹忺忼怇";
  "怈怉怋怌怐怑怓怗怘怚怞怟怢怣怤怬怭怮怰怱怲怳怴怶怷怸怹怺怽怾恀恄恅恆恇恈恉恊恌恎恏恑恓恔恖恗恘恛恜恞恟恠恡恥恦恮恱恲恴恵恷恾悀?悁悂悅悆悇悈悊悋悎悏悐悑悓悕悗悘悙悜悞悡悢悤悥悧悩悪悮悰悳悵悶悷悹悺悽悾悿惀惁惂惃惄惇惈惉惌惍惎惏惐惒惓惔惖惗惙惛惞惡惢惣惤惥惪惱惲惵惷惸惻惼惽惾惿愂愃愄愅愇愊愋愌愐愑愒愓愔愖愗愘愙愛愜愝愞愡愢愥愨愩愪愬愭愮愯愰愱愲愳愴愵愶愷愸愹愺愻愼愽愾慀慁慂慃慄慅慆";
  "慇慉態慍慏慐慒慓慔慖慗慘慙慚慛慜慞慟慠慡慣慤慥慦慩慪慫慬慭慮慯慱慲慳慴慶慸慹慺慻慼慽慾慿憀憁憂憃憄憅憆憇憈憉憊憌憍憏憐憑憒憓憕?憖憗憘憙憚憛憜憞憟憠憡憢憣憤憥憦憪憫憭憮憯憰憱憲憳憴憵憶憸憹憺憻憼憽憿懀懁懃懄懅懆懇應懌懍懎懏懐懓懕懖懗懘懙懚懛懜懝懞懟懠懡懢懣懤懥懧懨懩懪懫懬懭懮懯懰懱懲懳懴懶懷懸懹懺懻懼懽懾戀戁戂戃戄戅戇戉戓戔戙戜戝戞戠戣戦戧戨戩戫戭戯戰戱戲戵戶戸戹戺戻戼扂扄扅扆扊";
  "扏扐払扖扗扙扚扜扝扞扟扠扡扢扤扥扨扱扲扴扵扷扸扺扻扽抁抂抃抅抆抇抈抋抌抍抎抏抐抔抙抜抝択抣抦抧抩抪抭抮抯抰抲抳抴抶抷抸抺抾拀拁?拃拋拏拑拕拝拞拠拡拤拪拫拰拲拵拸拹拺拻挀挃挄挅挆挊挋挌挍挏挐挒挓挔挕挗挘挙挜挦挧挩挬挭挮挰挱挳挴挵挶挷挸挻挼挾挿捀捁捄捇捈捊捑捒捓捔捖捗捘捙捚捛捜捝捠捤捥捦捨捪捫捬捯捰捲捳捴捵捸捹捼捽捾捿掁掃掄掅掆掋掍掑掓掔掕掗掙掚掛掜掝掞掟採掤掦掫掯掱掲掵掶掹掻掽掿揀";
  "揁揂揃揅揇揈揊揋揌揑揓揔揕揗揘揙揚換揜揝揟揢揤揥揦揧揨揫揬揮揯揰揱揳揵揷揹揺揻揼揾搃搄搆搇搈搉搊損搎搑搒搕搖搗搘搙搚搝搟搢搣搤?搥搧搨搩搫搮搯搰搱搲搳搵搶搷搸搹搻搼搾摀摂摃摉摋摌摍摎摏摐摑摓摕摖摗摙摚摛摜摝摟摠摡摢摣摤摥摦摨摪摫摬摮摯摰摱摲摳摴摵摶摷摻摼摽摾摿撀撁撃撆撈撉撊撋撌撍撎撏撐撓撔撗撘撚撛撜撝撟撠撡撢撣撥撦撧撨撪撫撯撱撲撳撴撶撹撻撽撾撿擁擃擄擆擇擈擉擊擋擌擏擑擓擔擕擖擙據";
  "擛擜擝擟擠擡擣擥擧擨擩擪擫擬擭擮擯擰擱擲擳擴擵擶擷擸擹擺擻擼擽擾擿攁攂攃攄攅攆攇攈攊攋攌攍攎攏攐攑攓攔攕攖攗攙攚攛攜攝攞攟攠攡?攢攣攤攦攧攨攩攪攬攭攰攱攲攳攷攺攼攽敀敁敂敃敄敆敇敊敋敍敎敐敒敓敔敗敘敚敜敟敠敡敤敥敧敨敩敪敭敮敯敱敳敵敶數敹敺敻敼敽敾敿斀斁斂斃斄斅斆斈斉斊斍斎斏斒斔斕斖斘斚斝斞斠斢斣斦斨斪斬斮斱斲斳斴斵斶斷斸斺斻斾斿旀旂旇旈旉旊旍旐旑旓旔旕旘旙旚旛旜旝旞旟旡旣旤旪旫";
  "旲旳旴旵旸旹旻旼旽旾旿昁昄昅昇昈昉昋昍昐昑昒昖昗昘昚昛昜昞昡昢昣昤昦昩昪昫昬昮昰昲昳昷昸昹昺昻昽昿晀時晄晅晆晇晈晉晊晍晎晐晑晘?晙晛晜晝晞晠晢晣晥晧晩晪晫晬晭晱晲晳晵晸晹晻晼晽晿暀暁暃暅暆暈暉暊暋暍暎暏暐暒暓暔暕暘暙暚暛暜暞暟暠暡暢暣暤暥暦暩暪暫暬暭暯暰暱暲暳暵暶暷暸暺暻暼暽暿曀曁曂曃曄曅曆曇曈曉曊曋曌曍曎曏曐曑曒曓曔曕曖曗曘曚曞曟曠曡曢曣曤曥曧曨曪曫曬曭曮曯曱曵曶書曺曻曽朁朂會";
  "朄朅朆朇朌朎朏朑朒朓朖朘朙朚朜朞朠朡朢朣朤朥朧朩朮朰朲朳朶朷朸朹朻朼朾朿杁杄杅杇杊杋杍杒杔杕杗杘杙杚杛杝杢杣杤杦杧杫杬杮東杴杶?杸杹杺杻杽枀枂枃枅枆枈枊枌枍枎枏枑枒枓枔枖枙枛枟枠枡枤枦枩枬枮枱枲枴枹枺枻枼枽枾枿柀柂柅柆柇柈柉柊柋柌柍柎柕柖柗柛柟柡柣柤柦柧柨柪柫柭柮柲柵柶柷柸柹柺査柼柾栁栂栃栄栆栍栐栒栔栕栘栙栚栛栜栞栟栠栢栣栤栥栦栧栨栫栬栭栮栯栰栱栴栵栶栺栻栿桇桋桍桏桒桖桗桘桙桚桛";
  "桜桝桞桟桪桬桭桮桯桰桱桲桳桵桸桹桺桻桼桽桾桿梀梂梄梇梈梉梊梋梌梍梎梐梑梒梔梕梖梘梙梚梛梜條梞梟梠梡梣梤梥梩梪梫梬梮梱梲梴梶梷梸?梹梺梻梼梽梾梿棁棃棄棅棆棇棈棊棌棎棏棐棑棓棔棖棗棙棛棜棝棞棟棡棢棤棥棦棧棨棩棪棫棬棭棯棲棳棴棶棷棸棻棽棾棿椀椂椃椄椆椇椈椉椊椌椏椑椓椔椕椖椗椘椙椚椛検椝椞椡椢椣椥椦椧椨椩椪椫椬椮椯椱椲椳椵椶椷椸椺椻椼椾楀楁楃楄楅楆楇楈楉楊楋楌楍楎楏楐楑楒楓楕楖楘楙楛楜楟";
  "楡楢楤楥楧楨楩楪楬業楯楰楲楳楴極楶楺楻楽楾楿榁榃榅榊榋榌榎榏榐榑榒榓榖榗榙榚榝榞榟榠榡榢榣榤榥榦榩榪榬榮榯榰榲榳榵榶榸榹榺榼榽?榾榿槀槂槃槄槅槆槇槈槉構槍槏槑槒槓槕槖槗様槙槚槜槝槞槡槢槣槤槥槦槧槨槩槪槫槬槮槯槰槱槳槴槵槶槷槸槹槺槻槼槾樀樁樂樃樄樅樆樇樈樉樋樌樍樎樏樐樑樒樓樔樕樖標樚樛樜樝樞樠樢樣樤樥樦樧権樫樬樭樮樰樲樳樴樶樷樸樹樺樻樼樿橀橁橂橃橅橆橈橉橊橋橌橍橎橏橑橒橓橔橕橖橗橚";
  "橜橝橞機橠橢橣橤橦橧橨橩橪橫橬橭橮橯橰橲橳橴橵橶橷橸橺橻橽橾橿檁檂檃檅檆檇檈檉檊檋檌檍檏檒檓檔檕檖檘檙檚檛檜檝檞檟檡檢檣檤檥檦?檧檨檪檭檮檯檰檱檲檳檴檵檶檷檸檹檺檻檼檽檾檿櫀櫁櫂櫃櫄櫅櫆櫇櫈櫉櫊櫋櫌櫍櫎櫏櫐櫑櫒櫓櫔櫕櫖櫗櫘櫙櫚櫛櫜櫝櫞櫟櫠櫡櫢櫣櫤櫥櫦櫧櫨櫩櫪櫫櫬櫭櫮櫯櫰櫱櫲櫳櫴櫵櫶櫷櫸櫹櫺櫻櫼櫽櫾櫿欀欁欂欃欄欅欆欇欈欉權欋欌欍欎欏欐欑欒欓欔欕欖欗欘欙欚欛欜欝欞欟欥欦欨欩欪欫欬欭欮";
  "欯欰欱欳欴欵欶欸欻欼欽欿歀歁歂歄歅歈歊歋歍歎歏歐歑歒歓歔歕歖歗歘歚歛歜歝歞歟歠歡歨歩歫歬歭歮歯歰歱歲歳歴歵歶歷歸歺歽歾歿殀殅殈?殌殎殏殐殑殔殕殗殘殙殜殝殞殟殠殢殣殤殥殦殧殨殩殫殬殭殮殯殰殱殲殶殸殹殺殻殼殽殾毀毃毄毆毇毈毉毊毌毎毐毑毘毚毜毝毞毟毠毢毣毤毥毦毧毨毩毬毭毮毰毱毲毴毶毷毸毺毻毼毾毿氀氁氂氃氄氈氉氊氋氌氎氒気氜氝氞氠氣氥氫氬氭氱氳氶氷氹氺氻氼氾氿汃汄汅汈汋汌汍汎汏汑汒汓汖汘";
  "汙汚汢汣汥汦汧汫汬汭汮汯汱汳汵汷汸決汻汼汿沀沄沇沊沋沍沎沑沒沕沖沗沘沚沜沝沞沠沢沨沬沯沰沴沵沶沷沺泀況泂泃泆泇泈泋泍泎泏泑泒泘?泙泚泜泝泟泤泦泧泩泬泭泲泴泹泿洀洂洃洅洆洈洉洊洍洏洐洑洓洔洕洖洘洜洝洟洠洡洢洣洤洦洨洩洬洭洯洰洴洶洷洸洺洿浀浂浄浉浌浐浕浖浗浘浛浝浟浡浢浤浥浧浨浫浬浭浰浱浲浳浵浶浹浺浻浽浾浿涀涁涃涄涆涇涊涋涍涏涐涒涖涗涘涙涚涜涢涥涬涭涰涱涳涴涶涷涹涺涻涼涽涾淁淂淃淈淉淊";
  "淍淎淏淐淒淓淔淕淗淚淛淜淟淢淣淥淧淨淩淪淭淯淰淲淴淵淶淸淺淽淾淿渀渁渂渃渄渆渇済渉渋渏渒渓渕渘渙減渜渞渟渢渦渧渨渪測渮渰渱渳渵?渶渷渹渻渼渽渾渿湀湁湂湅湆湇湈湉湊湋湌湏湐湑湒湕湗湙湚湜湝湞湠湡湢湣湤湥湦湧湨湩湪湬湭湯湰湱湲湳湴湵湶湷湸湹湺湻湼湽満溁溂溄溇溈溊溋溌溍溎溑溒溓溔溕準溗溙溚溛溝溞溠溡溣溤溦溨溩溫溬溭溮溰溳溵溸溹溼溾溿滀滃滄滅滆滈滉滊滌滍滎滐滒滖滘滙滛滜滝滣滧滪滫滬滭滮滯";
  "滰滱滲滳滵滶滷滸滺滻滼滽滾滿漀漁漃漄漅漇漈漊漋漌漍漎漐漑漒漖漗漘漙漚漛漜漝漞漟漡漢漣漥漦漧漨漬漮漰漲漴漵漷漸漹漺漻漼漽漿潀潁潂?潃潄潅潈潉潊潌潎潏潐潑潒潓潔潕潖潗潙潚潛潝潟潠潡潣潤潥潧潨潩潪潫潬潯潰潱潳潵潶潷潹潻潽潾潿澀澁澂澃澅澆澇澊澋澏澐澑澒澓澔澕澖澗澘澙澚澛澝澞澟澠澢澣澤澥澦澨澩澪澫澬澭澮澯澰澱澲澴澵澷澸澺澻澼澽澾澿濁濃濄濅濆濇濈濊濋濌濍濎濏濐濓濔濕濖濗濘濙濚濛濜濝濟濢濣濤濥";
  "濦濧濨濩濪濫濬濭濰濱濲濳濴濵濶濷濸濹濺濻濼濽濾濿瀀瀁瀂瀃瀄瀅瀆瀇瀈瀉瀊瀋瀌瀍瀎瀏瀐瀒瀓瀔瀕瀖瀗瀘瀙瀜瀝瀞瀟瀠瀡瀢瀤瀥瀦瀧瀨瀩瀪?瀫瀬瀭瀮瀯瀰瀱瀲瀳瀴瀶瀷瀸瀺瀻瀼瀽瀾瀿灀灁灂灃灄灅灆灇灈灉灊灋灍灎灐灑灒灓灔灕灖灗灘灙灚灛灜灝灟灠灡灢灣灤灥灦灧灨灩灪灮灱灲灳灴灷灹灺灻災炁炂炃炄炆炇炈炋炌炍炏炐炑炓炗炘炚炛炞炟炠炡炢炣炤炥炦炧炨炩炪炰炲炴炵炶為炾炿烄烅烆烇烉烋烌烍烎烏烐烑烒烓烔烕烖烗烚";
  "烜烝烞烠烡烢烣烥烪烮烰烱烲烳烴烵烶烸烺烻烼烾烿焀焁焂焃焄焅焆焇焈焋焌焍焎焏焑焒焔焗焛焜焝焞焟焠無焢焣焤焥焧焨焩焪焫焬焭焮焲焳焴?焵焷焸焹焺焻焼焽焾焿煀煁煂煃煄煆煇煈煉煋煍煏煐煑煒煓煔煕煖煗煘煙煚煛煝煟煠煡煢煣煥煩煪煫煬煭煯煰煱煴煵煶煷煹煻煼煾煿熀熁熂熃熅熆熇熈熉熋熌熍熎熐熑熒熓熕熖熗熚熛熜熝熞熡熢熣熤熥熦熧熩熪熫熭熮熯熰熱熲熴熶熷熸熺熻熼熽熾熿燀燁燂燄燅燆燇燈燉燊燋燌燍燏燐燑燒燓";
  "燖燗燘燙燚燛燜燝燞營燡燢燣燤燦燨燩燪燫燬燭燯燰燱燲燳燴燵燶燷燸燺燻燼燽燾燿爀爁爂爃爄爅爇爈爉爊爋爌爍爎爏爐爑爒爓爔爕爖爗爘爙爚?爛爜爞爟爠爡爢爣爤爥爦爧爩爫爭爮爯爲爳爴爺爼爾牀牁牂牃牄牅牆牉牊牋牎牏牐牑牓牔牕牗牘牚牜牞牠牣牤牥牨牪牫牬牭牰牱牳牴牶牷牸牻牼牽犂犃犅犆犇犈犉犌犎犐犑犓犔犕犖犗犘犙犚犛犜犝犞犠犡犢犣犤犥犦犧犨犩犪犫犮犱犲犳犵犺犻犼犽犾犿狀狅狆狇狉狊狋狌狏狑狓狔狕狖狘狚狛";
  "?????????????????????????????????????????????????????????????????????????????????????????????????　、。·ˉˇ¨〃々—～‖…‘’“”〔〕〈〉《》「」『』〖〗【】±×÷∶∧∨∑∏∪∩∈∷√⊥∥∠⌒⊙∫∮≡≌≈∽∝≠≮≯≤≥∞∵∴♂♀°′″℃＄¤￠￡‰§№☆★○●◎◇◆□■△▲※→←↑↓〓";
  "?????????????????????????????????????????????????????????????????????????????????????????????????ⅰⅱⅲⅳⅴⅵⅶⅷⅸⅹ??????⒈⒉⒊⒋⒌⒍⒎⒏⒐⒑⒒⒓⒔⒕⒖⒗⒘⒙⒚⒛⑴⑵⑶⑷⑸⑹⑺⑻⑼⑽⑾⑿⒀⒁⒂⒃⒄⒅⒆⒇①②③④⑤⑥⑦⑧⑨⑩??㈠㈡㈢㈣㈤㈥㈦㈧㈨㈩??ⅠⅡⅢⅣⅤⅥⅦⅧⅨⅩⅪⅫ??";
  "?????????????????????????????????????????????????????????????????????????????????????????????????！＂＃￥％＆＇（）＊＋，－．／０１２３４５６７８９：；＜＝＞？＠ＡＢＣＤＥＦＧＨＩＪＫＬＭＮＯＰＱＲＳＴＵＶＷＸＹＺ［＼］＾＿｀ａｂｃｄｅｆｇｈｉｊｋｌｍｎｏｐｑｒｓｔｕｖｗｘｙｚ｛｜｝￣";
  "?????????????????????????????????????????????????????????????????????????????????????????????????ぁあぃいぅうぇえぉおかがきぎくぐけげこごさざしじすずせぜそぞただちぢっつづてでとどなにぬねのはばぱひびぴふぶぷへべぺほぼぽまみむめもゃやゅゆょよらりるれろゎわゐゑをん???????????";
  "?????????????????????????????????????????????????????????????????????????????????????????????????ァアィイゥウェエォオカガキギクグケゲコゴサザシジスズセゼソゾタダチヂッツヅテデトドナニヌネノハバパヒビピフブプヘベペホボポマミムメモャヤュユョヨラリルレロヮワヰヱヲンヴヵヶ????????";
  "?????????????????????????????????????????????????????????????????????????????????????????????????ΑΒΓΔΕΖΗΘΙΚΛΜΝΞΟΠΡΣΤΥΦΧΨΩ????????αβγδεζηθικλμνξοπρστυφχψω???????︵︶︹︺︿﹀︽︾﹁﹂﹃﹄??︻︼︷︸︱?︳︴?????????";
  "?????????????????????????????????????????????????????????????????????????????????????????????????АБВГДЕЁЖЗИЙКЛМНОПРСТУФХЦЧШЩЪЫЬЭЮЯ???????????????абвгдеёжзийклмнопрстуфхцчшщъыьэюя?????????????";
  "ˊˋ˙–―‥‵℅℉↖↗↘↙∕∟∣≒≦≧⊿═║╒╓╔╕╖╗╘╙╚╛╜╝╞╟╠╡╢╣╤╥╦╧╨╩╪╫╬╭╮╯╰╱╲╳▁▂▃▄▅▆▇?█▉▊▋▌▍▎▏▓▔▕▼▽◢◣◤◥☉⊕〒〝〞???????????āáǎàēéěèīíǐìōóǒòūúǔùǖǘǚǜüêɑ?ńň?ɡ????ㄅㄆㄇㄈㄉㄊㄋㄌㄍㄎㄏㄐㄑㄒㄓㄔㄕㄖㄗㄘㄙㄚㄛㄜㄝㄞㄟㄠㄡㄢㄣㄤㄥㄦㄧㄨㄩ?????????????????????";
  "〡〢〣〤〥〦〧〨〩㊣㎎㎏㎜㎝㎞㎡㏄㏎㏑㏒㏕︰￢￤?℡㈱?‐???ー゛゜ヽヾ〆ゝゞ﹉﹊﹋﹌﹍﹎﹏﹐﹑﹒﹔﹕﹖﹗﹙﹚﹛﹜﹝﹞﹟﹠﹡?﹢﹣﹤﹥﹦﹨﹩﹪﹫?????????????〇?????????????─━│┃┄┅┆┇┈┉┊┋┌┍┎┏┐┑┒┓└┕┖┗┘┙┚┛├┝┞┟┠┡┢┣┤┥┦┧┨┩┪┫┬┭┮┯┰┱┲┳┴┵┶┷┸┹┺┻┼┽┾┿╀╁╂╃╄╅╆╇╈╉╊╋???????????????";
  "狜狝狟狢狣狤狥狦狧狪狫狵狶狹狽狾狿猀猂猄猅猆猇猈猉猋猌猍猏猐猑猒猔猘猙猚猟猠猣猤猦猧猨猭猯猰猲猳猵猶猺猻猼猽獀獁獂獃獄獅獆獇獈?獉獊獋獌獎獏獑獓獔獕獖獘獙獚獛獜獝獞獟獡獢獣獤獥獦獧獨獩獪獫獮獰獱??????????????????????????????????????????????????????????????????????????????????????????????";
  "獲獳獴獵獶獷獸獹獺獻獼獽獿玀玁玂玃玅玆玈玊玌玍玏玐玒玓玔玕玗玘玙玚玜玝玞玠玡玣玤玥玦玧玨玪玬玭玱玴玵玶玸玹玼玽玾玿珁珃珄珅珆珇?珋珌珎珒珓珔珕珖珗珘珚珛珜珝珟珡珢珣珤珦珨珪珫珬珮珯珰珱珳珴珵珶珷??????????????????????????????????????????????????????????????????????????????????????????????";
  "珸珹珺珻珼珽現珿琀琁琂琄琇琈琋琌琍琎琑琒琓琔琕琖琗琘琙琜琝琞琟琠琡琣琤琧琩琫琭琯琱琲琷琸琹琺琻琽琾琿瑀瑂瑃瑄瑅瑆瑇瑈瑉瑊瑋瑌瑍?瑎瑏瑐瑑瑒瑓瑔瑖瑘瑝瑠瑡瑢瑣瑤瑥瑦瑧瑨瑩瑪瑫瑬瑮瑯瑱瑲瑳瑴瑵瑸瑹瑺??????????????????????????????????????????????????????????????????????????????????????????????";
  "瑻瑼瑽瑿璂璄璅璆璈璉璊璌璍璏璑璒璓璔璕璖璗璘璙璚璛璝璟璠璡璢璣璤璥璦璪璫璬璭璮璯環璱璲璳璴璵璶璷璸璹璻璼璽璾璿瓀瓁瓂瓃瓄瓅瓆瓇?瓈瓉瓊瓋瓌瓍瓎瓏瓐瓑瓓瓔瓕瓖瓗瓘瓙瓚瓛瓝瓟瓡瓥瓧瓨瓩瓪瓫瓬瓭瓰瓱瓲??????????????????????????????????????????????????????????????????????????????????????????????";
  "瓳瓵瓸瓹瓺瓻瓼瓽瓾甀甁甂甃甅甆甇甈甉甊甋甌甎甐甒甔甕甖甗甛甝甞甠甡產産甤甦甧甪甮甴甶甹甼甽甿畁畂畃畄畆畇畉畊畍畐畑畒畓畕畖畗畘?畝畞畟畠畡畢畣畤畧畨畩畫畬畭畮畯異畱畳畵當畷畺畻畼畽畾疀疁疂疄疅疇??????????????????????????????????????????????????????????????????????????????????????????????";
  "疈疉疊疌疍疎疐疓疕疘疛疜疞疢疦疧疨疩疪疭疶疷疺疻疿痀痁痆痋痌痎痏痐痑痓痗痙痚痜痝痟痠痡痥痩痬痭痮痯痲痳痵痶痷痸痺痻痽痾瘂瘄瘆瘇?瘈瘉瘋瘍瘎瘏瘑瘒瘓瘔瘖瘚瘜瘝瘞瘡瘣瘧瘨瘬瘮瘯瘱瘲瘶瘷瘹瘺瘻瘽癁療癄??????????????????????????????????????????????????????????????????????????????????????????????";
  "癅癆癇癈癉癊癋癎癏癐癑癒癓癕癗癘癙癚癛癝癟癠癡癢癤癥癦癧癨癩癪癬癭癮癰癱癲癳癴癵癶癷癹発發癿皀皁皃皅皉皊皌皍皏皐皒皔皕皗皘皚皛?皜皝皞皟皠皡皢皣皥皦皧皨皩皪皫皬皭皯皰皳皵皶皷皸皹皺皻皼皽皾盀盁盃啊阿埃挨哎唉哀皑癌蔼矮艾碍爱隘鞍氨安俺按暗岸胺案肮昂盎凹敖熬翱袄傲奥懊澳芭捌扒叭吧笆八疤巴拔跋靶把耙坝霸罢爸白柏百摆佰败拜稗斑班搬扳般颁板版扮拌伴瓣半办绊邦帮梆榜膀绑棒磅蚌镑傍谤苞胞包褒剥";
  "盄盇盉盋盌盓盕盙盚盜盝盞盠盡盢監盤盦盧盨盩盪盫盬盭盰盳盵盶盷盺盻盽盿眀眂眃眅眆眊県眎眏眐眑眒眓眔眕眖眗眘眛眜眝眞眡眣眤眥眧眪眫?眬眮眰眱眲眳眴眹眻眽眾眿睂睄睅睆睈睉睊睋睌睍睎睏睒睓睔睕睖睗睘睙睜薄雹保堡饱宝抱报暴豹鲍爆杯碑悲卑北辈背贝钡倍狈备惫焙被奔苯本笨崩绷甭泵蹦迸逼鼻比鄙笔彼碧蓖蔽毕毙毖币庇痹闭敝弊必辟壁臂避陛鞭边编贬扁便变卞辨辩辫遍标彪膘表鳖憋别瘪彬斌濒滨宾摈兵冰柄丙秉饼炳";
  "睝睞睟睠睤睧睩睪睭睮睯睰睱睲睳睴睵睶睷睸睺睻睼瞁瞂瞃瞆瞇瞈瞉瞊瞋瞏瞐瞓瞔瞕瞖瞗瞘瞙瞚瞛瞜瞝瞞瞡瞣瞤瞦瞨瞫瞭瞮瞯瞱瞲瞴瞶瞷瞸瞹瞺?瞼瞾矀矁矂矃矄矅矆矇矈矉矊矋矌矎矏矐矑矒矓矔矕矖矘矙矚矝矞矟矠矡矤病并玻菠播拨钵波博勃搏铂箔伯帛舶脖膊渤泊驳捕卜哺补埠不布步簿部怖擦猜裁材才财睬踩采彩菜蔡餐参蚕残惭惨灿苍舱仓沧藏操糙槽曹草厕策侧册测层蹭插叉茬茶查碴搽察岔差诧拆柴豺搀掺蝉馋谗缠铲产阐颤昌猖";
  "矦矨矪矯矰矱矲矴矵矷矹矺矻矼砃砄砅砆砇砈砊砋砎砏砐砓砕砙砛砞砠砡砢砤砨砪砫砮砯砱砲砳砵砶砽砿硁硂硃硄硆硈硉硊硋硍硏硑硓硔硘硙硚?硛硜硞硟硠硡硢硣硤硥硦硧硨硩硯硰硱硲硳硴硵硶硸硹硺硻硽硾硿碀碁碂碃场尝常长偿肠厂敞畅唱倡超抄钞朝嘲潮巢吵炒车扯撤掣彻澈郴臣辰尘晨忱沉陈趁衬撑称城橙成呈乘程惩澄诚承逞骋秤吃痴持匙池迟弛驰耻齿侈尺赤翅斥炽充冲虫崇宠抽酬畴踌稠愁筹仇绸瞅丑臭初出橱厨躇锄雏滁除楚";
  "碄碅碆碈碊碋碏碐碒碔碕碖碙碝碞碠碢碤碦碨碩碪碫碬碭碮碯碵碶碷碸確碻碼碽碿磀磂磃磄磆磇磈磌磍磎磏磑磒磓磖磗磘磚磛磜磝磞磟磠磡磢磣?磤磥磦磧磩磪磫磭磮磯磰磱磳磵磶磸磹磻磼磽磾磿礀礂礃礄礆礇礈礉礊礋礌础储矗搐触处揣川穿椽传船喘串疮窗幢床闯创吹炊捶锤垂春椿醇唇淳纯蠢戳绰疵茨磁雌辞慈瓷词此刺赐次聪葱囱匆从丛凑粗醋簇促蹿篡窜摧崔催脆瘁粹淬翠村存寸磋撮搓措挫错搭达答瘩打大呆歹傣戴带殆代贷袋待逮";
  "礍礎礏礐礑礒礔礕礖礗礘礙礚礛礜礝礟礠礡礢礣礥礦礧礨礩礪礫礬礭礮礯礰礱礲礳礵礶礷礸礹礽礿祂祃祄祅祇祊祋祌祍祎祏祐祑祒祔祕祘祙祡祣?祤祦祩祪祫祬祮祰祱祲祳祴祵祶祹祻祼祽祾祿禂禃禆禇禈禉禋禌禍禎禐禑禒怠耽担丹单郸掸胆旦氮但惮淡诞弹蛋当挡党荡档刀捣蹈倒岛祷导到稻悼道盗德得的蹬灯登等瞪凳邓堤低滴迪敌笛狄涤翟嫡抵底地蒂第帝弟递缔颠掂滇碘点典靛垫电佃甸店惦奠淀殿碉叼雕凋刁掉吊钓调跌爹碟蝶迭谍叠";
  "禓禔禕禖禗禘禙禛禜禝禞禟禠禡禢禣禤禥禦禨禩禪禫禬禭禮禯禰禱禲禴禵禶禷禸禼禿秂秄秅秇秈秊秌秎秏秐秓秔秖秗秙秚秛秜秝秞秠秡秢秥秨秪?秬秮秱秲秳秴秵秶秷秹秺秼秾秿稁稄稅稇稈稉稊稌稏稐稑稒稓稕稖稘稙稛稜丁盯叮钉顶鼎锭定订丢东冬董懂动栋侗恫冻洞兜抖斗陡豆逗痘都督毒犊独读堵睹赌杜镀肚度渡妒端短锻段断缎堆兑队对墩吨蹲敦顿囤钝盾遁掇哆多夺垛躲朵跺舵剁惰堕蛾峨鹅俄额讹娥恶厄扼遏鄂饿恩而儿耳尔饵洱二";
  "稝稟稡稢稤稥稦稧稨稩稪稫稬稭種稯稰稱稲稴稵稶稸稺稾穀穁穂穃穄穅穇穈穉穊穋穌積穎穏穐穒穓穔穕穖穘穙穚穛穜穝穞穟穠穡穢穣穤穥穦穧穨?穩穪穫穬穭穮穯穱穲穳穵穻穼穽穾窂窅窇窉窊窋窌窎窏窐窓窔窙窚窛窞窡窢贰发罚筏伐乏阀法珐藩帆番翻樊矾钒繁凡烦反返范贩犯饭泛坊芳方肪房防妨仿访纺放菲非啡飞肥匪诽吠肺废沸费芬酚吩氛分纷坟焚汾粉奋份忿愤粪丰封枫蜂峰锋风疯烽逢冯缝讽奉凤佛否夫敷肤孵扶拂辐幅氟符伏俘服";
  "窣窤窧窩窪窫窮窯窰窱窲窴窵窶窷窸窹窺窻窼窽窾竀竁竂竃竄竅竆竇竈竉竊竌竍竎竏竐竑竒竓竔竕竗竘竚竛竜竝竡竢竤竧竨竩竪竫竬竮竰竱竲竳?竴竵競竷竸竻竼竾笀笁笂笅笇笉笌笍笎笐笒笓笖笗笘笚笜笝笟笡笢笣笧笩笭浮涪福袱弗甫抚辅俯釜斧脯腑府腐赴副覆赋复傅付阜父腹负富讣附妇缚咐噶嘎该改概钙盖溉干甘杆柑竿肝赶感秆敢赣冈刚钢缸肛纲岗港杠篙皋高膏羔糕搞镐稿告哥歌搁戈鸽胳疙割革葛格蛤阁隔铬个各给根跟耕更庚羹";
  "笯笰笲笴笵笶笷笹笻笽笿筀筁筂筃筄筆筈筊筍筎筓筕筗筙筜筞筟筡筣筤筥筦筧筨筩筪筫筬筭筯筰筳筴筶筸筺筼筽筿箁箂箃箄箆箇箈箉箊箋箌箎箏?箑箒箓箖箘箙箚箛箞箟箠箣箤箥箮箯箰箲箳箵箶箷箹箺箻箼箽箾箿節篂篃範埂耿梗工攻功恭龚供躬公宫弓巩汞拱贡共钩勾沟苟狗垢构购够辜菇咕箍估沽孤姑鼓古蛊骨谷股故顾固雇刮瓜剐寡挂褂乖拐怪棺关官冠观管馆罐惯灌贯光广逛瑰规圭硅归龟闺轨鬼诡癸桂柜跪贵刽辊滚棍锅郭国果裹过哈";
  "篅篈築篊篋篍篎篏篐篒篔篕篖篗篘篛篜篞篟篠篢篣篤篧篨篩篫篬篭篯篰篲篳篴篵篶篸篹篺篻篽篿簀簁簂簃簄簅簆簈簉簊簍簎簐簑簒簓簔簕簗簘簙?簚簛簜簝簞簠簡簢簣簤簥簨簩簫簬簭簮簯簰簱簲簳簴簵簶簷簹簺簻簼簽簾籂骸孩海氦亥害骇酣憨邯韩含涵寒函喊罕翰撼捍旱憾悍焊汗汉夯杭航壕嚎豪毫郝好耗号浩呵喝荷菏核禾和何合盒貉阂河涸赫褐鹤贺嘿黑痕很狠恨哼亨横衡恒轰哄烘虹鸿洪宏弘红喉侯猴吼厚候后呼乎忽瑚壶葫胡蝴狐糊湖";
  "籃籄籅籆籇籈籉籊籋籌籎籏籐籑籒籓籔籕籖籗籘籙籚籛籜籝籞籟籠籡籢籣籤籥籦籧籨籩籪籫籬籭籮籯籰籱籲籵籶籷籸籹籺籾籿粀粁粂粃粄粅粆粇?粈粊粋粌粍粎粏粐粓粔粖粙粚粛粠粡粣粦粧粨粩粫粬粭粯粰粴粵粶粷粸粺粻弧虎唬护互沪户花哗华猾滑画划化话槐徊怀淮坏欢环桓还缓换患唤痪豢焕涣宦幻荒慌黄磺蝗簧皇凰惶煌晃幌恍谎灰挥辉徽恢蛔回毁悔慧卉惠晦贿秽会烩汇讳诲绘荤昏婚魂浑混豁活伙火获或惑霍货祸击圾基机畸稽积箕";
  "粿糀糂糃糄糆糉糋糎糏糐糑糒糓糔糘糚糛糝糞糡糢糣糤糥糦糧糩糪糫糬糭糮糰糱糲糳糴糵糶糷糹糺糼糽糾糿紀紁紂紃約紅紆紇紈紉紋紌納紎紏紐?紑紒紓純紕紖紗紘紙級紛紜紝紞紟紡紣紤紥紦紨紩紪紬紭紮細紱紲紳紴紵紶肌饥迹激讥鸡姬绩缉吉极棘辑籍集及急疾汲即嫉级挤几脊己蓟技冀季伎祭剂悸济寄寂计记既忌际妓继纪嘉枷夹佳家加荚颊贾甲钾假稼价架驾嫁歼监坚尖笺间煎兼肩艰奸缄茧检柬碱硷拣捡简俭剪减荐槛鉴践贱见键箭件";
  "紷紸紹紺紻紼紽紾紿絀絁終絃組絅絆絇絈絉絊絋経絍絎絏結絑絒絓絔絕絖絗絘絙絚絛絜絝絞絟絠絡絢絣絤絥給絧絨絩絪絫絬絭絯絰統絲絳絴絵絶?絸絹絺絻絼絽絾絿綀綁綂綃綄綅綆綇綈綉綊綋綌綍綎綏綐綑綒經綔綕綖綗綘健舰剑饯渐溅涧建僵姜将浆江疆蒋桨奖讲匠酱降蕉椒礁焦胶交郊浇骄娇嚼搅铰矫侥脚狡角饺缴绞剿教酵轿较叫窖揭接皆秸街阶截劫节桔杰捷睫竭洁结解姐戒藉芥界借介疥诫届巾筋斤金今津襟紧锦仅谨进靳晋禁近烬浸";
  "継続綛綜綝綞綟綠綡綢綣綤綥綧綨綩綪綫綬維綯綰綱網綳綴綵綶綷綸綹綺綻綼綽綾綿緀緁緂緃緄緅緆緇緈緉緊緋緌緍緎総緐緑緒緓緔緕緖緗緘緙?線緛緜緝緞緟締緡緢緣緤緥緦緧編緩緪緫緬緭緮緯緰緱緲緳練緵緶緷緸緹緺尽劲荆兢茎睛晶鲸京惊精粳经井警景颈静境敬镜径痉靖竟竞净炯窘揪究纠玖韭久灸九酒厩救旧臼舅咎就疚鞠拘狙疽居驹菊局咀矩举沮聚拒据巨具距踞锯俱句惧炬剧捐鹃娟倦眷卷绢撅攫抉掘倔爵觉决诀绝均菌钧军君峻";
  "緻緼緽緾緿縀縁縂縃縄縅縆縇縈縉縊縋縌縍縎縏縐縑縒縓縔縕縖縗縘縙縚縛縜縝縞縟縠縡縢縣縤縥縦縧縨縩縪縫縬縭縮縯縰縱縲縳縴縵縶縷縸縹?縺縼總績縿繀繂繃繄繅繆繈繉繊繋繌繍繎繏繐繑繒繓織繕繖繗繘繙繚繛繜繝俊竣浚郡骏喀咖卡咯开揩楷凯慨刊堪勘坎砍看康慷糠扛抗亢炕考拷烤靠坷苛柯棵磕颗科壳咳可渴克刻客课肯啃垦恳坑吭空恐孔控抠口扣寇枯哭窟苦酷库裤夸垮挎跨胯块筷侩快宽款匡筐狂框矿眶旷况亏盔岿窥葵奎魁傀";
  "繞繟繠繡繢繣繤繥繦繧繨繩繪繫繬繭繮繯繰繱繲繳繴繵繶繷繸繹繺繻繼繽繾繿纀纁纃纄纅纆纇纈纉纊纋續纍纎纏纐纑纒纓纔纕纖纗纘纙纚纜纝纞?纮纴纻纼绖绤绬绹缊缐缞缷缹缻缼缽缾缿罀罁罃罆罇罈罉罊罋罌罍罎罏罒罓馈愧溃坤昆捆困括扩廓阔垃拉喇蜡腊辣啦莱来赖蓝婪栏拦篮阑兰澜谰揽览懒缆烂滥琅榔狼廊郎朗浪捞劳牢老佬姥酪烙涝勒乐雷镭蕾磊累儡垒擂肋类泪棱楞冷厘梨犁黎篱狸离漓理李里鲤礼莉荔吏栗丽厉励砾历利傈例俐";
  "罖罙罛罜罝罞罠罣罤罥罦罧罫罬罭罯罰罳罵罶罷罸罺罻罼罽罿羀羂羃羄羅羆羇羈羉羋羍羏羐羑羒羓羕羖羗羘羙羛羜羠羢羣羥羦羨義羪羫羬羭羮羱?羳羴羵羶羷羺羻羾翀翂翃翄翆翇翈翉翋翍翏翐翑習翓翖翗翙翚翛翜翝翞翢翣痢立粒沥隶力璃哩俩联莲连镰廉怜涟帘敛脸链恋炼练粮凉梁粱良两辆量晾亮谅撩聊僚疗燎寥辽潦了撂镣廖料列裂烈劣猎琳林磷霖临邻鳞淋凛赁吝拎玲菱零龄铃伶羚凌灵陵岭领另令溜琉榴硫馏留刘瘤流柳六龙聋咙笼窿";
  "翤翧翨翪翫翬翭翯翲翴翵翶翷翸翹翺翽翾翿耂耇耈耉耊耎耏耑耓耚耛耝耞耟耡耣耤耫耬耭耮耯耰耲耴耹耺耼耾聀聁聄聅聇聈聉聎聏聐聑聓聕聖聗?聙聛聜聝聞聟聠聡聢聣聤聥聦聧聨聫聬聭聮聯聰聲聳聴聵聶職聸聹聺聻聼聽隆垄拢陇楼娄搂篓漏陋芦卢颅庐炉掳卤虏鲁麓碌露路赂鹿潞禄录陆戮驴吕铝侣旅履屡缕虑氯律率滤绿峦挛孪滦卵乱掠略抡轮伦仑沦纶论萝螺罗逻锣箩骡裸落洛骆络妈麻玛码蚂马骂嘛吗埋买麦卖迈脉瞒馒蛮满蔓曼慢漫";
  "聾肁肂肅肈肊肍肎肏肐肑肒肔肕肗肙肞肣肦肧肨肬肰肳肵肶肸肹肻胅胇胈胉胊胋胏胐胑胒胓胔胕胘胟胠胢胣胦胮胵胷胹胻胾胿脀脁脃脄脅脇脈脋?脌脕脗脙脛脜脝脟脠脡脢脣脤脥脦脧脨脩脪脫脭脮脰脳脴脵脷脹脺脻脼脽脿谩芒茫盲氓忙莽猫茅锚毛矛铆卯茂冒帽貌贸么玫枚梅酶霉煤没眉媒镁每美昧寐妹媚门闷们萌蒙檬盟锰猛梦孟眯醚靡糜迷谜弥米秘觅泌蜜密幂棉眠绵冕免勉娩缅面苗描瞄藐秒渺庙妙蔑灭民抿皿敏悯闽明螟鸣铭名命谬摸";
  "腀腁腂腃腄腅腇腉腍腎腏腒腖腗腘腛腜腝腞腟腡腢腣腤腦腨腪腫腬腯腲腳腵腶腷腸膁膃膄膅膆膇膉膋膌膍膎膐膒膓膔膕膖膗膙膚膞膟膠膡膢膤膥?膧膩膫膬膭膮膯膰膱膲膴膵膶膷膸膹膼膽膾膿臄臅臇臈臉臋臍臎臏臐臑臒臓摹蘑模膜磨摩魔抹末莫墨默沫漠寞陌谋牟某拇牡亩姆母墓暮幕募慕木目睦牧穆拿哪呐钠那娜纳氖乃奶耐奈南男难囊挠脑恼闹淖呢馁内嫩能妮霓倪泥尼拟你匿腻逆溺蔫拈年碾撵捻念娘酿鸟尿捏聂孽啮镊镍涅您柠狞凝宁";
  "臔臕臖臗臘臙臚臛臜臝臞臟臠臡臢臤臥臦臨臩臫臮臯臰臱臲臵臶臷臸臹臺臽臿舃與興舉舊舋舎舏舑舓舕舖舗舘舙舚舝舠舤舥舦舧舩舮舲舺舼舽舿?艀艁艂艃艅艆艈艊艌艍艎艐艑艒艓艔艕艖艗艙艛艜艝艞艠艡艢艣艤艥艦艧艩拧泞牛扭钮纽脓浓农弄奴努怒女暖虐疟挪懦糯诺哦欧鸥殴藕呕偶沤啪趴爬帕怕琶拍排牌徘湃派攀潘盘磐盼畔判叛乓庞旁耪胖抛咆刨炮袍跑泡呸胚培裴赔陪配佩沛喷盆砰抨烹澎彭蓬棚硼篷膨朋鹏捧碰坯砒霹批披劈琵毗";
  "艪艫艬艭艱艵艶艷艸艻艼芀芁芃芅芆芇芉芌芐芓芔芕芖芚芛芞芠芢芣芧芲芵芶芺芻芼芿苀苂苃苅苆苉苐苖苙苚苝苢苧苨苩苪苬苭苮苰苲苳苵苶苸?苺苼苽苾苿茀茊茋茍茐茒茓茖茘茙茝茞茟茠茡茢茣茤茥茦茩茪茮茰茲茷茻茽啤脾疲皮匹痞僻屁譬篇偏片骗飘漂瓢票撇瞥拼频贫品聘乒坪苹萍平凭瓶评屏坡泼颇婆破魄迫粕剖扑铺仆莆葡菩蒲埔朴圃普浦谱曝瀑期欺栖戚妻七凄漆柒沏其棋奇歧畦崎脐齐旗祈祁骑起岂乞企启契砌器气迄弃汽泣讫掐";
  "茾茿荁荂荄荅荈荊荋荌荍荎荓荕荖荗荘荙荝荢荰荱荲荳荴荵荶荹荺荾荿莀莁莂莃莄莇莈莊莋莌莍莏莐莑莔莕莖莗莙莚莝莟莡莢莣莤莥莦莧莬莭莮?莯莵莻莾莿菂菃菄菆菈菉菋菍菎菐菑菒菓菕菗菙菚菛菞菢菣菤菦菧菨菫菬菭恰洽牵扦钎铅千迁签仟谦乾黔钱钳前潜遣浅谴堑嵌欠歉枪呛腔羌墙蔷强抢橇锹敲悄桥瞧乔侨巧鞘撬翘峭俏窍切茄且怯窃钦侵亲秦琴勤芹擒禽寝沁青轻氢倾卿清擎晴氰情顷请庆琼穷秋丘邱球求囚酋泅趋区蛆曲躯屈驱渠";
  "菮華菳菴菵菶菷菺菻菼菾菿萀萂萅萇萈萉萊萐萒萓萔萕萖萗萙萚萛萞萟萠萡萢萣萩萪萫萬萭萮萯萰萲萳萴萵萶萷萹萺萻萾萿葀葁葂葃葄葅葇葈葉?葊葋葌葍葎葏葐葒葓葔葕葖葘葝葞葟葠葢葤葥葦葧葨葪葮葯葰葲葴葷葹葻葼取娶龋趣去圈颧权醛泉全痊拳犬券劝缺炔瘸却鹊榷确雀裙群然燃冉染瓤壤攘嚷让饶扰绕惹热壬仁人忍韧任认刃妊纫扔仍日戎茸蓉荣融熔溶容绒冗揉柔肉茹蠕儒孺如辱乳汝入褥软阮蕊瑞锐闰润若弱撒洒萨腮鳃塞赛三叁";
  "葽葾葿蒀蒁蒃蒄蒅蒆蒊蒍蒏蒐蒑蒒蒓蒔蒕蒖蒘蒚蒛蒝蒞蒟蒠蒢蒣蒤蒥蒦蒧蒨蒩蒪蒫蒬蒭蒮蒰蒱蒳蒵蒶蒷蒻蒼蒾蓀蓂蓃蓅蓆蓇蓈蓋蓌蓎蓏蓒蓔蓕蓗?蓘蓙蓚蓛蓜蓞蓡蓢蓤蓧蓨蓩蓪蓫蓭蓮蓯蓱蓲蓳蓴蓵蓶蓷蓸蓹蓺蓻蓽蓾蔀蔁蔂伞散桑嗓丧搔骚扫嫂瑟色涩森僧莎砂杀刹沙纱傻啥煞筛晒珊苫杉山删煽衫闪陕擅赡膳善汕扇缮墒伤商赏晌上尚裳梢捎稍烧芍勺韶少哨邵绍奢赊蛇舌舍赦摄射慑涉社设砷申呻伸身深娠绅神沈审婶甚肾慎渗声生甥牲升绳";
  "蔃蔄蔅蔆蔇蔈蔉蔊蔋蔍蔎蔏蔐蔒蔔蔕蔖蔘蔙蔛蔜蔝蔞蔠蔢蔣蔤蔥蔦蔧蔨蔩蔪蔭蔮蔯蔰蔱蔲蔳蔴蔵蔶蔾蔿蕀蕁蕂蕄蕅蕆蕇蕋蕌蕍蕎蕏蕐蕑蕒蕓蕔蕕?蕗蕘蕚蕛蕜蕝蕟蕠蕡蕢蕣蕥蕦蕧蕩蕪蕫蕬蕭蕮蕯蕰蕱蕳蕵蕶蕷蕸蕼蕽蕿薀薁省盛剩胜圣师失狮施湿诗尸虱十石拾时什食蚀实识史矢使屎驶始式示士世柿事拭誓逝势是嗜噬适仕侍释饰氏市恃室视试收手首守寿授售受瘦兽蔬枢梳殊抒输叔舒淑疏书赎孰熟薯暑曙署蜀黍鼠属术述树束戍竖墅庶数漱";
  "薂薃薆薈薉薊薋薌薍薎薐薑薒薓薔薕薖薗薘薙薚薝薞薟薠薡薢薣薥薦薧薩薫薬薭薱薲薳薴薵薶薸薺薻薼薽薾薿藀藂藃藄藅藆藇藈藊藋藌藍藎藑藒?藔藖藗藘藙藚藛藝藞藟藠藡藢藣藥藦藧藨藪藫藬藭藮藯藰藱藲藳藴藵藶藷藸恕刷耍摔衰甩帅栓拴霜双爽谁水睡税吮瞬顺舜说硕朔烁斯撕嘶思私司丝死肆寺嗣四伺似饲巳松耸怂颂送宋讼诵搜艘擞嗽苏酥俗素速粟僳塑溯宿诉肃酸蒜算虽隋随绥髓碎岁穗遂隧祟孙损笋蓑梭唆缩琐索锁所塌他它她塔";
  "藹藺藼藽藾蘀蘁蘂蘃蘄蘆蘇蘈蘉蘊蘋蘌蘍蘎蘏蘐蘒蘓蘔蘕蘗蘘蘙蘚蘛蘜蘝蘞蘟蘠蘡蘢蘣蘤蘥蘦蘨蘪蘫蘬蘭蘮蘯蘰蘱蘲蘳蘴蘵蘶蘷蘹蘺蘻蘽蘾蘿虀?虁虂虃虄虅虆虇虈虉虊虋虌虒虓處虖虗虘虙虛虜虝號虠虡虣虤虥虦虧虨虩虪獭挞蹋踏胎苔抬台泰酞太态汰坍摊贪瘫滩坛檀痰潭谭谈坦毯袒碳探叹炭汤塘搪堂棠膛唐糖倘躺淌趟烫掏涛滔绦萄桃逃淘陶讨套特藤腾疼誊梯剔踢锑提题蹄啼体替嚏惕涕剃屉天添填田甜恬舔腆挑条迢眺跳贴铁帖厅听烃";
  "虭虯虰虲虳虴虵虶虷虸蚃蚄蚅蚆蚇蚈蚉蚎蚏蚐蚑蚒蚔蚖蚗蚘蚙蚚蚛蚞蚟蚠蚡蚢蚥蚦蚫蚭蚮蚲蚳蚷蚸蚹蚻蚼蚽蚾蚿蛁蛂蛃蛅蛈蛌蛍蛒蛓蛕蛖蛗蛚蛜?蛝蛠蛡蛢蛣蛥蛦蛧蛨蛪蛫蛬蛯蛵蛶蛷蛺蛻蛼蛽蛿蜁蜄蜅蜆蜋蜌蜎蜏蜐蜑蜔蜖汀廷停亭庭挺艇通桐酮瞳同铜彤童桶捅筒统痛偷投头透凸秃突图徒途涂屠土吐兔湍团推颓腿蜕褪退吞屯臀拖托脱鸵陀驮驼椭妥拓唾挖哇蛙洼娃瓦袜歪外豌弯湾玩顽丸烷完碗挽晚皖惋宛婉万腕汪王亡枉网往旺望忘妄威";
  "蜙蜛蜝蜟蜠蜤蜦蜧蜨蜪蜫蜬蜭蜯蜰蜲蜳蜵蜶蜸蜹蜺蜼蜽蝀蝁蝂蝃蝄蝅蝆蝊蝋蝍蝏蝐蝑蝒蝔蝕蝖蝘蝚蝛蝜蝝蝞蝟蝡蝢蝦蝧蝨蝩蝪蝫蝬蝭蝯蝱蝲蝳蝵?蝷蝸蝹蝺蝿螀螁螄螆螇螉螊螌螎螏螐螑螒螔螕螖螘螙螚螛螜螝螞螠螡螢螣螤巍微危韦违桅围唯惟为潍维苇萎委伟伪尾纬未蔚味畏胃喂魏位渭谓尉慰卫瘟温蚊文闻纹吻稳紊问嗡翁瓮挝蜗涡窝我斡卧握沃巫呜钨乌污诬屋无芜梧吾吴毋武五捂午舞伍侮坞戊雾晤物勿务悟误昔熙析西硒矽晰嘻吸锡牺";
  "螥螦螧螩螪螮螰螱螲螴螶螷螸螹螻螼螾螿蟁蟂蟃蟄蟅蟇蟈蟉蟌蟍蟎蟏蟐蟔蟕蟖蟗蟘蟙蟚蟜蟝蟞蟟蟡蟢蟣蟤蟦蟧蟨蟩蟫蟬蟭蟯蟰蟱蟲蟳蟴蟵蟶蟷蟸?蟺蟻蟼蟽蟿蠀蠁蠂蠄蠅蠆蠇蠈蠉蠋蠌蠍蠎蠏蠐蠑蠒蠔蠗蠘蠙蠚蠜蠝蠞蠟蠠蠣稀息希悉膝夕惜熄烯溪汐犀檄袭席习媳喜铣洗系隙戏细瞎虾匣霞辖暇峡侠狭下厦夏吓掀锨先仙鲜纤咸贤衔舷闲涎弦嫌显险现献县腺馅羡宪陷限线相厢镶香箱襄湘乡翔祥详想响享项巷橡像向象萧硝霄削哮嚣销消宵淆晓";
  "蠤蠥蠦蠧蠨蠩蠪蠫蠬蠭蠮蠯蠰蠱蠳蠴蠵蠶蠷蠸蠺蠻蠽蠾蠿衁衂衃衆衇衈衉衊衋衎衏衐衑衒術衕衖衘衚衛衜衝衞衟衠衦衧衪衭衯衱衳衴衵衶衸衹衺?衻衼袀袃袆袇袉袊袌袎袏袐袑袓袔袕袗袘袙袚袛袝袞袟袠袡袣袥袦袧袨袩袪小孝校肖啸笑效楔些歇蝎鞋协挟携邪斜胁谐写械卸蟹懈泄泻谢屑薪芯锌欣辛新忻心信衅星腥猩惺兴刑型形邢行醒幸杏性姓兄凶胸匈汹雄熊休修羞朽嗅锈秀袖绣墟戌需虚嘘须徐许蓄酗叙旭序畜恤絮婿绪续轩喧宣悬旋玄";
  "袬袮袯袰袲袳袴袵袶袸袹袺袻袽袾袿裀裃裄裇裈裊裋裌裍裏裐裑裓裖裗裚裛補裝裞裠裡裦裧裩裪裫裬裭裮裯裲裵裶裷裺裻製裿褀褁褃褄褅褆複褈?褉褋褌褍褎褏褑褔褕褖褗褘褜褝褞褟褠褢褣褤褦褧褨褩褬褭褮褯褱褲褳褵褷选癣眩绚靴薛学穴雪血勋熏循旬询寻驯巡殉汛训讯逊迅压押鸦鸭呀丫芽牙蚜崖衙涯雅哑亚讶焉咽阉烟淹盐严研蜒岩延言颜阎炎沿奄掩眼衍演艳堰燕厌砚雁唁彦焰宴谚验殃央鸯秧杨扬佯疡羊洋阳氧仰痒养样漾邀腰妖瑶";
  "褸褹褺褻褼褽褾褿襀襂襃襅襆襇襈襉襊襋襌襍襎襏襐襑襒襓襔襕襖襗襘襙襚襛襜襝襠襡襢襣襤襥襧襨襩襪襫襬襭襮襯襰襱襲襳襴襵襶襷襸襹襺襼?襽襾覀覂覄覅覇覈覉覊見覌覍覎規覐覑覒覓覔覕視覗覘覙覚覛覜覝覞覟覠覡摇尧遥窑谣姚咬舀药要耀椰噎耶爷野冶也页掖业叶曳腋夜液一壹医揖铱依伊衣颐夷遗移仪胰疑沂宜姨彝椅蚁倚已乙矣以艺抑易邑屹亿役臆逸肄疫亦裔意毅忆义益溢诣议谊译异翼翌绎茵荫因殷音阴姻吟银淫寅饮尹引隐";
  "覢覣覤覥覦覧覨覩親覫覬覭覮覯覰覱覲観覴覵覶覷覸覹覺覻覼覽覾覿觀觃觍觓觔觕觗觘觙觛觝觟觠觡觢觤觧觨觩觪觬觭觮觰觱觲觴觵觶觷觸觹觺?觻觼觽觾觿訁訂訃訄訅訆計訉訊訋訌訍討訏訐訑訒訓訔訕訖託記訙訚訛訜訝印英樱婴鹰应缨莹萤营荧蝇迎赢盈影颖硬映哟拥佣臃痈庸雍踊蛹咏泳涌永恿勇用幽优悠忧尤由邮铀犹油游酉有友右佑釉诱又幼迂淤于盂榆虞愚舆余俞逾鱼愉渝渔隅予娱雨与屿禹宇语羽玉域芋郁吁遇喻峪御愈欲狱育誉";
  "訞訟訠訡訢訣訤訥訦訧訨訩訪訫訬設訮訯訰許訲訳訴訵訶訷訸訹診註証訽訿詀詁詂詃詄詅詆詇詉詊詋詌詍詎詏詐詑詒詓詔評詖詗詘詙詚詛詜詝詞?詟詠詡詢詣詤詥試詧詨詩詪詫詬詭詮詯詰話該詳詴詵詶詷詸詺詻詼詽詾詿誀浴寓裕预豫驭鸳渊冤元垣袁原援辕园员圆猿源缘远苑愿怨院曰约越跃钥岳粤月悦阅耘云郧匀陨允运蕴酝晕韵孕匝砸杂栽哉灾宰载再在咱攒暂赞赃脏葬遭糟凿藻枣早澡蚤躁噪造皂灶燥责择则泽贼怎增憎曾赠扎喳渣札轧";
  "誁誂誃誄誅誆誇誈誋誌認誎誏誐誑誒誔誕誖誗誘誙誚誛誜誝語誟誠誡誢誣誤誥誦誧誨誩說誫説読誮誯誰誱課誳誴誵誶誷誸誹誺誻誼誽誾調諀諁諂?諃諄諅諆談諈諉諊請諌諍諎諏諐諑諒諓諔諕論諗諘諙諚諛諜諝諞諟諠諡諢諣铡闸眨栅榨咋乍炸诈摘斋宅窄债寨瞻毡詹粘沾盏斩辗崭展蘸栈占战站湛绽樟章彰漳张掌涨杖丈帐账仗胀瘴障招昭找沼赵照罩兆肇召遮折哲蛰辙者锗蔗这浙珍斟真甄砧臻贞针侦枕疹诊震振镇阵蒸挣睁征狰争怔整拯正政";
  "諤諥諦諧諨諩諪諫諬諭諮諯諰諱諲諳諴諵諶諷諸諹諺諻諼諽諾諿謀謁謂謃謄謅謆謈謉謊謋謌謍謎謏謐謑謒謓謔謕謖謗謘謙謚講謜謝謞謟謠謡謢謣?謤謥謧謨謩謪謫謬謭謮謯謰謱謲謳謴謵謶謷謸謹謺謻謼謽謾謿譀譁譂譃譄譅帧症郑证芝枝支吱蜘知肢脂汁之织职直植殖执值侄址指止趾只旨纸志挚掷至致置帜峙制智秩稚质炙痔滞治窒中盅忠钟衷终种肿重仲众舟周州洲诌粥轴肘帚咒皱宙昼骤珠株蛛朱猪诸诛逐竹烛煮拄瞩嘱主著柱助蛀贮铸筑";
  "譆譇譈證譊譋譌譍譎譏譐譑譒譓譔譕譖譗識譙譚譛譜譝譞譟譠譡譢譣譤譥譧譨譩譪譫譭譮譯議譱譲譳譴譵譶護譸譹譺譻譼譽譾譿讀讁讂讃讄讅讆?讇讈讉變讋讌讍讎讏讐讑讒讓讔讕讖讗讘讙讚讛讜讝讞讟讬讱讻诇诐诪谉谞住注祝驻抓爪拽专砖转撰赚篆桩庄装妆撞壮状椎锥追赘坠缀谆准捉拙卓桌琢茁酌啄着灼浊兹咨资姿滋淄孜紫仔籽滓子自渍字鬃棕踪宗综总纵邹走奏揍租足卒族祖诅阻组钻纂嘴醉最罪尊遵昨左佐柞做作坐座?????";
  "谸谹谺谻谼谽谾谿豀豂豃豄豅豈豊豋豍豎豏豐豑豒豓豔豖豗豘豙豛豜豝豞豟豠豣豤豥豦豧豨豩豬豭豮豯豰豱豲豴豵豶豷豻豼豽豾豿貀貁貃貄貆貇?貈貋貍貎貏貐貑貒貓貕貖貗貙貚貛貜貝貞貟負財貢貣貤貥貦貧貨販貪貫責貭亍丌兀丐廿卅丕亘丞鬲孬噩丨禺丿匕乇夭爻卮氐囟胤馗毓睾鼗丶亟鼐乜乩亓芈孛啬嘏仄厍厝厣厥厮靥赝匚叵匦匮匾赜卦卣刂刈刎刭刳刿剀剌剞剡剜蒯剽劂劁劐劓冂罔亻仃仉仂仨仡仫仞伛仳伢佤仵伥伧伉伫佞佧攸佚佝";
  "貮貯貰貱貲貳貴貵貶買貸貹貺費貼貽貾貿賀賁賂賃賄賅賆資賈賉賊賋賌賍賎賏賐賑賒賓賔賕賖賗賘賙賚賛賜賝賞賟賠賡賢賣賤賥賦賧賨賩質賫賬?賭賮賯賰賱賲賳賴賵賶賷賸賹賺賻購賽賾賿贀贁贂贃贄贅贆贇贈贉贊贋贌贍佟佗伲伽佶佴侑侉侃侏佾佻侪佼侬侔俦俨俪俅俚俣俜俑俟俸倩偌俳倬倏倮倭俾倜倌倥倨偾偃偕偈偎偬偻傥傧傩傺僖儆僭僬僦僮儇儋仝氽佘佥俎龠汆籴兮巽黉馘冁夔勹匍訇匐凫夙兕亠兖亳衮袤亵脔裒禀嬴蠃羸冫冱冽冼";
  "贎贏贐贑贒贓贔贕贖贗贘贙贚贛贜贠赑赒赗赟赥赨赩赪赬赮赯赱赲赸赹赺赻赼赽赾赿趀趂趃趆趇趈趉趌趍趎趏趐趒趓趕趖趗趘趙趚趛趜趝趞趠趡?趢趤趥趦趧趨趩趪趫趬趭趮趯趰趲趶趷趹趻趽跀跁跂跅跇跈跉跊跍跐跒跓跔凇冖冢冥讠讦讧讪讴讵讷诂诃诋诏诎诒诓诔诖诘诙诜诟诠诤诨诩诮诰诳诶诹诼诿谀谂谄谇谌谏谑谒谔谕谖谙谛谘谝谟谠谡谥谧谪谫谮谯谲谳谵谶卩卺阝阢阡阱阪阽阼陂陉陔陟陧陬陲陴隈隍隗隰邗邛邝邙邬邡邴邳邶邺";
  "跕跘跙跜跠跡跢跥跦跧跩跭跮跰跱跲跴跶跼跾跿踀踁踂踃踄踆踇踈踋踍踎踐踑踒踓踕踖踗踘踙踚踛踜踠踡踤踥踦踧踨踫踭踰踲踳踴踶踷踸踻踼踾?踿蹃蹅蹆蹌蹍蹎蹏蹐蹓蹔蹕蹖蹗蹘蹚蹛蹜蹝蹞蹟蹠蹡蹢蹣蹤蹥蹧蹨蹪蹫蹮蹱邸邰郏郅邾郐郄郇郓郦郢郜郗郛郫郯郾鄄鄢鄞鄣鄱鄯鄹酃酆刍奂劢劬劭劾哿勐勖勰叟燮矍廴凵凼鬯厶弁畚巯坌垩垡塾墼壅壑圩圬圪圳圹圮圯坜圻坂坩垅坫垆坼坻坨坭坶坳垭垤垌垲埏垧垴垓垠埕埘埚埙埒垸埴埯埸埤埝";
  "蹳蹵蹷蹸蹹蹺蹻蹽蹾躀躂躃躄躆躈躉躊躋躌躍躎躑躒躓躕躖躗躘躙躚躛躝躟躠躡躢躣躤躥躦躧躨躩躪躭躮躰躱躳躴躵躶躷躸躹躻躼躽躾躿軀軁軂?軃軄軅軆軇軈軉車軋軌軍軏軐軑軒軓軔軕軖軗軘軙軚軛軜軝軞軟軠軡転軣軤堋堍埽埭堀堞堙塄堠塥塬墁墉墚墀馨鼙懿艹艽艿芏芊芨芄芎芑芗芙芫芸芾芰苈苊苣芘芷芮苋苌苁芩芴芡芪芟苄苎芤苡茉苷苤茏茇苜苴苒苘茌苻苓茑茚茆茔茕苠苕茜荑荛荜茈莒茼茴茱莛荞茯荏荇荃荟荀茗荠茭茺茳荦荥";
  "軥軦軧軨軩軪軫軬軭軮軯軰軱軲軳軴軵軶軷軸軹軺軻軼軽軾軿輀輁輂較輄輅輆輇輈載輊輋輌輍輎輏輐輑輒輓輔輕輖輗輘輙輚輛輜輝輞輟輠輡輢輣?輤輥輦輧輨輩輪輫輬輭輮輯輰輱輲輳輴輵輶輷輸輹輺輻輼輽輾輿轀轁轂轃轄荨茛荩荬荪荭荮莰荸莳莴莠莪莓莜莅荼莶莩荽莸荻莘莞莨莺莼菁萁菥菘堇萘萋菝菽菖萜萸萑萆菔菟萏萃菸菹菪菅菀萦菰菡葜葑葚葙葳蒇蒈葺蒉葸萼葆葩葶蒌蒎萱葭蓁蓍蓐蓦蒽蓓蓊蒿蒺蓠蒡蒹蒴蒗蓥蓣蔌甍蔸蓰蔹蔟蔺";
  "轅轆轇轈轉轊轋轌轍轎轏轐轑轒轓轔轕轖轗轘轙轚轛轜轝轞轟轠轡轢轣轤轥轪辀辌辒辝辠辡辢辤辥辦辧辪辬辭辮辯農辳辴辵辷辸辺辻込辿迀迃迆?迉迊迋迌迍迏迒迖迗迚迠迡迣迧迬迯迱迲迴迵迶迺迻迼迾迿逇逈逌逎逓逕逘蕖蔻蓿蓼蕙蕈蕨蕤蕞蕺瞢蕃蕲蕻薤薨薇薏蕹薮薜薅薹薷薰藓藁藜藿蘧蘅蘩蘖蘼廾弈夼奁耷奕奚奘匏尢尥尬尴扌扪抟抻拊拚拗拮挢拶挹捋捃掭揶捱捺掎掴捭掬掊捩掮掼揲揸揠揿揄揞揎摒揆掾摅摁搋搛搠搌搦搡摞撄摭撖";
  "這逜連逤逥逧逨逩逪逫逬逰週進逳逴逷逹逺逽逿遀遃遅遆遈遉遊運遌過達違遖遙遚遜遝遞遟遠遡遤遦遧適遪遫遬遯遰遱遲遳遶遷選遹遺遻遼遾邁?還邅邆邇邉邊邌邍邎邏邐邒邔邖邘邚邜邞邟邠邤邥邧邨邩邫邭邲邷邼邽邿郀摺撷撸撙撺擀擐擗擤擢攉攥攮弋忒甙弑卟叱叽叩叨叻吒吖吆呋呒呓呔呖呃吡呗呙吣吲咂咔呷呱呤咚咛咄呶呦咝哐咭哂咴哒咧咦哓哔呲咣哕咻咿哌哙哚哜咩咪咤哝哏哞唛哧唠哽唔哳唢唣唏唑唧唪啧喏喵啉啭啁啕唿啐唼";
  "郂郃郆郈郉郋郌郍郒郔郕郖郘郙郚郞郟郠郣郤郥郩郪郬郮郰郱郲郳郵郶郷郹郺郻郼郿鄀鄁鄃鄅鄆鄇鄈鄉鄊鄋鄌鄍鄎鄏鄐鄑鄒鄓鄔鄕鄖鄗鄘鄚鄛鄜?鄝鄟鄠鄡鄤鄥鄦鄧鄨鄩鄪鄫鄬鄭鄮鄰鄲鄳鄴鄵鄶鄷鄸鄺鄻鄼鄽鄾鄿酀酁酂酄唷啖啵啶啷唳唰啜喋嗒喃喱喹喈喁喟啾嗖喑啻嗟喽喾喔喙嗪嗷嗉嘟嗑嗫嗬嗔嗦嗝嗄嗯嗥嗲嗳嗌嗍嗨嗵嗤辔嘞嘈嘌嘁嘤嘣嗾嘀嘧嘭噘嘹噗嘬噍噢噙噜噌噔嚆噤噱噫噻噼嚅嚓嚯囔囗囝囡囵囫囹囿圄圊圉圜帏帙帔帑帱帻帼";
  "酅酇酈酑酓酔酕酖酘酙酛酜酟酠酦酧酨酫酭酳酺酻酼醀醁醂醃醄醆醈醊醎醏醓醔醕醖醗醘醙醜醝醞醟醠醡醤醥醦醧醨醩醫醬醰醱醲醳醶醷醸醹醻?醼醽醾醿釀釁釂釃釄釅釆釈釋釐釒釓釔釕釖釗釘釙釚釛針釞釟釠釡釢釣釤釥帷幄幔幛幞幡岌屺岍岐岖岈岘岙岑岚岜岵岢岽岬岫岱岣峁岷峄峒峤峋峥崂崃崧崦崮崤崞崆崛嵘崾崴崽嵬嵛嵯嵝嵫嵋嵊嵩嵴嶂嶙嶝豳嶷巅彳彷徂徇徉後徕徙徜徨徭徵徼衢彡犭犰犴犷犸狃狁狎狍狒狨狯狩狲狴狷猁狳猃狺";
  "釦釧釨釩釪釫釬釭釮釯釰釱釲釳釴釵釶釷釸釹釺釻釼釽釾釿鈀鈁鈂鈃鈄鈅鈆鈇鈈鈉鈊鈋鈌鈍鈎鈏鈐鈑鈒鈓鈔鈕鈖鈗鈘鈙鈚鈛鈜鈝鈞鈟鈠鈡鈢鈣鈤?鈥鈦鈧鈨鈩鈪鈫鈬鈭鈮鈯鈰鈱鈲鈳鈴鈵鈶鈷鈸鈹鈺鈻鈼鈽鈾鈿鉀鉁鉂鉃鉄鉅狻猗猓猡猊猞猝猕猢猹猥猬猸猱獐獍獗獠獬獯獾舛夥飧夤夂饣饧饨饩饪饫饬饴饷饽馀馄馇馊馍馐馑馓馔馕庀庑庋庖庥庠庹庵庾庳赓廒廑廛廨廪膺忄忉忖忏怃忮怄忡忤忾怅怆忪忭忸怙怵怦怛怏怍怩怫怊怿怡恸恹恻恺恂";
  "鉆鉇鉈鉉鉊鉋鉌鉍鉎鉏鉐鉑鉒鉓鉔鉕鉖鉗鉘鉙鉚鉛鉜鉝鉞鉟鉠鉡鉢鉣鉤鉥鉦鉧鉨鉩鉪鉫鉬鉭鉮鉯鉰鉱鉲鉳鉵鉶鉷鉸鉹鉺鉻鉼鉽鉾鉿銀銁銂銃銄銅?銆銇銈銉銊銋銌銍銏銐銑銒銓銔銕銖銗銘銙銚銛銜銝銞銟銠銡銢銣銤銥銦銧恪恽悖悚悭悝悃悒悌悛惬悻悱惝惘惆惚悴愠愦愕愣惴愀愎愫慊慵憬憔憧憷懔懵忝隳闩闫闱闳闵闶闼闾阃阄阆阈阊阋阌阍阏阒阕阖阗阙阚丬爿戕氵汔汜汊沣沅沐沔沌汨汩汴汶沆沩泐泔沭泷泸泱泗沲泠泖泺泫泮沱泓泯泾";
  "銨銩銪銫銬銭銯銰銱銲銳銴銵銶銷銸銹銺銻銼銽銾銿鋀鋁鋂鋃鋄鋅鋆鋇鋉鋊鋋鋌鋍鋎鋏鋐鋑鋒鋓鋔鋕鋖鋗鋘鋙鋚鋛鋜鋝鋞鋟鋠鋡鋢鋣鋤鋥鋦鋧鋨?鋩鋪鋫鋬鋭鋮鋯鋰鋱鋲鋳鋴鋵鋶鋷鋸鋹鋺鋻鋼鋽鋾鋿錀錁錂錃錄錅錆錇錈錉洹洧洌浃浈洇洄洙洎洫浍洮洵洚浏浒浔洳涑浯涞涠浞涓涔浜浠浼浣渚淇淅淞渎涿淠渑淦淝淙渖涫渌涮渫湮湎湫溲湟溆湓湔渲渥湄滟溱溘滠漭滢溥溧溽溻溷滗溴滏溏滂溟潢潆潇漤漕滹漯漶潋潴漪漉漩澉澍澌潸潲潼潺濑";
  "錊錋錌錍錎錏錐錑錒錓錔錕錖錗錘錙錚錛錜錝錞錟錠錡錢錣錤錥錦錧錨錩錪錫錬錭錮錯錰錱録錳錴錵錶錷錸錹錺錻錼錽錿鍀鍁鍂鍃鍄鍅鍆鍇鍈鍉?鍊鍋鍌鍍鍎鍏鍐鍑鍒鍓鍔鍕鍖鍗鍘鍙鍚鍛鍜鍝鍞鍟鍠鍡鍢鍣鍤鍥鍦鍧鍨鍩鍫濉澧澹澶濂濡濮濞濠濯瀚瀣瀛瀹瀵灏灞宀宄宕宓宥宸甯骞搴寤寮褰寰蹇謇辶迓迕迥迮迤迩迦迳迨逅逄逋逦逑逍逖逡逵逶逭逯遄遑遒遐遨遘遢遛暹遴遽邂邈邃邋彐彗彖彘尻咫屐屙孱屣屦羼弪弩弭艴弼鬻屮妁妃妍妩妪妣";
  "鍬鍭鍮鍯鍰鍱鍲鍳鍴鍵鍶鍷鍸鍹鍺鍻鍼鍽鍾鍿鎀鎁鎂鎃鎄鎅鎆鎇鎈鎉鎊鎋鎌鎍鎎鎐鎑鎒鎓鎔鎕鎖鎗鎘鎙鎚鎛鎜鎝鎞鎟鎠鎡鎢鎣鎤鎥鎦鎧鎨鎩鎪鎫?鎬鎭鎮鎯鎰鎱鎲鎳鎴鎵鎶鎷鎸鎹鎺鎻鎼鎽鎾鎿鏀鏁鏂鏃鏄鏅鏆鏇鏈鏉鏋鏌鏍妗姊妫妞妤姒妲妯姗妾娅娆姝娈姣姘姹娌娉娲娴娑娣娓婀婧婊婕娼婢婵胬媪媛婷婺媾嫫媲嫒嫔媸嫠嫣嫱嫖嫦嫘嫜嬉嬗嬖嬲嬷孀尕尜孚孥孳孑孓孢驵驷驸驺驿驽骀骁骅骈骊骐骒骓骖骘骛骜骝骟骠骢骣骥骧纟纡纣纥纨纩";
  "鏎鏏鏐鏑鏒鏓鏔鏕鏗鏘鏙鏚鏛鏜鏝鏞鏟鏠鏡鏢鏣鏤鏥鏦鏧鏨鏩鏪鏫鏬鏭鏮鏯鏰鏱鏲鏳鏴鏵鏶鏷鏸鏹鏺鏻鏼鏽鏾鏿鐀鐁鐂鐃鐄鐅鐆鐇鐈鐉鐊鐋鐌鐍?鐎鐏鐐鐑鐒鐓鐔鐕鐖鐗鐘鐙鐚鐛鐜鐝鐞鐟鐠鐡鐢鐣鐤鐥鐦鐧鐨鐩鐪鐫鐬鐭鐮纭纰纾绀绁绂绉绋绌绐绔绗绛绠绡绨绫绮绯绱绲缍绶绺绻绾缁缂缃缇缈缋缌缏缑缒缗缙缜缛缟缡缢缣缤缥缦缧缪缫缬缭缯缰缱缲缳缵幺畿巛甾邕玎玑玮玢玟珏珂珑玷玳珀珉珈珥珙顼琊珩珧珞玺珲琏琪瑛琦琥琨琰琮琬";
  "鐯鐰鐱鐲鐳鐴鐵鐶鐷鐸鐹鐺鐻鐼鐽鐿鑀鑁鑂鑃鑄鑅鑆鑇鑈鑉鑊鑋鑌鑍鑎鑏鑐鑑鑒鑓鑔鑕鑖鑗鑘鑙鑚鑛鑜鑝鑞鑟鑠鑡鑢鑣鑤鑥鑦鑧鑨鑩鑪鑬鑭鑮鑯?鑰鑱鑲鑳鑴鑵鑶鑷鑸鑹鑺鑻鑼鑽鑾鑿钀钁钂钃钄钑钖钘铇铏铓铔铚铦铻锜锠琛琚瑁瑜瑗瑕瑙瑷瑭瑾璜璎璀璁璇璋璞璨璩璐璧瓒璺韪韫韬杌杓杞杈杩枥枇杪杳枘枧杵枨枞枭枋杷杼柰栉柘栊柩枰栌柙枵柚枳柝栀柃枸柢栎柁柽栲栳桠桡桎桢桄桤梃栝桕桦桁桧桀栾桊桉栩梵梏桴桷梓桫棂楮棼椟椠棹";
  "锧锳锽镃镈镋镕镚镠镮镴镵長镸镹镺镻镼镽镾門閁閂閃閄閅閆閇閈閉閊開閌閍閎閏閐閑閒間閔閕閖閗閘閙閚閛閜閝閞閟閠閡関閣閤閥閦閧閨閩閪?閫閬閭閮閯閰閱閲閳閴閵閶閷閸閹閺閻閼閽閾閿闀闁闂闃闄闅闆闇闈闉闊闋椤棰椋椁楗棣椐楱椹楠楂楝榄楫榀榘楸椴槌榇榈槎榉楦楣楹榛榧榻榫榭槔榱槁槊槟榕槠榍槿樯槭樗樘橥槲橄樾檠橐橛樵檎橹樽樨橘橼檑檐檩檗檫猷獒殁殂殇殄殒殓殍殚殛殡殪轫轭轱轲轳轵轶轸轷轹轺轼轾辁辂辄辇辋";
  "闌闍闎闏闐闑闒闓闔闕闖闗闘闙闚闛關闝闞闟闠闡闢闣闤闥闦闧闬闿阇阓阘阛阞阠阣阤阥阦阧阨阩阫阬阭阯阰阷阸阹阺阾陁陃陊陎陏陑陒陓陖陗?陘陙陚陜陝陞陠陣陥陦陫陭陮陯陰陱陳陸陹険陻陼陽陾陿隀隁隂隃隄隇隉隊辍辎辏辘辚軎戋戗戛戟戢戡戥戤戬臧瓯瓴瓿甏甑甓攴旮旯旰昊昙杲昃昕昀炅曷昝昴昱昶昵耆晟晔晁晏晖晡晗晷暄暌暧暝暾曛曜曦曩贲贳贶贻贽赀赅赆赈赉赇赍赕赙觇觊觋觌觎觏觐觑牮犟牝牦牯牾牿犄犋犍犏犒挈挲掰";
  "隌階隑隒隓隕隖隚際隝隞隟隠隡隢隣隤隥隦隨隩險隫隬隭隮隯隱隲隴隵隷隸隺隻隿雂雃雈雊雋雐雑雓雔雖雗雘雙雚雛雜雝雞雟雡離難雤雥雦雧雫?雬雭雮雰雱雲雴雵雸雺電雼雽雿霂霃霅霊霋霌霐霑霒霔霕霗霘霙霚霛霝霟霠搿擘耄毪毳毽毵毹氅氇氆氍氕氘氙氚氡氩氤氪氲攵敕敫牍牒牖爰虢刖肟肜肓肼朊肽肱肫肭肴肷胧胨胩胪胛胂胄胙胍胗朐胝胫胱胴胭脍脎胲胼朕脒豚脶脞脬脘脲腈腌腓腴腙腚腱腠腩腼腽腭腧塍媵膈膂膑滕膣膪臌朦臊膻";
  "霡霢霣霤霥霦霧霨霩霫霬霮霯霱霳霴霵霶霷霺霻霼霽霿靀靁靂靃靄靅靆靇靈靉靊靋靌靍靎靏靐靑靔靕靗靘靚靜靝靟靣靤靦靧靨靪靫靬靭靮靯靰靱?靲靵靷靸靹靺靻靽靾靿鞀鞁鞂鞃鞄鞆鞇鞈鞉鞊鞌鞎鞏鞐鞓鞕鞖鞗鞙鞚鞛鞜鞝臁膦欤欷欹歃歆歙飑飒飓飕飙飚殳彀毂觳斐齑斓於旆旄旃旌旎旒旖炀炜炖炝炻烀炷炫炱烨烊焐焓焖焯焱煳煜煨煅煲煊煸煺熘熳熵熨熠燠燔燧燹爝爨灬焘煦熹戾戽扃扈扉礻祀祆祉祛祜祓祚祢祗祠祯祧祺禅禊禚禧禳忑忐";
  "鞞鞟鞡鞢鞤鞥鞦鞧鞨鞩鞪鞬鞮鞰鞱鞳鞵鞶鞷鞸鞹鞺鞻鞼鞽鞾鞿韀韁韂韃韄韅韆韇韈韉韊韋韌韍韎韏韐韑韒韓韔韕韖韗韘韙韚韛韜韝韞韟韠韡韢韣?韤韥韨韮韯韰韱韲韴韷韸韹韺韻韼韽韾響頀頁頂頃頄項順頇須頉頊頋頌頍頎怼恝恚恧恁恙恣悫愆愍慝憩憝懋懑戆肀聿沓泶淼矶矸砀砉砗砘砑斫砭砜砝砹砺砻砟砼砥砬砣砩硎硭硖硗砦硐硇硌硪碛碓碚碇碜碡碣碲碹碥磔磙磉磬磲礅磴礓礤礞礴龛黹黻黼盱眄眍盹眇眈眚眢眙眭眦眵眸睐睑睇睃睚睨";
  "頏預頑頒頓頔頕頖頗領頙頚頛頜頝頞頟頠頡頢頣頤頥頦頧頨頩頪頫頬頭頮頯頰頱頲頳頴頵頶頷頸頹頺頻頼頽頾頿顀顁顂顃顄顅顆顇顈顉顊顋題額?顎顏顐顑顒顓顔顕顖顗願顙顚顛顜顝類顟顠顡顢顣顤顥顦顧顨顩顪顫顬顭顮睢睥睿瞍睽瞀瞌瞑瞟瞠瞰瞵瞽町畀畎畋畈畛畲畹疃罘罡罟詈罨罴罱罹羁罾盍盥蠲钅钆钇钋钊钌钍钏钐钔钗钕钚钛钜钣钤钫钪钭钬钯钰钲钴钶钷钸钹钺钼钽钿铄铈铉铊铋铌铍铎铐铑铒铕铖铗铙铘铛铞铟铠铢铤铥铧铨铪";
  "顯顰顱顲顳顴颋颎颒颕颙颣風颩颪颫颬颭颮颯颰颱颲颳颴颵颶颷颸颹颺颻颼颽颾颿飀飁飂飃飄飅飆飇飈飉飊飋飌飍飏飐飔飖飗飛飜飝飠飡飢飣飤?飥飦飩飪飫飬飭飮飯飰飱飲飳飴飵飶飷飸飹飺飻飼飽飾飿餀餁餂餃餄餅餆餇铩铫铮铯铳铴铵铷铹铼铽铿锃锂锆锇锉锊锍锎锏锒锓锔锕锖锘锛锝锞锟锢锪锫锩锬锱锲锴锶锷锸锼锾锿镂锵镄镅镆镉镌镎镏镒镓镔镖镗镘镙镛镞镟镝镡镢镤镥镦镧镨镩镪镫镬镯镱镲镳锺矧矬雉秕秭秣秫稆嵇稃稂稞稔";
  "餈餉養餋餌餎餏餑餒餓餔餕餖餗餘餙餚餛餜餝餞餟餠餡餢餣餤餥餦餧館餩餪餫餬餭餯餰餱餲餳餴餵餶餷餸餹餺餻餼餽餾餿饀饁饂饃饄饅饆饇饈饉?饊饋饌饍饎饏饐饑饒饓饖饗饘饙饚饛饜饝饞饟饠饡饢饤饦饳饸饹饻饾馂馃馉稹稷穑黏馥穰皈皎皓皙皤瓞瓠甬鸠鸢鸨鸩鸪鸫鸬鸲鸱鸶鸸鸷鸹鸺鸾鹁鹂鹄鹆鹇鹈鹉鹋鹌鹎鹑鹕鹗鹚鹛鹜鹞鹣鹦鹧鹨鹩鹪鹫鹬鹱鹭鹳疒疔疖疠疝疬疣疳疴疸痄疱疰痃痂痖痍痣痨痦痤痫痧瘃痱痼痿瘐瘀瘅瘌瘗瘊瘥瘘瘕瘙";
  "馌馎馚馛馜馝馞馟馠馡馢馣馤馦馧馩馪馫馬馭馮馯馰馱馲馳馴馵馶馷馸馹馺馻馼馽馾馿駀駁駂駃駄駅駆駇駈駉駊駋駌駍駎駏駐駑駒駓駔駕駖駗駘?駙駚駛駜駝駞駟駠駡駢駣駤駥駦駧駨駩駪駫駬駭駮駯駰駱駲駳駴駵駶駷駸駹瘛瘼瘢瘠癀瘭瘰瘿瘵癃瘾瘳癍癞癔癜癖癫癯翊竦穸穹窀窆窈窕窦窠窬窨窭窳衤衩衲衽衿袂袢裆袷袼裉裢裎裣裥裱褚裼裨裾裰褡褙褓褛褊褴褫褶襁襦襻疋胥皲皴矜耒耔耖耜耠耢耥耦耧耩耨耱耋耵聃聆聍聒聩聱覃顸颀颃";
  "駺駻駼駽駾駿騀騁騂騃騄騅騆騇騈騉騊騋騌騍騎騏騐騑騒験騔騕騖騗騘騙騚騛騜騝騞騟騠騡騢騣騤騥騦騧騨騩騪騫騬騭騮騯騰騱騲騳騴騵騶騷騸?騹騺騻騼騽騾騿驀驁驂驃驄驅驆驇驈驉驊驋驌驍驎驏驐驑驒驓驔驕驖驗驘驙颉颌颍颏颔颚颛颞颟颡颢颥颦虍虔虬虮虿虺虼虻蚨蚍蚋蚬蚝蚧蚣蚪蚓蚩蚶蛄蚵蛎蚰蚺蚱蚯蛉蛏蚴蛩蛱蛲蛭蛳蛐蜓蛞蛴蛟蛘蛑蜃蜇蛸蜈蜊蜍蜉蜣蜻蜞蜥蜮蜚蜾蝈蜴蜱蜩蜷蜿螂蜢蝽蝾蝻蝠蝰蝌蝮螋蝓蝣蝼蝤蝙蝥螓螯螨蟒";
  "驚驛驜驝驞驟驠驡驢驣驤驥驦驧驨驩驪驫驲骃骉骍骎骔骕骙骦骩骪骫骬骭骮骯骲骳骴骵骹骻骽骾骿髃髄髆髇髈髉髊髍髎髏髐髒體髕髖髗髙髚髛髜?髝髞髠髢髣髤髥髧髨髩髪髬髮髰髱髲髳髴髵髶髷髸髺髼髽髾髿鬀鬁鬂鬄鬅鬆蟆螈螅螭螗螃螫蟥螬螵螳蟋蟓螽蟑蟀蟊蟛蟪蟠蟮蠖蠓蟾蠊蠛蠡蠹蠼缶罂罄罅舐竺竽笈笃笄笕笊笫笏筇笸笪笙笮笱笠笥笤笳笾笞筘筚筅筵筌筝筠筮筻筢筲筱箐箦箧箸箬箝箨箅箪箜箢箫箴篑篁篌篝篚篥篦篪簌篾篼簏簖簋";
  "鬇鬉鬊鬋鬌鬍鬎鬐鬑鬒鬔鬕鬖鬗鬘鬙鬚鬛鬜鬝鬞鬠鬡鬢鬤鬥鬦鬧鬨鬩鬪鬫鬬鬭鬮鬰鬱鬳鬴鬵鬶鬷鬸鬹鬺鬽鬾鬿魀魆魊魋魌魎魐魒魓魕魖魗魘魙魚?魛魜魝魞魟魠魡魢魣魤魥魦魧魨魩魪魫魬魭魮魯魰魱魲魳魴魵魶魷魸魹魺魻簟簪簦簸籁籀臾舁舂舄臬衄舡舢舣舭舯舨舫舸舻舳舴舾艄艉艋艏艚艟艨衾袅袈裘裟襞羝羟羧羯羰羲籼敉粑粝粜粞粢粲粼粽糁糇糌糍糈糅糗糨艮暨羿翎翕翥翡翦翩翮翳糸絷綦綮繇纛麸麴赳趄趔趑趱赧赭豇豉酊酐酎酏酤";
  "魼魽魾魿鮀鮁鮂鮃鮄鮅鮆鮇鮈鮉鮊鮋鮌鮍鮎鮏鮐鮑鮒鮓鮔鮕鮖鮗鮘鮙鮚鮛鮜鮝鮞鮟鮠鮡鮢鮣鮤鮥鮦鮧鮨鮩鮪鮫鮬鮭鮮鮯鮰鮱鮲鮳鮴鮵鮶鮷鮸鮹鮺?鮻鮼鮽鮾鮿鯀鯁鯂鯃鯄鯅鯆鯇鯈鯉鯊鯋鯌鯍鯎鯏鯐鯑鯒鯓鯔鯕鯖鯗鯘鯙鯚鯛酢酡酰酩酯酽酾酲酴酹醌醅醐醍醑醢醣醪醭醮醯醵醴醺豕鹾趸跫踅蹙蹩趵趿趼趺跄跖跗跚跞跎跏跛跆跬跷跸跣跹跻跤踉跽踔踝踟踬踮踣踯踺蹀踹踵踽踱蹉蹁蹂蹑蹒蹊蹰蹶蹼蹯蹴躅躏躔躐躜躞豸貂貊貅貘貔斛觖觞觚觜";
  "鯜鯝鯞鯟鯠鯡鯢鯣鯤鯥鯦鯧鯨鯩鯪鯫鯬鯭鯮鯯鯰鯱鯲鯳鯴鯵鯶鯷鯸鯹鯺鯻鯼鯽鯾鯿鰀鰁鰂鰃鰄鰅鰆鰇鰈鰉鰊鰋鰌鰍鰎鰏鰐鰑鰒鰓鰔鰕鰖鰗鰘鰙鰚?鰛鰜鰝鰞鰟鰠鰡鰢鰣鰤鰥鰦鰧鰨鰩鰪鰫鰬鰭鰮鰯鰰鰱鰲鰳鰴鰵鰶鰷鰸鰹鰺鰻觥觫觯訾謦靓雩雳雯霆霁霈霏霎霪霭霰霾龀龃龅龆龇龈龉龊龌黾鼋鼍隹隼隽雎雒瞿雠銎銮鋈錾鍪鏊鎏鐾鑫鱿鲂鲅鲆鲇鲈稣鲋鲎鲐鲑鲒鲔鲕鲚鲛鲞鲟鲠鲡鲢鲣鲥鲦鲧鲨鲩鲫鲭鲮鲰鲱鲲鲳鲴鲵鲶鲷鲺鲻鲼鲽鳄鳅鳆鳇鳊鳋";
  "鰼鰽鰾鰿鱀鱁鱂鱃鱄鱅鱆鱇鱈鱉鱊鱋鱌鱍鱎鱏鱐鱑鱒鱓鱔鱕鱖鱗鱘鱙鱚鱛鱜鱝鱞鱟鱠鱡鱢鱣鱤鱥鱦鱧鱨鱩鱪鱫鱬鱭鱮鱯鱰鱱鱲鱳鱴鱵鱶鱷鱸鱹鱺?鱻鱽鱾鲀鲃鲄鲉鲊鲌鲏鲓鲖鲗鲘鲙鲝鲪鲬鲯鲹鲾鲿鳀鳁鳂鳈鳉鳑鳒鳚鳛鳠鳡鳌鳍鳎鳏鳐鳓鳔鳕鳗鳘鳙鳜鳝鳟鳢靼鞅鞑鞒鞔鞯鞫鞣鞲鞴骱骰骷鹘骶骺骼髁髀髅髂髋髌髑魅魃魇魉魈魍魑飨餍餮饕饔髟髡髦髯髫髻髭髹鬈鬏鬓鬟鬣麽麾縻麂麇麈麋麒鏖麝麟黛黜黝黠黟黢黩黧黥黪黯鼢鼬鼯鼹鼷鼽鼾齄";
  "鳣鳤鳥鳦鳧鳨鳩鳪鳫鳬鳭鳮鳯鳰鳱鳲鳳鳴鳵鳶鳷鳸鳹鳺鳻鳼鳽鳾鳿鴀鴁鴂鴃鴄鴅鴆鴇鴈鴉鴊鴋鴌鴍鴎鴏鴐鴑鴒鴓鴔鴕鴖鴗鴘鴙鴚鴛鴜鴝鴞鴟鴠鴡?鴢鴣鴤鴥鴦鴧鴨鴩鴪鴫鴬鴭鴮鴯鴰鴱鴲鴳鴴鴵鴶鴷鴸鴹鴺鴻鴼鴽鴾鴿鵀鵁鵂??????????????????????????????????????????????????????????????????????????????????????????????";
  "鵃鵄鵅鵆鵇鵈鵉鵊鵋鵌鵍鵎鵏鵐鵑鵒鵓鵔鵕鵖鵗鵘鵙鵚鵛鵜鵝鵞鵟鵠鵡鵢鵣鵤鵥鵦鵧鵨鵩鵪鵫鵬鵭鵮鵯鵰鵱鵲鵳鵴鵵鵶鵷鵸鵹鵺鵻鵼鵽鵾鵿鶀鶁?鶂鶃鶄鶅鶆鶇鶈鶉鶊鶋鶌鶍鶎鶏鶐鶑鶒鶓鶔鶕鶖鶗鶘鶙鶚鶛鶜鶝鶞鶟鶠鶡鶢??????????????????????????????????????????????????????????????????????????????????????????????";
  "鶣鶤鶥鶦鶧鶨鶩鶪鶫鶬鶭鶮鶯鶰鶱鶲鶳鶴鶵鶶鶷鶸鶹鶺鶻鶼鶽鶾鶿鷀鷁鷂鷃鷄鷅鷆鷇鷈鷉鷊鷋鷌鷍鷎鷏鷐鷑鷒鷓鷔鷕鷖鷗鷘鷙鷚鷛鷜鷝鷞鷟鷠鷡?鷢鷣鷤鷥鷦鷧鷨鷩鷪鷫鷬鷭鷮鷯鷰鷱鷲鷳鷴鷵鷶鷷鷸鷹鷺鷻鷼鷽鷾鷿鸀鸁鸂??????????????????????????????????????????????????????????????????????????????????????????????";
  "鸃鸄鸅鸆鸇鸈鸉鸊鸋鸌鸍鸎鸏鸐鸑鸒鸓鸔鸕鸖鸗鸘鸙鸚鸛鸜鸝鸞鸤鸧鸮鸰鸴鸻鸼鹀鹍鹐鹒鹓鹔鹖鹙鹝鹟鹠鹡鹢鹥鹮鹯鹲鹴鹵鹶鹷鹸鹹鹺鹻鹼鹽麀?麁麃麄麅麆麉麊麌麍麎麏麐麑麔麕麖麗麘麙麚麛麜麞麠麡麢麣麤麥麧麨麩麪??????????????????????????????????????????????????????????????????????????????????????????????";
  "麫麬麭麮麯麰麱麲麳麵麶麷麹麺麼麿黀黁黂黃黅黆黇黈黊黋黌黐黒黓黕黖黗黙黚點黡黣黤黦黨黫黬黭黮黰黱黲黳黴黵黶黷黸黺黽黿鼀鼁鼂鼃鼄鼅?鼆鼇鼈鼉鼊鼌鼏鼑鼒鼔鼕鼖鼘鼚鼛鼜鼝鼞鼟鼡鼣鼤鼥鼦鼧鼨鼩鼪鼫鼭鼮鼰鼱??????????????????????????????????????????????????????????????????????????????????????????????";
  "鼲鼳鼴鼵鼶鼸鼺鼼鼿齀齁齂齃齅齆齇齈齉齊齋齌齍齎齏齒齓齔齕齖齗齘齙齚齛齜齝齞齟齠齡齢齣齤齥齦齧齨齩齪齫齬齭齮齯齰齱齲齳齴齵齶齷齸?齹齺齻齼齽齾龁龂龍龎龏龐龑龒龓龔龕龖龗龘龜龝龞龡龢龣龤龥郎凉秊裏隣??????????????????????????????????????????????????????????????????????????????????????????????";
  "兀嗀﨎﨏﨑﨓﨔礼﨟蘒﨡﨣﨤﨧﨨﨩???????????????????????????????????????????????????????????????????????????????????????????????????????????????????????????????????????????????????????????????????????????????"
]%string.

(** The character of a two-byte sequence. *)
Definition gbk_char (lead trail : N) : option N :=
  if (129 <=? lead)%N && (lead <=? 254)%N
     && (64 <=? trail)%N && (trail <=? 254)%N
  then
    let row := u (nth (N.to_nat (lead - 129)) gbk_rows EmptyString) in
    let c := nth (N.to_nat (trail - 64)) row 63%N in
    if (c =? 63)%N then None else Some c
  else None.

Fixpoint gbk_decode (bs : list N) : option pystr :=
  match bs with
  | [] => Some []
  | b0 :: r0 =>
    if (b0 <? 128)%N then option_map (cons b0) (gbk_decode r0)
    else match r0 with
    | [] => None
    | b1 :: r1 =>
      match gbk_char b0 b1 with
      | Some c => option_map (cons c) (gbk_decode r1)
      | None => None
      end
    end
  end.

Fixpoint index_of (c : N) (l : list N) (i : N) : option N :=
  match l with
  | [] => None
  | x :: l' => if (x =? c)%N then Some i else index_of c l' (i + 1)%N
  end.

Fixpoint gbk_find (c : N) (rows : list string) (lead : N)
  : option (list N) :=
  match rows with
  | [] => None
  | row :: rows' =>
    match index_of c (u row) 64 with
    | Some trail => Some [lead; trail]
    | None => gbk_find c rows' (lead + 1)%N
    end
  end.

Definition gbk_encode_char (c : N) : option (list N) :=
  if (c <? 128)%N then Some [c] else gbk_find c gbk_rows 129.

Definition gbk : codec :=
  {| encode_char := gbk_encode_char; decode := gbk_decode |}.

(** ** The platform the two processes run on *)

(** [os.linesep], what a text stream writes for a newline. *)
Inductive newline : Type := LF | CRLF.

Record platform : Type := {
  linesep : newline;
  (** the encoding of the child's [sys.stdout] and [sys.stderr] *)
  stdio : codec;
  (** the locale's encoding, used when [encoding] is [None] *)
  locale : codec;
  (** [codecs.lookup]: [None] for a name that is not known *)
  lookup : pystr -> option codec;
  (** what the interpreter writes to [stderr] when an exception leaves
      the script *)
  uncaught : pystr
}.

(** What a text stream writes for the text [s]. *)
Definition to_linesep (nl : newline) (s : pystr) : pystr :=
  match nl with
  | LF => s
  | CRLF => flat_map (fun c => if (c =? 10)%N then [13; 10]%N else [c]) s
  end.

(** What a text stream reads: ["\r\n"] and ["\r"] come out as ["\n"]. *)
Fixpoint universal_newlines (s : pystr) : pystr :=
  match s with
  | [] => []
  | c :: r =>
    if (c =? 13)%N then
      match r with
      | d :: r' =>
        if (d =? 10)%N then 10%N :: universal_newlines r'
        else 10%N :: universal_newlines r
      | [] => [10%N]
      end
    else c :: universal_newlines r
  end.

(** What [subprocess.run] makes of the bytes of one captured stream:
    text, decoded with the codec of the [encoding] argument, when the
    call asks for text or names an encoding; the bytes otherwise.
    [None] when the name is unknown or the bytes do not decode. *)
Definition read_captured (pf : platform) (c : Orchestrator.subprocess_call)
           (bs : list N) : option pystr :=
  match Orchestrator.encoding c with
  | Some name =>
    match lookup pf name with
    | Some cd => option_map universal_newlines (decode_bytes cd bs)
    | None => None
    end
  | None =>
    if Orchestrator.text c
    then option_map universal_newlines (decode_bytes (locale pf) bs)
    else Some bs
  end.

(** How [subprocess.run] ends for a child that exited with [status]
    after writing these bytes: an error in decoding either stream is
    raised to the caller. *)
Definition deliver (pf : platform) (c : Orchestrator.subprocess_call)
           (status : Z) (out err : list N) : Orchestrator.spawn_outcome :=
  match read_captured pf c out, read_captured pf c err with
  | Some o, Some e => Orchestrator.Exited status o e
  | _, _ => Orchestrator.Failed (u "UnicodeDecodeError")
  end.

(** The bytes the child writes for what the script prints to [stderr],
    whose error handler is [backslashreplace]. *)
Definition stderr_bytes (pf : platform) (text : pystr) : list N :=
  encode_replace (stdio pf) (to_linesep (linesep pf) text).

(** The selection script as a child of the orchestrator. The script
    prints to [stdout] once, as its last statement (line 125), under
    [errors='strict']: when that text cannot be encoded, [print] raises,
    nothing catches it, nothing is written to [stdout] and the status
    is 1. *)
Definition selector_child (pf : platform) (sw : Selector.world)
           (c : Orchestrator.subprocess_call) : Orchestrator.spawn_outcome :=
  let m := Selector.main sw (tl (Orchestrator.argv c)) in
  let err := stderr_bytes pf (printed Stderr (trace_of m)) in
  match encode_strict (stdio pf)
          (to_linesep (linesep pf) (printed Stdout (trace_of m))) with
  | Some out => deliver pf c (exit_status m) out err
  | None => deliver pf c 1 [] (err ++ stderr_bytes pf (uncaught pf))
  end.

(** The orchestrator's world on the platform [pf] when its second
    child is the selection script of the model, running in the world
    [sw]; [annotator] is how the first child ended. *)
Definition children (pf : platform) (exe : pystr)
           (annotator : Orchestrator.spawn_outcome)
           (sw : Selector.world) : Orchestrator.world :=
  {| Orchestrator.sys_executable := exe;
     Orchestrator.spawn := fun c =>
       match Orchestrator.argv c with
       | _ :: script :: rest =>
         if pystr_eqb script (u "image_search_annotator.py") then annotator
         else if pystr_eqb script (u "vlm_selector.py")
              then selector_child pf sw c
              else Orchestrator.Exited 2 [] []
       | _ => Orchestrator.Exited 2 [] []
       end |}.

End Pipeline.

(* ================================================================== *)
(** * Vocabulary of the properties, and sample worlds *)
(* ================================================================== *)

Module Spec.

(** ** Strings *)

(** No whitespace at either end. *)
Definition trimmed (s : pystr) : Prop := lstrip s = s /\ rstrip s = s.

(** [t] is [s] with whitespace removed at both ends and nothing else
    changed. *)
Definition trimmed_from (s t : pystr) : Prop :=
  exists l r, s = l ++ t ++ r
              /\ forallb isspace l = true /\ forallb isspace r = true
              /\ trimmed t.

(** ** The annotator *)

Section AnnotatorSpec.

Variable num : Type.

Definition aevent : Type := event (Annotator.call_record num).
Definition atrace : Type := list aevent.

Definition error_path : pystr := u "error_screenshot.png".
Definition success_path : pystr := u "labeled_screenshot.png".

(** The call sites inside the [try] block, in order, and those among
    them that come before the capture of line 99. *)
Definition try_sites : list Annotator.site :=
  [Annotator.at_goto; Annotator.at_wait_search_box; Annotator.at_fill;
   Annotator.at_press; Annotator.at_wait_results; Annotator.at_settle;
   Annotator.at_evaluate; Annotator.at_screenshot; Annotator.at_linger].

Definition sites_before_capture : list Annotator.site :=
  [Annotator.at_goto; Annotator.at_wait_search_box; Annotator.at_fill;
   Annotator.at_press; Annotator.at_wait_results; Annotator.at_settle;
   Annotator.at_evaluate].

(** The three waits that carry a timeout budget. *)
Definition timeout_sites : list Annotator.site :=
  [Annotator.at_goto; Annotator.at_wait_search_box;
   Annotator.at_wait_results].

(** Playwright started, the browser launched and the page opened: the
    [try] block is entered. *)
Definition session_opened (w : Annotator.world num) : Prop :=
  Annotator.fault w Annotator.at_sync_playwright = None
  /\ Annotator.fault w Annotator.at_launch = None
  /\ Annotator.fault w Annotator.at_new_page = None.

(** The exception of the first call, among those at the sites [l] in
    order, that raises. *)
Fixpoint first_fault (w : Annotator.world num) (l : list Annotator.site)
  : option Annotator.page_exn :=
  match l with
  | [] => None
  | s :: l' =>
    match Annotator.fault w s with
    | Some e => Some e
    | None => first_fault w l'
    end
  end.

(** A screenshot call to the success path. *)
Definition is_success_capture (ev : event (Annotator.call_record num)) : bool :=
  match ev with
  | EvOp (Annotator.screenshot _ path _, _) => pystr_eqb path success_path
  | _ => false
  end.

Definition is_close (ev : event (Annotator.call_record num)) : bool :=
  match ev with
  | EvOp (Annotator.browser_close _, _) => true
  | _ => false
  end.

(** A call on the browser or its page (anything but printing, starting
    and stopping the driver, and closing the browser). *)
Definition uses_browser (ev : event (Annotator.call_record num)) : bool :=
  match ev with
  | EvPrint _ _ => false
  | EvOp (Annotator.sync_playwright_start _, _) => false
  | EvOp (Annotator.sync_playwright_stop _, _) => false
  | EvOp (Annotator.browser_close _, _) => false
  | EvOp (_, _) => true
  end.

Definition quiet (t : atrace) : Prop :=
  forallb (fun ev => negb (uses_browser ev)) t = true.

(** [browser.close()] is called, and no call after it uses the browser. *)
Definition closed_at_exit (t : atrace) : Prop :=
  exists pre r post,
    t = pre ++ EvOp (Annotator.browser_close num, r) :: post /\ quiet post.

(** The last thing the run does is stop the driver. *)
Definition stopped_at_exit (t : atrace) : Prop :=
  exists pre, t = pre ++ [EvOp (Annotator.sync_playwright_stop num, None)].

(** A screenshot call to [path] that returned: the file is written. *)
Definition written (path : pystr) (t : atrace) : Prop :=
  exists full_page, In (EvOp (Annotator.screenshot num path full_page, None)) t.

(** A screenshot call to [path], whether or not it returned. *)
Definition attempted (path : pystr) (t : atrace) : Prop :=
  exists full_page r, In (EvOp (Annotator.screenshot num path full_page, r)) t.

(** Some call on the page raised. *)
Definition page_fault (t : atrace) : Prop :=
  exists c e, In (EvOp (c, Some e)) t /\ uses_browser (EvOp (c, Some e)) = true.

(** The failure semantics as the specification words it: a fault on the
    page leaves the diagnostic file, a non-zero status, and no success
    file. *)
Definition failure_is_propagated (r : Annotator.run num unit) : Prop :=
  page_fault (trace_of r) ->
  written error_path (trace_of r)
  /\ exit_status r <> 0%Z
  /\ ~ written success_path (trace_of r).

(** Every screenshot call is the full-page capture of the success path
    or a viewport capture of the error path. *)
Definition capture_mode_ok (ev : event (Annotator.call_record num)) : bool :=
  match ev with
  | EvOp (Annotator.screenshot _ path full_page, _) =>
    (pystr_eqb path success_path && full_page)
    || (pystr_eqb path error_path && negb full_page)
  | _ => true
  end.

(** Every launch is a launch with [headless=h]. *)
Definition launched_with (h : bool)
           (ev : event (Annotator.call_record num)) : bool :=
  match ev with
  | EvOp (Annotator.chromium_launch _ headless, _) => Bool.eqb headless h
  | _ => true
  end.

End AnnotatorSpec.

(** Sample pages and worlds, with integers for numbers. *)

Definition thumb (t l : Z) : Annotator.img_element Z :=
  {| Annotator.getBoundingClientRect :=
       {| Annotator.rect_top := t; Annotator.rect_left := l;
          Annotator.rect_width := 200%Z; Annotator.rect_height := 150%Z |} |}.

Definition scrolled_page : Annotator.page_state Z :=
  {| Annotator.scrollX := 0%Z;
     Annotator.scrollY := 120%Z;
     Annotator.images := [thumb 40 10; thumb 40 220; thumb 200 10]%Z;
     Annotator.body_children := [] |}.

Definition calm : Annotator.world Z :=
  {| Annotator.fault := fun _ => None;
     Annotator.page := scrolled_page |}.

(** The results never become visible within the 15 s budget. *)
Definition results_time_out : Annotator.world Z :=
  {| Annotator.fault := fun s =>
       match s with
       | Annotator.at_wait_results =>
         Some (Annotator.PlaywrightTimeoutError (u "Timeout 15000ms exceeded."))
       | _ => None
       end;
     Annotator.page := scrolled_page |}.

(** ** The selection client *)

(** All three connection parameters are set and not empty. *)
Definition configured (sw : Selector.world) : bool :=
  Selector.all [Selector.getenv sw (u "OPENAI_API_KEY");
                Selector.getenv sw (u "OPENAI_API_BASE");
                Selector.getenv sw (u "OPENAI_MODEL_NAME")].


(** The client is configured, the image is readable, and the model
    answers the request with the text [t] as its first choice. *)
Definition answers (sw : Selector.world) (image_path text_prompt t : pystr)
  : Prop :=
  exists api_key base_url model_name data rest,
    Selector.getenv sw (u "OPENAI_API_KEY") = Some api_key
    /\ Selector.getenv sw (u "OPENAI_API_BASE") = Some base_url
    /\ Selector.getenv sw (u "OPENAI_MODEL_NAME") = Some model_name
    /\ truthy api_key = true /\ truthy base_url = true
    /\ truthy model_name = true
    /\ Selector.OpenAI sw api_key base_url = None
    /\ Selector.read_binary sw image_path = Selector.FileBytes data
    /\ Selector.chat_completions_create sw
         {| Selector.model := model_name;
            Selector.content_text := Selector.prompt_template text_prompt;
            Selector.content_image_url :=
              u "data:image/png;base64," ++ Selector.b64encode sw data;
            Selector.max_tokens := 10 |}
       = Selector.Response ({| Selector.message_content := Some t |} :: rest).

(** No variable is set. *)
Definition unconfigured : Selector.world :=
  {| Selector.getenv := fun _ => None;
     Selector.read_binary := fun _ => Selector.FileBytes [137; 80; 78; 71]%N;
     Selector.b64encode := fun _ => u "iVBORw==";
     Selector.OpenAI := fun _ _ => None;
     Selector.chat_completions_create := fun _ =>
       Selector.ApiRaises (Selector.OtherException (u "Connection error.")) |}.

(** Everything is set and the model answers [t]. *)
Definition answering (t : pystr) : Selector.world :=
  {| Selector.getenv := fun name => Some (u "x" ++ name);
     Selector.read_binary := fun _ => Selector.FileBytes [137; 80; 78; 71]%N;
     Selector.b64encode := fun _ => u "iVBORw==";
     Selector.OpenAI := fun _ _ => None;
     Selector.chat_completions_create := fun _ =>
       Selector.Response [ {| Selector.message_content := Some t |} ] |}.

(** ** The orchestrator *)

Definition otrace : Type := list (event Orchestrator.subprocess_call).

Definition is_selector_call (ev : event Orchestrator.subprocess_call) : bool :=
  match ev with
  | EvOp c =>
    match Orchestrator.argv c with
    | _ :: script :: _ => pystr_eqb script (u "vlm_selector.py")
    | _ => false
    end
  | EvPrint _ _ => false
  end.

(** How many times the selection client is started. *)
Definition selector_calls (t : otrace) : nat :=
  List.length (filter is_selector_call t).

(** The pipeline reports [label] as the selected one. *)
Definition reports (t : otrace) (label : pystr) : Prop :=
  In (EvPrint Stdout (Orchestrator.report label)) t.

(** Both children exit with status zero and the selector's output,
    trimmed, is [label], not empty. *)
Definition stages_yield (w : Orchestrator.world) (args : Orchestrator.Namespace)
           (label : pystr) : Prop :=
  exists o1 e1 o2 e2,
    Orchestrator.spawn w
      (Orchestrator.annotator_call w (Orchestrator.args_query args))
    = Orchestrator.Exited 0 o1 e1
    /\ Orchestrator.spawn w
         (Orchestrator.selector_call w (Orchestrator.args_prompt args))
       = Orchestrator.Exited 0 o2 e2
    /\ label = strip o2 /\ label <> [].

(** The annotator's child does not exit with status zero: it exits
    with another status, or cannot be started or waited for. *)
Definition annotation_failed (w : Orchestrator.world)
           (args : Orchestrator.Namespace) : Prop :=
  forall o e,
    Orchestrator.spawn w
      (Orchestrator.annotator_call w (Orchestrator.args_query args))
    <> Orchestrator.Exited 0 o e.

(** ** The two scripts on a platform *)

(** Only ASCII characters. *)
Definition ascii (s : pystr) : bool := forallb (fun c => (c <? 128)%N) s.

(** No carriage return. *)
Definition no_cr (s : pystr) : bool := forallb (fun c => negb (c =? 13)%N) s.

(** ASCII text is its own encoding under the codec, as under UTF-8, GBK
    and the other encodings that extend ASCII. *)
Definition ascii_transparent (cd : Pipeline.codec) : Prop :=
  forall s, ascii s = true ->
            Pipeline.encode_strict cd s = Some s
            /\ Pipeline.decode cd s = Some s.

(** The child's streams and the codec the orchestrator asks for at
    line 61 of main.py both extend ASCII. *)
Definition ascii_platform (pf : Pipeline.platform) : Prop :=
  ascii_transparent (Pipeline.stdio pf)
  /\ exists cd, Pipeline.lookup pf (u "gbk") = Some cd
                /\ ascii_transparent cd.

(** What the orchestrator reads, through the call [c], of the text a
    child prints to [stdout]: [None] when the child cannot encode it
    or the orchestrator cannot decode it. *)
Definition heard (pf : Pipeline.platform) (c : Orchestrator.subprocess_call)
           (text : pystr) : option pystr :=
  match Pipeline.encode_strict
          (Pipeline.stdio pf)
          (Pipeline.to_linesep (Pipeline.linesep pf) text) with
  | Some bs => Pipeline.read_captured pf c bs
  | None => None
  end.

(** The codecs the sample platforms know by name. *)
Definition sample_lookup (name : pystr) : option Pipeline.codec :=
  if pystr_eqb name (u "gbk") || pystr_eqb name (u "cp936")
  then Some Pipeline.gbk
  else if pystr_eqb name (u "utf-8") || pystr_eqb name (u "utf8")
       then Some Pipeline.utf8
       else None.

Definition sample_traceback : pystr :=
  u "Traceback (most recent call last):".

(** A Windows machine with the Chinese (PRC) locale: the platform
    line 61 of main.py is written for. *)
Definition windows_gbk : Pipeline.platform :=
  {| Pipeline.linesep := Pipeline.CRLF;
     Pipeline.stdio := Pipeline.gbk;
     Pipeline.locale := Pipeline.gbk;
     Pipeline.lookup := sample_lookup;
     Pipeline.uncaught := sample_traceback |}.

(** A POSIX machine with a UTF-8 locale. *)
Definition posix_utf8 : Pipeline.platform :=
  {| Pipeline.linesep := Pipeline.LF;
     Pipeline.stdio := Pipeline.utf8;
     Pipeline.locale := Pipeline.utf8;
     Pipeline.lookup := sample_lookup;
     Pipeline.uncaught := sample_traceback |}.

(** After a successful annotation the pipeline reports [label] and
    ends with status 0, whatever the annotator printed. *)
Definition pipeline_reports (pf : Pipeline.platform) (exe : pystr)
           (sw : Selector.world) (args : Orchestrator.Namespace)
           (label : pystr) : Prop :=
  forall o1 e1,
    reports (trace_of (Orchestrator.main
                         (Pipeline.children pf exe (Orchestrator.Exited 0 o1 e1)
                                            sw)
                         args))
            label
    /\ exit_status (Orchestrator.main
                      (Pipeline.children pf exe (Orchestrator.Exited 0 o1 e1)
                                         sw)
                      args) = 0%Z.

(** What the orchestrator, after an annotation that ended as
    [annotator], reads of the line [label] that the selection script
    prints. *)
Definition heard_label (pf : Pipeline.platform) (exe : pystr)
           (sw : Selector.world) (annotator : Orchestrator.spawn_outcome)
           (args : Orchestrator.Namespace) (label : pystr) : option pystr :=
  heard pf
        (Orchestrator.selector_call (Pipeline.children pf exe annotator sw)
                                    (Orchestrator.args_prompt args))
        (label ++ [10%N]).


(** The annotator's child exits with status 1; the selector's would
    answer [3]. *)
Definition annotation_fails : Orchestrator.world :=
  {| Orchestrator.sys_executable := u "python";
     Orchestrator.spawn := fun c =>
       match Orchestrator.argv c with
       | _ :: script :: _ =>
         if pystr_eqb script (u "image_search_annotator.py")
         then Orchestrator.Exited 1 [] (u "Traceback (most recent call last):")
         else Orchestrator.Exited 0 (u "3" ++ [10%N]) []
       | _ => Orchestrator.Exited 2 [] []
       end |}.

Definition cats : Orchestrator.Namespace :=
  {| Orchestrator.args_query := u "cute cats";
     Orchestrator.args_prompt := u "a yawning cat" |}.

End Spec.

(* ================================================================== *)
(** * Further vocabulary: what a run did, by stage *)
(* ================================================================== *)

Module Behaviour.

(** The calls of a trace, in order, without what was printed. *)
Fixpoint ops_of {Op : Type} (t : list (event Op)) : list Op :=
  match t with
  | [] => []
  | EvOp c :: t' => c :: ops_of t'
  | EvPrint _ _ :: t' => ops_of t'
  end.

(** The text of these lines, each followed by a line feed. *)
Definition lines (ls : list pystr) : pystr :=
  flat_map (fun l => l ++ [10%N]) ls.

(** ** The annotator *)

Section AnnotatorBehaviour.

Variable num : Type.

(** The calls before the [try] block, lines 17-21. *)
Definition startup_sites : list Annotator.site :=
  [Annotator.at_sync_playwright; Annotator.at_launch; Annotator.at_new_page].


(** A screenshot call to [path] that returned. *)
Definition wrote (path : pystr) (ev : Spec.aevent num) : bool :=
  match ev with
  | EvOp (Annotator.screenshot _ p _, None) => pystr_eqb p path
  | _ => false
  end.

(** A screenshot call to [path], returned or not. *)
Definition shot (path : pystr) (ev : Spec.aevent num) : bool :=
  match ev with
  | EvOp (Annotator.screenshot _ p _, _) => pystr_eqb p path
  | _ => false
  end.

(** Starting and stopping the driver, launching, opening the page. *)
Definition is_startup (ev : Spec.aevent num) : bool :=
  match ev with
  | EvOp (Annotator.sync_playwright_start _, _) => true
  | EvOp (Annotator.chromium_launch _ _, _) => true
  | EvOp (Annotator.new_page _, _) => true
  | EvOp (Annotator.sync_playwright_stop _, _) => true
  | _ => false
  end.


End AnnotatorBehaviour.

(** The browser cannot be launched. *)
Definition launch_fails : Annotator.world Z :=
  {| Annotator.fault := fun s =>
       match s with
       | Annotator.at_launch =>
         Some (Annotator.OtherException (u "Executable doesn't exist"))
       | _ => None
       end;
     Annotator.page := Spec.scrolled_page |}.


(** ** The selection client *)

(** The exception of [OpenAI(...)], when the two parameters it takes
    are set and it raises. *)
Definition client_fault (sw : Selector.world) : option Selector.sel_exn :=
  match Selector.getenv sw (u "OPENAI_API_KEY"),
        Selector.getenv sw (u "OPENAI_API_BASE") with
  | Some api_key, Some base_url => Selector.OpenAI sw api_key base_url
  | _, _ => None
  end.

(** The string returned at line 107 for the exception [e]. *)
Definition api_error (e : Selector.sel_exn) : pystr :=
  u "调用API时发生未知错误: " ++ Selector.str_exn e.

(** The request for a prompt and the bytes of the image. *)
Definition request_of (sw : Selector.world) (text_prompt : pystr)
           (data : list N) : Selector.request :=
  {| Selector.model :=
       match Selector.getenv sw (u "OPENAI_MODEL_NAME") with
       | Some model_name => model_name
       | None => []
       end;
     Selector.content_text := Selector.prompt_template text_prompt;
     Selector.content_image_url :=
       u "data:image/png;base64," ++ Selector.b64encode sw data;
     Selector.max_tokens := 10 |}.

(** What the first choice of a response gives at line 104. *)
Definition answer_of (choices : list Selector.choice)
  : outcome Selector.sel_exn pystr :=
  match choices with
  | [] => Normal (api_error (Selector.IndexError (u "list index out of range")))
  | c :: _ =>
    match Selector.message_content c with
    | None =>
      Normal (api_error
                (Selector.AttributeError
                   (u "'NoneType' object has no attribute 'strip'")))
    | Some content => Normal (strip content)
    end
  end.

(** How [call_vlm_api] ends, read off the world. *)
Definition result_of (sw : Selector.world) (image_path text_prompt : pystr)
  : outcome Selector.sel_exn pystr :=
  if negb (Spec.configured sw) then Normal Selector.CONFIG_ERROR
  else
    match client_fault sw with
    | Some e => Normal (api_error e)
    | None =>
      match Selector.read_binary sw image_path with
      | Selector.FileRaises _ => SysExit 1
      | Selector.FileBytes data =>
        match Selector.chat_completions_create
                sw (request_of sw text_prompt data) with
        | Selector.ApiRaises e => Normal (api_error e)
        | Selector.Response choices => answer_of choices
        end
      end
    end.

(** The line written to standard error when the image cannot be read,
    lines 43 and 46. *)
Definition image_error (image_path : pystr) (e : Selector.sel_exn) : pystr :=
  match e with
  | Selector.FileNotFoundError _ =>
    u "错误：图片文件未找到于 '" ++ image_path ++ u "'。"
  | _ => u "错误：编码图片时出错: " ++ Selector.str_exn e
  end.

(** The line written to standard error at line 115. *)
Definition usage : pystr :=
  u "用法: python vlm_selector.py <图片路径> " ++ Selector.dquote
  ++ u "<文本描述>" ++ Selector.dquote.

Definition is_request (c : Selector.op) : bool :=
  match c with
  | Selector.create_completion _ => true
  | _ => false
  end.

Definition is_read (c : Selector.op) : bool :=
  match c with
  | Selector.open_read _ => true
  | _ => false
  end.

(** The three parameters are set and not empty, with these values. *)
Definition configured_with (sw : Selector.world)
           (api_key base_url model_name : pystr) : Prop :=
  Selector.getenv sw (u "OPENAI_API_KEY") = Some api_key
  /\ Selector.getenv sw (u "OPENAI_API_BASE") = Some base_url
  /\ Selector.getenv sw (u "OPENAI_MODEL_NAME") = Some model_name
  /\ truthy api_key = true /\ truthy base_url = true
  /\ truthy model_name = true.

(** Everything is set, and: *)

(** the image file does not exist; *)
Definition image_missing : Selector.world :=
  {| Selector.getenv := fun name => Some (u "x" ++ name);
     Selector.read_binary := fun path =>
       Selector.FileRaises
         (Selector.FileNotFoundError (u "No such file or directory"));
     Selector.b64encode := fun _ => u "iVBORw==";
     Selector.OpenAI := fun _ _ => None;
     Selector.chat_completions_create := fun _ =>
       Selector.Response [ {| Selector.message_content := Some (u "3") |} ] |}.

(** the endpoint cannot be reached; *)
Definition endpoint_down : Selector.world :=
  {| Selector.getenv := fun name => Some (u "x" ++ name);
     Selector.read_binary := fun _ => Selector.FileBytes [137; 80; 78; 71]%N;
     Selector.b64encode := fun _ => u "iVBORw==";
     Selector.OpenAI := fun _ _ => None;
     Selector.chat_completions_create := fun _ =>
       Selector.ApiRaises (Selector.OtherException (u "Connection error.")) |}.

(** the response has these choices. *)
Definition responding (choices : list Selector.choice) : Selector.world :=
  {| Selector.getenv := fun name => Some (u "x" ++ name);
     Selector.read_binary := fun _ => Selector.FileBytes [137; 80; 78; 71]%N;
     Selector.b64encode := fun _ => u "iVBORw==";
     Selector.OpenAI := fun _ _ => None;
     Selector.chat_completions_create := fun _ => Selector.Response choices |}.

(** ** The orchestrator *)

(** Both children exit with status 0; the selector prints [out]. *)
Definition both_exit_zero (out : pystr) : Orchestrator.world :=
  {| Orchestrator.sys_executable := u "python";
     Orchestrator.spawn := fun c =>
       match Orchestrator.argv c with
       | _ :: script :: _ =>
         if pystr_eqb script (u "image_search_annotator.py")
         then Orchestrator.Exited 0 [] []
         else Orchestrator.Exited 0 out []
       | _ => Orchestrator.Exited 2 [] []
       end |}.

End Behaviour.

(* ================================================================== *)
(** * Facts about the Python model *)
(* ================================================================== *)

Arguments u : simpl never.
Arguments str_of_nat : simpl never.
Arguments str_of_Z : simpl never.

Section StripFacts.

Lemma lstrip_split (s : pystr) :
  exists l, s = l ++ lstrip s /\ forallb isspace l = true.
Proof.
  induction s as [|c s IH]; simpl.
  - exists []. split; reflexivity.
  - destruct (isspace c) eqn:Hc.
    + destruct IH as [l [Hs Hl]].
      exists (c :: l). simpl. rewrite Hc, Hl. split; [congruence | reflexivity].
    + exists []. split; reflexivity.
Qed.

Lemma lstrip_length (s : pystr) : List.length (lstrip s) <= List.length s.
Proof.
  induction s as [|c s IH]; simpl; [lia|].
  destruct (isspace c); simpl; lia.
Qed.

Lemma lstrip_fixed_head (c : N) (s : pystr) :
  lstrip (c :: s) = c :: s -> isspace c = false.
Proof.
  simpl. destruct (isspace c); [|reflexivity].
  intros H. pose proof (lstrip_length s) as L. rewrite H in L. simpl in L. lia.
Qed.

Lemma lstrip_head (s : pystr) (c : N) (r : pystr) :
  lstrip s = c :: r -> isspace c = false.
Proof.
  induction s as [|d s IH]; simpl; [discriminate|].
  destruct (isspace d) eqn:Hd; [exact IH|].
  intros H. injection H as -> _. exact Hd.
Qed.

Lemma lstrip_idem (s : pystr) : lstrip (lstrip s) = lstrip s.
Proof.
  destruct (lstrip s) as [|c r] eqn:E; [reflexivity|].
  simpl. now rewrite (lstrip_head _ E).
Qed.

Lemma rstrip_split (s : pystr) :
  exists r, s = rstrip s ++ r /\ forallb isspace r = true.
Proof.
  unfold rstrip. destruct (lstrip_split (rev s)) as [l [Hs Hl]].
  exists (rev l). split.
  - rewrite <- rev_app_distr, <- Hs. now rewrite rev_involutive.
  - rewrite forallb_forall in *. intros x Hx. apply Hl. now apply in_rev.
Qed.

Lemma rstrip_idem (s : pystr) : rstrip (rstrip s) = rstrip s.
Proof.
  unfold rstrip. now rewrite rev_involutive, lstrip_idem.
Qed.

(** Trimming on the right keeps a string without leading whitespace
    so. *)
Lemma lstrip_rstrip (s : pystr) : lstrip s = s -> lstrip (rstrip s) = rstrip s.
Proof.
  intros Hs. destruct (rstrip_split s) as [r [Hr _]].
  destruct (rstrip s) as [|c p]; [reflexivity|].
  rewrite Hr in Hs. simpl app in Hs.
  apply lstrip_fixed_head in Hs. simpl. now rewrite Hs.
Qed.

Lemma strip_trimmed (s : pystr) : Spec.trimmed (strip s).
Proof.
  unfold Spec.trimmed, strip. split.
  - apply lstrip_rstrip, lstrip_idem.
  - apply rstrip_idem.
Qed.

Lemma strip_trimmed_from (s : pystr) : Spec.trimmed_from s (strip s).
Proof.
  destruct (lstrip_split s) as [l [Hl Hl']].
  destruct (rstrip_split (lstrip s)) as [r [Hr Hr']].
  exists l, r. repeat split; try assumption.
  - unfold strip. now rewrite <- Hr.
  - apply strip_trimmed.
  - apply strip_trimmed.
Qed.

Lemma strip_of_trimmed (x : pystr) : Spec.trimmed x -> strip x = x.
Proof.
  intros [Hl Hr]. unfold strip. now rewrite Hl.
Qed.

(** What [print] writes for a trimmed string, trimmed again, is that
    string. *)
Lemma strip_line (x : pystr) : Spec.trimmed x -> strip (x ++ [10%N]) = x.
Proof.
  intros [Hl Hr]. unfold strip.
  destruct x as [|c p]; [reflexivity|].
  pose proof (lstrip_fixed_head Hl) as Hc.
  assert (E : lstrip ((c :: p) ++ [10%N]) = (c :: p) ++ [10%N])
    by (simpl; now rewrite Hc).
  rewrite E. unfold rstrip in *.
  rewrite rev_app_distr. simpl rev at 2. simpl app at 1.
  change (lstrip (10%N :: rev (c :: p))) with (lstrip (rev (c :: p))).
  exact Hr.
Qed.

End StripFacts.

Section DecimalFacts.

Lemma pystr_of_string_inj (a b : string) :
  pystr_of_string a = pystr_of_string b -> a = b.
Proof.
  revert b. induction a as [|c a IH]; intros [|d b]; simpl; try discriminate.
  - reflexivity.
  - intros H. injection H as Hc Hr.
    apply (f_equal ascii_of_N) in Hc. rewrite !ascii_N_embedding in Hc.
    f_equal; auto.
Qed.

Lemma str_of_nat_inj (m n : nat) : str_of_nat m = str_of_nat n -> m = n.
Proof.
  unfold str_of_nat. intros H. apply pystr_of_string_inj in H.
  apply (f_equal NilEmpty.uint_of_string) in H.
  rewrite !NilEmpty.usu in H. injection H as H.
  now apply Unsigned.to_uint_inj.
Qed.

End DecimalFacts.

(** ** Traces of the control-flow combinators *)

Section TraceFacts.

Context {Op E : Type}.
Variable P : event Op -> bool.

Lemma trace_bind {T B} (m : M Op E T) (k : T -> M Op E B) :
  trace_of (bind m k)
  = trace_of m ++ match outcome_of m with
                  | Normal a => trace_of (k a)
                  | _ => []
                  end.
Proof.
  destruct m as [t [a|e|c]]; simpl; try now rewrite app_nil_r.
  now destruct (k a).
Qed.

Lemma outcome_bind {T B} (m : M Op E T) (k : T -> M Op E B) :
  outcome_of (bind m k)
  = match outcome_of m with
    | Normal a => outcome_of (k a)
    | Raised e => Raised e
    | SysExit c => SysExit c
    end.
Proof.
  destruct m as [t [a|e|c]]; simpl; try reflexivity.
  now destruct (k a).
Qed.

Lemma trace_try_finally {T} (body : M Op E T) (fin : M Op E unit) :
  trace_of (try_finally body fin) = trace_of body ++ trace_of fin.
Proof.
  now destruct body, fin.
Qed.

Lemma outcome_try_finally {T} (body : M Op E T) (fin : M Op E unit) :
  outcome_of (try_finally body fin)
  = match outcome_of fin with
    | Normal _ => outcome_of body
    | Raised e => Raised e
    | SysExit c => SysExit c
    end.
Proof.
  now destruct body, fin.
Qed.

Lemma trace_try_except {T} (body : M Op E T) (cs : list (except_clause T)) :
  trace_of (try_except body cs)
  = trace_of body ++ match outcome_of body with
                     | Raised e =>
                       match select_clause cs e with
                       | Some h => trace_of h
                       | None => []
                       end
                     | _ => []
                     end.
Proof.
  destruct body as [t [a|e|c]]; simpl; try now rewrite app_nil_r.
  destruct (select_clause cs e) as [[t' r]|]; simpl; [reflexivity|].
  now rewrite app_nil_r.
Qed.

Lemma outcome_try_except {T} (body : M Op E T) (cs : list (except_clause T)) :
  outcome_of (try_except body cs)
  = match outcome_of body with
    | Raised e =>
      match select_clause cs e with
      | Some h => outcome_of h
      | None => Raised e
      end
    | r => r
    end.
Proof.
  destruct body as [t [a|e|c]]; simpl; try reflexivity.
  now destruct (select_clause cs e) as [[t' r]|].
Qed.

(** A property of single events holds along a computation when it holds
    along its parts. *)
Lemma all_bind {T B} (m : M Op E T) (k : T -> M Op E B) :
  forallb P (trace_of m) = true ->
  (forall a, forallb P (trace_of (k a)) = true) ->
  forallb P (trace_of (bind m k)) = true.
Proof.
  intros Hm Hk. rewrite trace_bind, forallb_app, Hm.
  destruct (outcome_of m); simpl; auto.
Qed.

Lemma all_try_finally {T} (body : M Op E T) (fin : M Op E unit) :
  forallb P (trace_of body) = true ->
  forallb P (trace_of fin) = true ->
  forallb P (trace_of (try_finally body fin)) = true.
Proof.
  intros Hb Hf. now rewrite trace_try_finally, forallb_app, Hb, Hf.
Qed.

Lemma select_clause_in {T} (cs : list (except_clause T)) (e : E)
      (h : M Op E T) :
  select_clause cs e = Some h -> exists c, In c cs /\ c e = Some h.
Proof.
  induction cs as [|c cs IH]; simpl; [discriminate|].
  destruct (c e) as [h'|] eqn:Hc.
  - intros H. injection H as <-. exists c. auto.
  - intros H. destruct (IH H) as [c' [Hin Hc']]. exists c'. auto.
Qed.

Lemma all_try_except {T} (body : M Op E T) (cs : list (except_clause T)) :
  forallb P (trace_of body) = true ->
  (forall c e h, In c cs -> c e = Some h -> forallb P (trace_of h) = true) ->
  forallb P (trace_of (try_except body cs)) = true.
Proof.
  intros Hb Hc. rewrite trace_try_except, forallb_app, Hb. simpl.
  destruct (outcome_of body) as [a|e|c]; try reflexivity.
  destruct (select_clause cs e) as [h|] eqn:Hs; [|reflexivity].
  destruct (select_clause_in _ _ Hs) as [c [Hin Hce]]. eauto.
Qed.

Lemma all_with {R T} (enter : M Op E R) (body : R -> M Op E T)
      (leave : M Op E unit) :
  forallb P (trace_of enter) = true ->
  (forall x, forallb P (trace_of (body x)) = true) ->
  forallb P (trace_of leave) = true ->
  forallb P (trace_of (with_ enter body leave)) = true.
Proof.
  intros He Hb Hl. unfold with_. apply all_bind; [assumption|].
  intros x. apply all_try_finally; auto.
Qed.

Lemma all_print (text : pystr) :
  P (EvPrint Stdout text) = true ->
  forallb P (trace_of (print (Op:=Op) (E:=E) text)) = true.
Proof.
  intros H. simpl. now rewrite H.
Qed.

End TraceFacts.

(* ================================================================== *)
(** * The injected script *)
(* ================================================================== *)

Section ScriptFacts.

Variable num : Type.
Variable js_add : num -> num -> num.

(** The loop changes neither the scroll offset nor the images. *)
Lemma forEach_frame (l : list (Annotator.img_element num)) :
  forall index pg,
    let pg' := Annotator.forEach (Annotator.annotate_one js_add) l index pg in
    Annotator.scrollX pg' = Annotator.scrollX pg
    /\ Annotator.scrollY pg' = Annotator.scrollY pg
    /\ Annotator.images pg' = Annotator.images pg.
Proof.
  induction l as [|img l IH]; intros index pg; simpl; [auto|].
  destruct (IH (S index)
               (Annotator.annotate_one js_add img index pg)) as [HX [HY HI]].
  simpl in HX, HY, HI. auto.
Qed.

(** The loop appends one label per image, in the order of the images,
    each built for its image and its index. *)
Lemma forEach_children (l : list (Annotator.img_element num)) :
  forall index pg,
    Annotator.body_children
      (Annotator.forEach (Annotator.annotate_one js_add) l index pg)
    = Annotator.body_children pg
      ++ map (fun p => Annotator.make_label js_add pg (snd p) (fst p))
             (combine (seq index (List.length l)) l).
Proof.
  induction l as [|img l IH]; intros index pg; simpl.
  - now rewrite app_nil_r.
  - rewrite IH. simpl. rewrite <- app_assoc. simpl. reflexivity.
Qed.

Lemma labels_added_eq (pg : Annotator.page_state num) :
  Annotator.labels_added js_add pg
  = map (fun p => Annotator.make_label js_add pg (snd p) (fst p))
        (combine (seq 0 (List.length (Annotator.images pg)))
                 (Annotator.images pg)).
Proof.
  unfold Annotator.labels_added, Annotator.js_code. simpl fst.
  rewrite forEach_children.
  rewrite skipn_app, skipn_all, Nat.sub_diag. reflexivity.
Qed.

Lemma map_fst_combine_seq {T} (l : list T) (i : nat) :
  map fst (combine (seq i (List.length l)) l) = seq i (List.length l).
Proof.
  revert i. induction l as [|x l IH]; intros i; simpl; [reflexivity|].
  now rewrite IH.
Qed.

Lemma nth_error_combine_seq {T} (l : list T) (i k : nat) (x : T) :
  nth_error l k = Some x ->
  nth_error (combine (seq i (List.length l)) l) k = Some (i + k, x).
Proof.
  revert i k. induction l as [|y l IH]; intros i [|k]; simpl; try discriminate.
  - intros H. injection H as ->. now rewrite Nat.add_0_r.
  - intros H. rewrite (IH (S i) k H). f_equal. f_equal. lia.
Qed.

(** C3. For a page with N result thumbnails (N may be 0), the texts of
    the labels the script adds are the decimal numerals of 1, 2, ..., N
    in this order: N labels, no numeral missing and none used twice; N
    is also the count the script returns. The order is the order in
    which the thumbnails were enumerated: the label added in position k
    is the one of the k-th thumbnail found, placed at that thumbnail's
    rectangle, and its numeral is k (counting from 1). *)
Theorem labels_are_one_to_N (pg : Annotator.page_state num) :
  let N := List.length (Annotator.images pg) in
  let labels := Annotator.labels_added js_add pg in
  map (@Annotator.innerText num) labels = map str_of_nat (seq 1 N)
  /\ NoDup (map (@Annotator.innerText num) labels)
  /\ List.length labels = N
  /\ snd (Annotator.js_code js_add pg) = N
  /\ (forall k img,
         nth_error (Annotator.images pg) k = Some img ->
         exists label,
           nth_error labels k = Some label
           /\ Annotator.innerText label = str_of_nat (k + 1)
           /\ Annotator.top (Annotator.style label)
              = Annotator.px
                  (js_add (Annotator.scrollY pg)
                          (Annotator.rect_top
                             (Annotator.getBoundingClientRect img)))
           /\ Annotator.left (Annotator.style label)
              = Annotator.px
                  (js_add (Annotator.scrollX pg)
                          (Annotator.rect_left
                             (Annotator.getBoundingClientRect img)))).
Proof.
  intros N labels.
  assert (Htexts : map (@Annotator.innerText num) labels
                   = map str_of_nat (seq 1 N)).
  { subst labels N. rewrite labels_added_eq, map_map. simpl.
    rewrite <- seq_shift, map_map.
    rewrite <- (map_fst_combine_seq (Annotator.images pg) 0) at 2.
    rewrite map_map. apply map_ext. intros [k img]. simpl.
    f_equal. lia. }
  repeat split.
  - exact Htexts.
  - rewrite Htexts. apply Injective_map_NoDup.
    + intros a b. apply str_of_nat_inj.
    + apply seq_NoDup.
  - apply (f_equal (@List.length _)) in Htexts.
    now rewrite !length_map, length_seq in Htexts.
  - intros k img Hk. exists (Annotator.make_label js_add pg img k).
    split; [|repeat split].
    subst labels. rewrite labels_added_eq.
    erewrite map_nth_error;
      [|apply nth_error_combine_seq; exact Hk]. reflexivity.
Qed.

Hypothesis js_add_comm : forall a b, js_add a b = js_add b a.

(** C6. For every thumbnail found by the script (the one at position k
    of the enumeration) and whatever the scroll offset of the page, the
    label added for it is absolutely positioned at
    top = rect.top + scrollY and left = rect.left + scrollX, where rect
    is the thumbnail's viewport rectangle and the offset is the one of
    the page the rectangle was read from; the script does not move the
    scroll offset. *)
Theorem overlay_at_document_coordinates
        (pg : Annotator.page_state num) (k : nat)
        (img : Annotator.img_element num) :
  nth_error (Annotator.images pg) k = Some img ->
  let rect := Annotator.getBoundingClientRect img in
  exists label,
    nth_error (Annotator.labels_added js_add pg) k = Some label
    /\ Annotator.position (Annotator.style label) = u "absolute"
    /\ Annotator.top (Annotator.style label)
       = Annotator.px (js_add (Annotator.rect_top rect) (Annotator.scrollY pg))
    /\ Annotator.left (Annotator.style label)
       = Annotator.px (js_add (Annotator.rect_left rect) (Annotator.scrollX pg))
    /\ Annotator.innerText label = str_of_nat (k + 1)
    /\ Annotator.scrollY (fst (Annotator.js_code js_add pg)) = Annotator.scrollY pg
    /\ Annotator.scrollX (fst (Annotator.js_code js_add pg)) = Annotator.scrollX pg.
Proof.
  intros Hk rect.
  exists (Annotator.make_label js_add pg img k).
  split.
  - rewrite labels_added_eq.
    erewrite map_nth_error;
      [|apply nth_error_combine_seq; exact Hk]. reflexivity.
  - simpl. repeat split.
    + f_equal. apply js_add_comm.
    + f_equal. apply js_add_comm.
    + apply (forEach_frame (Annotator.images pg) 0 pg).
    + apply (forEach_frame (Annotator.images pg) 0 pg).
Qed.

End ScriptFacts.

(* ================================================================== *)
(** * The annotator's runs *)
(* ================================================================== *)

Lemma pystr_eqb_eq (a b : pystr) : pystr_eqb a b = true -> a = b.
Proof.
  revert b. induction a as [|x a IH]; intros [|y b]; simpl; try discriminate.
  - reflexivity.
  - intros H. apply andb_prop in H as [Hx Hr].
    apply N.eqb_eq in Hx. f_equal; auto.
Qed.

Lemma pystr_eqb_refl (a : pystr) : pystr_eqb a a = true.
Proof.
  induction a as [|x a IH]; simpl; [reflexivity|].
  now rewrite N.eqb_refl.
Qed.

Lemma filter_none {T} (p : T -> bool) (l : list T) :
  forallb (fun x => negb (p x)) l = true -> filter p l = [].
Proof.
  induction l as [|x l IH]; simpl; [reflexivity|].
  destruct (p x); simpl; [discriminate | exact IH].
Qed.

Lemma Some_eq {T} (a b : T) : Some a = Some b -> a = b.
Proof.
  congruence.
Qed.

(** Membership in a list given in full. *)
Ltac pick := simpl; repeat (try (left; reflexivity); right).

Section AnnotatorFacts.

Variable num : Type.
Variable js_add : num -> num -> num.

Lemma all_call (P : Spec.aevent num -> bool) (w : Annotator.world num)
      (s : Annotator.site) (c : Annotator.op num) :
  P (EvOp (c, Annotator.fault w s)) = true ->
  forallb P (trace_of (Annotator.call w s c)) = true.
Proof.
  unfold Annotator.call. destruct (Annotator.fault w s); simpl; intros ->;
    reflexivity.
Qed.

Lemma all_evaluate (P : Spec.aevent num -> bool) (w : Annotator.world num) :
  (forall after n r, P (EvOp (Annotator.evaluate after n, r)) = true) ->
  forallb P (trace_of (Annotator.page_evaluate js_add w)) = true.
Proof.
  intros H. unfold Annotator.page_evaluate, Annotator.js_code.
  apply all_bind; [apply all_call, H | reflexivity].
Qed.

(** Walks a computation of the annotator, leaving what a property of
    events has to satisfy at the calls. *)
Ltac walk :=
  repeat match goal with
  | |- forall _, _ => intro
  | |- forallb _ (trace_of (bind _ _)) = true => apply all_bind
  | |- forallb _ (trace_of (with_ _ _ _)) = true => apply all_with
  | |- forallb _ (trace_of (try_finally _ _)) = true => apply all_try_finally
  | |- forallb _ (trace_of (print _)) = true => apply all_print
  | |- forallb _ (trace_of (ret _)) = true => reflexivity
  | |- forallb _ (trace_of (Annotator.page_evaluate _ _)) = true =>
    apply all_evaluate
  | |- forallb _ (trace_of (Annotator.call _ _ _)) = true => apply all_call
  end.

Lemma all_handlers (P : Spec.aevent num -> bool) (w : Annotator.world num) :
  (forall text, P (EvPrint Stdout text) = true) ->
  (forall r, P (EvOp (Annotator.screenshot num (u "error_screenshot.png") false,
                      r)) = true) ->
  forall c e h,
    In c [Annotator.on_timeout w; Annotator.on_exception w] ->
    c e = Some h -> forallb P (trace_of h) = true.
Proof.
  intros Hp Hs c e h [<-|[<-|[]]] Hc.
  - unfold Annotator.on_timeout in Hc.
    destruct e; [|discriminate]. apply Some_eq in Hc. subst h.
    unfold Annotator.page_screenshot. walk; auto.
  - unfold Annotator.on_exception in Hc. apply Some_eq in Hc. subst h.
    unfold Annotator.page_screenshot. walk; auto.
Qed.

(** A property of events that holds of every print and of every call
    the [try] block and its handlers can make holds along them. *)
Lemma all_guarded (P : Spec.aevent num -> bool) (w : Annotator.world num) (query : pystr) :
  (forall f text, P (EvPrint f text) = true) ->
  (forall c r,
      match c with
      | Annotator.sync_playwright_start _ | Annotator.chromium_launch _ _
      | Annotator.new_page _ | Annotator.browser_close _
      | Annotator.sync_playwright_stop _ => False
      | Annotator.screenshot _ path full_page =>
        (path = u "labeled_screenshot.png" /\ full_page = true)
        \/ (path = u "error_screenshot.png" /\ full_page = false)
      | _ => True
      end -> P (EvOp (c, r)) = true) ->
  forallb P (trace_of (Annotator.handled js_add w query)) = true.
Proof.
  intros Hp Hc. apply all_try_except.
  - unfold Annotator.try_block, Annotator.page_screenshot. cbv zeta.
    walk; try apply Hp; try (apply Hc; simpl; auto).
  - apply all_handlers; [apply Hp | intros r; apply Hc; auto].
Qed.

(** The same along every run of the function, for a property that also
    holds of the calls around the [try] block. *)
Lemma all_annotate (P : Spec.aevent num -> bool) (w : Annotator.world num)
      (query : pystr) (headless : bool) :
  (forall f text, P (EvPrint f text) = true) ->
  (forall c r,
      match c with
      | Annotator.chromium_launch _ true => False
      | Annotator.screenshot _ path full_page =>
        (path = u "labeled_screenshot.png" /\ full_page = true)
        \/ (path = u "error_screenshot.png" /\ full_page = false)
      | _ => True
      end -> P (EvOp (c, r)) = true) ->
  forallb P (trace_of (Annotator.annotate_image_search js_add w query headless))
  = true.
Proof.
  intros Hp Hc. unfold Annotator.annotate_image_search.
  apply all_with; [apply all_call, Hc; exact I | | simpl; rewrite Hc; auto].
  intros _.
  apply all_bind; [apply all_call, Hc; exact I | intros _].
  apply all_bind; [apply all_call, Hc; exact I | intros _].
  apply all_try_finally.
  - apply all_guarded; [exact Hp|].
    intros c r Hcr. apply Hc. destruct c; auto; contradiction.
  - unfold Annotator.finally_block. walk; [apply Hc; exact I | apply Hp].
Qed.

(** ** The shape of a run *)

Lemma trace_call (w : Annotator.world num) (s : Annotator.site)
      (c : Annotator.op num) :
  trace_of (Annotator.call w s c) = [EvOp (c, Annotator.fault w s)].
Proof.
  unfold Annotator.call. now destruct (Annotator.fault w s).
Qed.

Lemma outcome_call (w : Annotator.world num) (s : Annotator.site)
      (c : Annotator.op num) :
  outcome_of (Annotator.call w s c)
  = match Annotator.fault w s with
    | None => Normal tt
    | Some e => Raised e
    end.
Proof.
  unfold Annotator.call. now destruct (Annotator.fault w s).
Qed.

Lemma annotate_trace (w : Annotator.world num) (query : pystr)
      (headless : bool) :
  Spec.session_opened w ->
  trace_of (Annotator.annotate_image_search js_add w query headless)
  = [EvOp (Annotator.sync_playwright_start num, None);
     EvOp (Annotator.chromium_launch num false, None);
     EvOp (Annotator.new_page num, None)]
    ++ trace_of (Annotator.handled js_add w query)
    ++ trace_of (Annotator.finally_block w)
    ++ [EvOp (Annotator.sync_playwright_stop num, None)].
Proof.
  intros [H0 [H1 H2]].
  unfold Annotator.annotate_image_search, with_.
  rewrite trace_bind, trace_call, outcome_call, H0.
  rewrite trace_try_finally, trace_bind, trace_call, outcome_call, H1.
  rewrite trace_bind, trace_call, outcome_call, H2.
  rewrite trace_try_finally.
  unfold Annotator.stop_playwright, trace_of at 3. cbn [fst].
  rewrite <- !app_assoc. reflexivity.
Qed.

Lemma annotate_outcome (w : Annotator.world num) (query : pystr)
      (headless : bool) :
  Spec.session_opened w ->
  outcome_of (Annotator.annotate_image_search js_add w query headless)
  = match Annotator.fault w Annotator.at_close with
    | None => outcome_of (Annotator.handled js_add w query)
    | Some e => Raised e
    end.
Proof.
  intros [H0 [H1 H2]].
  unfold Annotator.annotate_image_search, with_.
  rewrite outcome_bind, outcome_call, H0.
  rewrite outcome_try_finally.
  unfold Annotator.stop_playwright, outcome_of at 1. cbn [snd].
  rewrite outcome_bind, outcome_call, H1.
  rewrite outcome_bind, outcome_call, H2.
  rewrite outcome_try_finally.
  unfold Annotator.finally_block.
  rewrite outcome_bind, outcome_call.
  now destruct (Annotator.fault w Annotator.at_close).
Qed.

Lemma finally_trace (w : Annotator.world num) :
  exists post,
    trace_of (Annotator.finally_block w)
    = EvOp (Annotator.browser_close num,
            Annotator.fault w Annotator.at_close) :: post
    /\ Spec.quiet post /\ filter (@Spec.is_close num) post = []
    /\ forallb (fun ev => negb (@Spec.is_success_capture num ev)) post = true.
Proof.
  unfold Annotator.finally_block.
  rewrite trace_bind, trace_call, outcome_call.
  destruct (Annotator.fault w Annotator.at_close); eexists;
    (split; [reflexivity | repeat split; reflexivity]).
Qed.

(** Once the page is open, [browser.close()] is called exactly once,
    after the last call that uses the browser. *)
Lemma closed_once_opened (w : Annotator.world num) (query : pystr)
      (headless : bool) :
  Spec.session_opened w ->
  let t := trace_of (Annotator.annotate_image_search js_add w query headless) in
  Spec.closed_at_exit t /\ List.length (filter (@Spec.is_close num) t) = 1.
Proof.
  intros Hs t.
  destruct (finally_trace w) as [post [Hf [Hq [Hn _]]]].
  subst t. rewrite (annotate_trace query headless Hs), Hf. split.
  - exists ([EvOp (Annotator.sync_playwright_start num, None);
             EvOp (Annotator.chromium_launch num false, None);
             EvOp (Annotator.new_page num, None)]
            ++ trace_of (Annotator.handled js_add w query)),
           (Annotator.fault w Annotator.at_close),
           (post ++ [EvOp (Annotator.sync_playwright_stop num, None)]).
    split.
    + rewrite <- app_assoc. reflexivity.
    + unfold Spec.quiet in *. rewrite forallb_app.
      apply andb_true_intro. split; [exact Hq | reflexivity].
  - rewrite !filter_app. cbn [filter Spec.is_close app].
    rewrite filter_none, Hn; [reflexivity|].
    apply all_guarded; [reflexivity|].
    intros c r; destruct c; try contradiction; reflexivity.
Qed.

(** C8. In every run in which the driver started and the browser was
    launched, the last thing the function does is stop the driver; and
    once the page is open, on every path out of the [try] statement
    (normal end, timeout, any other exception, a failing handler),
    [browser.close()] is called, exactly once, after the last call that
    uses the browser, and has returned whenever the function returns
    normally. *)
Theorem browser_closed_on_every_exit_path
        (w : Annotator.world num) (query : pystr) (headless : bool) :
  Annotator.fault w Annotator.at_sync_playwright = None ->
  Annotator.fault w Annotator.at_launch = None ->
  let r := Annotator.annotate_image_search js_add w query headless in
  Spec.stopped_at_exit (trace_of r)
  /\ (Annotator.fault w Annotator.at_new_page = None ->
      Spec.closed_at_exit (trace_of r)
      /\ List.length (filter (@Spec.is_close num) (trace_of r)) = 1
      /\ (outcome_of r = Normal tt ->
          Annotator.fault w Annotator.at_close = None)).
Proof.
  intros H0 H1 r. split.
  - subst r. unfold Annotator.annotate_image_search, with_.
    rewrite trace_bind, trace_call, outcome_call, H0, trace_try_finally.
    eexists. rewrite app_assoc. reflexivity.
  - intros H2.
    assert (Hs : Spec.session_opened w) by (repeat split; assumption).
    destruct (closed_once_opened query headless Hs) as [Hc Hn].
    repeat split; [exact Hc | exact Hn |].
    subst r. rewrite (annotate_outcome query headless Hs).
    destruct (Annotator.fault w Annotator.at_close); [discriminate|auto].
Qed.

(** C5, as the code has it. The [headless] argument has no effect: the
    function does the same whatever its value, and every launch is a
    launch with [headless=False]; so the script started without
    [--visible], whose [headless] is [True], opens a visible browser. *)
Theorem launch_ignores_headless_flag
        (w : Annotator.world num) (query : pystr) (headless : bool) :
  Annotator.annotate_image_search js_add w query headless
  = Annotator.annotate_image_search js_add w query (negb headless)
  /\ forallb (@Spec.launched_with num false)
             (trace_of (Annotator.annotate_image_search js_add w query
                                                        headless)) = true
  /\ Annotator.args_headless (Annotator.parse_args query false) = true
  /\ (Annotator.fault w Annotator.at_sync_playwright = None ->
      In (EvOp (Annotator.chromium_launch num false,
                Annotator.fault w Annotator.at_launch))
         (trace_of (Annotator.script js_add w
                                     (Annotator.parse_args query false)))).
Proof.
  repeat split.
  - apply all_annotate; [reflexivity|].
    intros c r. destruct c as [ | b | | | | | | | | | | ]; try reflexivity.
    destruct b; [contradiction | reflexivity].
  - intros H0. unfold Annotator.script, Annotator.annotate_image_search, with_.
    rewrite trace_bind, trace_call, outcome_call, H0, trace_try_finally.
    rewrite trace_bind, trace_call. pick.
Qed.

(** ** Faults inside the [try] block *)

Lemma first_fault_some (w : Annotator.world num) (l : list Annotator.site)
      (s : Annotator.site) (e : Annotator.page_exn) :
  In s l -> Annotator.fault w s = Some e ->
  exists e', Spec.first_fault w l = Some e'.
Proof.
  induction l as [|x l IH]; simpl; [contradiction|].
  intros [->|Hin] He.
  - rewrite He. eauto.
  - destruct (Annotator.fault w x); eauto.
Qed.

Ltac at_site w s :=
  destruct (Annotator.fault w s) eqn:?;
  cbn [bind print ret fst snd app trace_of outcome_of forallb negb
       Spec.is_success_capture Spec.first_fault andb].

(** The block ends with the exception of the first call that raises,
    and normally when none does. *)
Lemma try_block_outcome (w : Annotator.world num) (query : pystr) :
  outcome_of (Annotator.try_block js_add w query)
  = match Spec.first_fault w (Spec.try_sites) with
    | Some e => Raised e
    | None => Normal tt
    end.
Proof.
  unfold Annotator.try_block, Annotator.page_evaluate,
    Annotator.page_screenshot, Annotator.js_code, Annotator.call,
    Spec.try_sites.
  cbv zeta. cbn [Spec.first_fault].
  at_site w Annotator.at_goto; [reflexivity|].
  at_site w Annotator.at_wait_search_box; [reflexivity|].
  at_site w Annotator.at_fill; [reflexivity|].
  at_site w Annotator.at_press; [reflexivity|].
  at_site w Annotator.at_wait_results; [reflexivity|].
  at_site w Annotator.at_settle; [reflexivity|].
  at_site w Annotator.at_evaluate; [reflexivity|].
  at_site w Annotator.at_screenshot; [reflexivity|].
  at_site w Annotator.at_linger; reflexivity.
Qed.

(** When a call before the capture of line 99 raises, the block never
    reaches that capture. *)
Lemma try_block_stops_early (w : Annotator.world num) (query : pystr)
      (e : Annotator.page_exn) :
  Spec.first_fault w Spec.sites_before_capture = Some e ->
  forallb (fun ev => negb (@Spec.is_success_capture num ev))
          (trace_of (Annotator.try_block js_add w query)) = true.
Proof.
  unfold Annotator.try_block, Annotator.page_evaluate,
    Annotator.page_screenshot, Annotator.js_code, Annotator.call,
    Spec.sites_before_capture.
  cbv zeta. cbn [Spec.first_fault].
  at_site w Annotator.at_goto; [reflexivity|].
  at_site w Annotator.at_wait_search_box; [reflexivity|].
  at_site w Annotator.at_fill; [reflexivity|].
  at_site w Annotator.at_press; [reflexivity|].
  at_site w Annotator.at_wait_results; [reflexivity|].
  at_site w Annotator.at_settle; [reflexivity|].
  at_site w Annotator.at_evaluate; [reflexivity|].
  discriminate.
Qed.

(** Whatever the exception, one of the two clauses takes it: it tries
    a viewport capture to the error path and ends as that capture
    does. *)
Lemma handler_runs (w : Annotator.world num) (e : Annotator.page_exn) :
  exists h,
    select_clause [Annotator.on_timeout w; Annotator.on_exception w] e
    = Some h
    /\ In (EvOp (Annotator.screenshot num Spec.error_path false,
                 Annotator.fault w Annotator.at_error_screenshot))
          (trace_of h)
    /\ outcome_of h
       = match Annotator.fault w Annotator.at_error_screenshot with
         | None => Normal tt
         | Some e' => Raised e'
         end
    /\ forallb (fun ev => negb (@Spec.is_success_capture num ev))
               (trace_of h) = true.
Proof.
  destruct e as [msg|msg]; eexists; (split; [reflexivity|]);
    unfold Annotator.page_screenshot, Annotator.call, Spec.error_path;
    destruct (Annotator.fault w Annotator.at_error_screenshot);
    cbn [bind print ret fst snd app trace_of outcome_of];
    (split; [pick | split; reflexivity]).
Qed.

(** When every call before the capture of line 99 returns, the block
    makes that capture: of the full page, to the success path. *)
Lemma try_block_captures (w : Annotator.world num) (query : pystr) :
  Spec.first_fault w Spec.sites_before_capture = None ->
  In (EvOp (Annotator.screenshot num Spec.success_path true,
            Annotator.fault w Annotator.at_screenshot))
     (trace_of (Annotator.try_block js_add w query)).
Proof.
  unfold Annotator.try_block, Annotator.page_evaluate,
    Annotator.page_screenshot, Annotator.js_code, Annotator.call,
    Spec.sites_before_capture, Spec.success_path.
  cbv zeta. cbn [Spec.first_fault].
  at_site w Annotator.at_goto; [discriminate|].
  at_site w Annotator.at_wait_search_box; [discriminate|].
  at_site w Annotator.at_fill; [discriminate|].
  at_site w Annotator.at_press; [discriminate|].
  at_site w Annotator.at_wait_results; [discriminate|].
  at_site w Annotator.at_settle; [discriminate|].
  at_site w Annotator.at_evaluate; [discriminate|].
  intros _.
  destruct (Annotator.fault w Annotator.at_screenshot);
    cbn [bind print ret fst snd app trace_of]; [pick|].
  destruct (Annotator.fault w Annotator.at_linger);
    cbn [bind print ret fst snd app trace_of]; pick.
Qed.

(** C10. On a failure path, that is, whenever the page is open and a
    call of the [try] block raises, the handler makes its diagnostic
    capture to the error path, and that capture is of the viewport
    only. On every run, each screenshot taken is either the capture to
    the success path, the only full-page one, or a viewport capture to
    the error path, and the two paths differ; the full-page capture to
    the success path is made whenever every call before it returns. *)
Theorem diagnostic_capture_is_viewport_only
        (w : Annotator.world num) (query : pystr) (headless : bool) :
  let t := trace_of (Annotator.annotate_image_search js_add w query
                                                     headless) in
  (Spec.session_opened w ->
   forall s e,
     In s Spec.try_sites -> Annotator.fault w s = Some e ->
     In (EvOp (Annotator.screenshot num Spec.error_path false,
               Annotator.fault w Annotator.at_error_screenshot)) t)
  /\ (forall path full_page r,
         In (EvOp (Annotator.screenshot num path full_page, r)) t ->
         (path = Spec.success_path /\ full_page = true)
         \/ (path = Spec.error_path /\ full_page = false))
  /\ Spec.error_path <> Spec.success_path
  /\ (Spec.session_opened w ->
      Spec.first_fault w Spec.sites_before_capture = None ->
      In (EvOp (Annotator.screenshot num Spec.success_path true,
                Annotator.fault w Annotator.at_screenshot)) t).
Proof.
  intros t. subst t. split; [|split; [|split]].
  - intros Hs s e Hin He.
    destruct (first_fault_some w _ _ Hin He) as [e1 He1].
    destruct (handler_runs w e1) as [h [Hsel [Hshot _]]].
    rewrite (annotate_trace query headless Hs).
    apply in_or_app. right. apply in_or_app. left.
    unfold Annotator.handled.
    rewrite trace_try_except, try_block_outcome, He1, Hsel.
    apply in_or_app. right. exact Hshot.
  - intros path full_page r Hin.
    assert (H : forallb (@Spec.capture_mode_ok num)
                  (trace_of (Annotator.annotate_image_search
                               js_add w query headless)) = true).
    { apply all_annotate; [reflexivity|].
      intros c r' Hc. destruct c; try reflexivity.
      destruct Hc as [[-> ->]|[-> ->]]; reflexivity. }
    rewrite forallb_forall in H. specialize (H _ Hin). simpl in H.
    apply orb_prop in H as [H|H]; apply andb_prop in H as [Hp Hf];
      apply pystr_eqb_eq in Hp.
    + left. auto.
    + right. split; [exact Hp|]. now destruct full_page.
  - discriminate.
  - intros Hs Hb.
    rewrite (annotate_trace query headless Hs).
    apply in_or_app. right. apply in_or_app. left.
    unfold Annotator.handled. rewrite trace_try_except.
    apply in_or_app. left. now apply try_block_captures.
Qed.

(** The three waits with a timeout come before the capture. *)
Lemma timeouts_come_first (s : Annotator.site) :
  In s Spec.timeout_sites -> In s Spec.sites_before_capture.
Proof.
  unfold Spec.timeout_sites, Spec.sites_before_capture. simpl. tauto.
Qed.

Lemma no_capture_in (t : Spec.atrace num) :
  forallb (fun ev => negb (@Spec.is_success_capture num ev)) t = true ->
  ~ Spec.attempted Spec.success_path t.
Proof.
  intros H [full_page [r Hin]].
  rewrite forallb_forall in H. specialize (H _ Hin).
  cbn [Spec.is_success_capture] in H. now rewrite pystr_eqb_refl in H.
Qed.

(** C1, as the code has it. Take a run in which the page is open and
    some call inside the [try] block raises, a timeout or any other
    exception. The handler then tries a viewport screenshot to
    'error_screenshot.png', which is written when that call returns,
    and the browser is closed. The fault itself is not passed on: the
    function returns normally and the process exits with status 0
    exactly when the diagnostic capture and the close return; a
    non-zero status comes only from a fault of one of these two. When
    the call that raises comes before the capture of line 99, as the
    three waits with a timeout do, no screenshot to the success path is
    even attempted. *)
Theorem fault_is_handled_inside
        (w : Annotator.world num) (query : pystr) (headless : bool)
        (s : Annotator.site) (e : Annotator.page_exn) :
  Spec.session_opened w ->
  In s Spec.try_sites ->
  Annotator.fault w s = Some e ->
  let r := Annotator.annotate_image_search js_add w query headless in
  In (EvOp (Annotator.screenshot num Spec.error_path false,
            Annotator.fault w Annotator.at_error_screenshot)) (trace_of r)
  /\ (Annotator.fault w Annotator.at_error_screenshot = None ->
      Spec.written Spec.error_path (trace_of r))
  /\ Spec.closed_at_exit (trace_of r)
  /\ (exit_status r = 0%Z <->
      Annotator.fault w Annotator.at_error_screenshot = None
      /\ Annotator.fault w Annotator.at_close = None)
  /\ (outcome_of r = Normal tt <-> exit_status r = 0%Z)
  /\ (In s Spec.sites_before_capture \/ In s Spec.timeout_sites ->
      ~ Spec.attempted Spec.success_path (trace_of r)).
Proof.
  intros Hs Hin He r.
  destruct (first_fault_some w _ _ Hin He) as [e1 He1].
  destruct (handler_runs w e1) as [h [Hsel [Hshot [Hout Hno]]]].
  assert (Hbo : outcome_of (Annotator.try_block js_add w query) = Raised e1)
    by (rewrite try_block_outcome, He1; reflexivity).
  assert (Ht : trace_of (Annotator.handled js_add w query)
               = trace_of (Annotator.try_block js_add w query) ++ trace_of h).
  { unfold Annotator.handled. rewrite trace_try_except, Hbo, Hsel.
    reflexivity. }
  assert (Ho : outcome_of (Annotator.handled js_add w query) = outcome_of h).
  { unfold Annotator.handled. rewrite outcome_try_except, Hbo, Hsel.
    reflexivity. }
  assert (Hshot' :
            In (EvOp (Annotator.screenshot num Spec.error_path false,
                      Annotator.fault w Annotator.at_error_screenshot))
               (trace_of r)).
  { subst r. rewrite (annotate_trace query headless Hs), Ht.
    apply in_or_app. right. apply in_or_app. left.
    apply in_or_app. right. exact Hshot. }
  assert (Hend : outcome_of r
                 = match Annotator.fault w Annotator.at_close,
                         Annotator.fault w Annotator.at_error_screenshot with
                   | None, None => Normal tt
                   | None, Some e' => Raised e'
                   | Some e', _ => Raised e'
                   end).
  { subst r. rewrite (annotate_outcome query headless Hs), Ho, Hout.
    reflexivity. }
  split; [exact Hshot'|].
  split; [intros Hn; exists false; rewrite <- Hn; exact Hshot'|].
  split; [apply (closed_once_opened query headless Hs)|].
  split.
  { unfold exit_status. rewrite Hend.
    destruct (Annotator.fault w Annotator.at_close),
             (Annotator.fault w Annotator.at_error_screenshot);
      split; try (intros [? ?]); try discriminate; auto. }
  split.
  { unfold exit_status. rewrite Hend.
    destruct (Annotator.fault w Annotator.at_close),
             (Annotator.fault w Annotator.at_error_screenshot);
      split; intros H; try discriminate; auto. }
  intros Hb.
  assert (Hb' : In s Spec.sites_before_capture)
    by (destruct Hb as [Hb|Hb]; [exact Hb | now apply timeouts_come_first]).
  destruct (first_fault_some w _ _ Hb' He) as [e2 He2].
  apply no_capture_in. subst r.
  rewrite (annotate_trace query headless Hs), Ht.
  rewrite !forallb_app. rewrite (try_block_stops_early w query He2), Hno.
  destruct (finally_trace w) as [post [Hf [_ [_ Hp]]]]. rewrite Hf.
  cbn [forallb Spec.is_success_capture negb andb]. rewrite Hp.
  reflexivity.
Qed.

End AnnotatorFacts.

(** ** Sample runs of the annotator *)

Lemma labels_of_scrolled_page :
  map (@Annotator.innerText Z) (Annotator.labels_added Z.add Spec.scrolled_page)
  = [u "1"; u "2"; u "3"].
Proof.
  reflexivity.
Qed.

Lemma overlay_at_document_coordinates_witness :
  exists label,
    nth_error (Annotator.labels_added Z.add Spec.scrolled_page) 2 = Some label
    /\ Annotator.top (Annotator.style label) = Annotator.px (200 + 120)%Z
    /\ Annotator.left (Annotator.style label) = Annotator.px (10 + 0)%Z.
Proof.
  destruct (@overlay_at_document_coordinates Z Z.add Z.add_comm
              Spec.scrolled_page 2 (Spec.thumb 200 10) eq_refl)
    as [label [Hk [_ [Ht [Hl _]]]]].
  exists label. repeat split; assumption.
Defined.

Lemma diagnostic_capture_is_viewport_only_witness :
  In (EvOp (Annotator.screenshot Z Spec.error_path false, None))
     (trace_of (Annotator.annotate_image_search
                  Z.add Spec.results_time_out (u "cute cats") true))
  /\ ~ In (EvOp (Annotator.screenshot Z Spec.error_path true, None))
       (trace_of (Annotator.annotate_image_search
                    Z.add Spec.results_time_out (u "cute cats") true)).
Proof.
  destruct (@diagnostic_capture_is_viewport_only
              Z Z.add Spec.results_time_out (u "cute cats") true)
    as [Hmade [Hmode [Hdiff _]]].
  split.
  - apply (Hmade (conj eq_refl (conj eq_refl eq_refl))
                 Annotator.at_wait_results
                 (Annotator.PlaywrightTimeoutError
                    (u "Timeout 15000ms exceeded."))).
    + do 4 right. left. reflexivity.
    + reflexivity.
  - intros Hin. destruct (Hmode _ _ _ Hin) as [[Hp _]|[_ Hf]].
    + now apply Hdiff.
    + discriminate Hf.
Defined.

Lemma browser_closed_on_every_exit_path_witness :
  Spec.stopped_at_exit
    (trace_of (Annotator.annotate_image_search
                 Z.add Spec.results_time_out (u "cute cats") true))
  /\ Spec.closed_at_exit
       (trace_of (Annotator.annotate_image_search
                    Z.add Spec.results_time_out (u "cute cats") true)).
Proof.
  destruct (@browser_closed_on_every_exit_path Z Z.add Spec.results_time_out
              (u "cute cats") true eq_refl eq_refl) as [Hstop Hclose].
  split; [exact Hstop | exact (proj1 (Hclose eq_refl))].
Defined.

(** C1, as the specification words it, fails when the results never
    become visible: the wait of line 41 raises the timeout, the clause
    of lines 104-108 takes it and writes the diagnostic file, and the
    run still ends with status 0; no path of the script re-raises,
    returns a status or calls [sys.exit]. *)
Lemma timeout_run_reports_success :
  ~ Spec.failure_is_propagated
      (Annotator.annotate_image_search Z.add Spec.results_time_out
                                       (u "cute cats") true).
Proof.
  intros H.
  assert (Hf : Spec.page_fault
                 (trace_of (Annotator.annotate_image_search
                              Z.add Spec.results_time_out (u "cute cats")
                              true))).
  { exists (Annotator.wait_for_selector Z (u "div.img_cont") (u "visible")
                                        15000),
           (Annotator.PlaywrightTimeoutError (u "Timeout 15000ms exceeded.")).
    split; [|reflexivity].
    vm_compute. repeat (try (left; reflexivity); right). }
  destruct (H Hf) as [_ [Hstatus _]]. apply Hstatus. reflexivity.
Qed.

Lemma fault_is_handled_inside_witness :
  Spec.written Spec.error_path
    (trace_of (Annotator.annotate_image_search
                 Z.add Spec.results_time_out (u "cute cats") true))
  /\ exit_status (Annotator.annotate_image_search
                    Z.add Spec.results_time_out (u "cute cats") true) = 0%Z
  /\ ~ Spec.attempted Spec.success_path
       (trace_of (Annotator.annotate_image_search
                    Z.add Spec.results_time_out (u "cute cats") true)).
Proof.
  destruct (@fault_is_handled_inside Z Z.add Spec.results_time_out
              (u "cute cats") true Annotator.at_wait_results
              (Annotator.PlaywrightTimeoutError (u "Timeout 15000ms exceeded.")))
    as [_ [Hw [_ [Hx [_ Hn]]]]].
  - repeat split; reflexivity.
  - simpl. tauto.
  - reflexivity.
  - split; [exact (Hw eq_refl)|].
    split; [apply Hx; split; reflexivity|].
    apply Hn. right. simpl. tauto.
Defined.

(** The script started without [--visible] in a world where nothing
    goes wrong launches the browser with [headless=False]. *)
Lemma default_run_opens_visible_browser :
  Annotator.args_headless (Annotator.parse_args (u "cute cats") false) = true
  /\ filter (fun ev => negb (@Spec.launched_with Z true ev))
            (trace_of (Annotator.script Z.add Spec.calm
                         (Annotator.parse_args (u "cute cats") false)))
     = [EvOp (Annotator.chromium_launch Z false, None)].
Proof.
  split; reflexivity.
Qed.

(* ================================================================== *)
(** * The orchestrator's runs *)
(* ================================================================== *)

Lemma print_inj {Op} (f : stream) (a b : pystr) :
  @EvPrint Op f a = EvPrint f b -> a = b.
Proof.
  congruence.
Qed.

Section OrchestratorFacts.

Variable w : Orchestrator.world.

Ltac reduce :=
  cbn [bind print eprint ret sys_exit fst snd app trace_of outcome_of
       try_except select_clause andb negb
       Orchestrator.check Orchestrator.annotator_call
       Orchestrator.selector_call Orchestrator.cp_stdout].

(** The report line differs from every other line the orchestrator
    prints: at its fourth character. *)
Ltac fourth H :=
  apply (f_equal (fun s : pystr => nth 3 s 0%N)) in H;
  vm_compute in H; discriminate H.

Lemma run_image_search_outcome (query : pystr) :
  outcome_of (Orchestrator.run_image_search w query)
  = match Orchestrator.spawn w (Orchestrator.annotator_call w query) with
    | Orchestrator.Exited rc _ _ => Normal (rc =? 0)%Z
    | Orchestrator.NotFound _ => Normal false
    | Orchestrator.Failed msg => Raised (Orchestrator.OtherException msg)
    end.
Proof.
  unfold Orchestrator.run_image_search, Orchestrator.subprocess_run.
  destruct (Orchestrator.spawn w (Orchestrator.annotator_call w query))
    as [rc o e|m|m]; reduce; try reflexivity.
  destruct (rc =? 0)%Z; reflexivity.
Qed.

Lemma run_image_search_trace (query : pystr) :
  Spec.selector_calls (trace_of (Orchestrator.run_image_search w query)) = 0
  /\ forall label,
      ~ Spec.reports (trace_of (Orchestrator.run_image_search w query)) label.
Proof.
  unfold Orchestrator.run_image_search, Orchestrator.subprocess_run,
    Spec.reports.
  destruct (Orchestrator.spawn w (Orchestrator.annotator_call w query))
    as [rc o e|m|m]; reduce; [destruct (rc =? 0)%Z; reduce| |];
    (split; [reflexivity|]); intros label H; simpl in H;
    repeat (destruct H as [H|H]; [try discriminate H; apply print_inj in H;
                                  fourth H|]); contradiction.
Qed.

Lemma run_vlm_selector_outcome (prompt : pystr) :
  outcome_of (Orchestrator.run_vlm_selector w prompt)
  = match Orchestrator.spawn w (Orchestrator.selector_call w prompt) with
    | Orchestrator.Exited rc out _ =>
      Normal (if (rc =? 0)%Z then Some (strip out) else None)
    | Orchestrator.NotFound _ => Normal None
    | Orchestrator.Failed msg => Raised (Orchestrator.OtherException msg)
    end.
Proof.
  unfold Orchestrator.run_vlm_selector, Orchestrator.subprocess_run.
  destruct (Orchestrator.spawn w (Orchestrator.selector_call w prompt))
    as [rc o e|m|m]; reduce; try reflexivity.
  destruct (rc =? 0)%Z; reflexivity.
Qed.

Lemma run_vlm_selector_trace (prompt : pystr) (label : pystr) :
  ~ Spec.reports (trace_of (Orchestrator.run_vlm_selector w prompt)) label.
Proof.
  unfold Orchestrator.run_vlm_selector, Orchestrator.subprocess_run,
    Spec.reports.
  destruct (Orchestrator.spawn w (Orchestrator.selector_call w prompt))
    as [rc o e|m|m]; reduce; [destruct (rc =? 0)%Z; reduce| |];
    intros H; simpl in H;
    repeat (destruct H as [H|H]; [try discriminate H; apply print_inj in H;
                                  fourth H|]); contradiction.
Qed.

Lemma truthy_nonempty (s : pystr) : truthy s = true <-> s <> [].
Proof.
  destruct s; simpl; split; intros H; try discriminate; auto.
Qed.

(** How [main] ends, by how the two stages end. *)
Lemma main_outcome (args : Orchestrator.Namespace) :
  outcome_of (Orchestrator.main w args)
  = match outcome_of (Orchestrator.run_image_search
                        w (Orchestrator.args_query args)) with
    | Normal true =>
      match outcome_of (Orchestrator.run_vlm_selector
                          w (Orchestrator.args_prompt args)) with
      | Normal selected =>
        if truthy_opt selected then Normal tt else SysExit 1
      | Raised e => Raised e
      | SysExit c => SysExit c
      end
    | Normal false => SysExit 1
    | Raised e => Raised e
    | SysExit c => SysExit c
    end.
Proof.
  unfold Orchestrator.main. rewrite outcome_bind.
  destruct (outcome_of (Orchestrator.run_image_search
                          w (Orchestrator.args_query args)))
    as [[|]|e|c]; try reflexivity.
  cbn [negb]. rewrite outcome_bind.
  destruct (outcome_of (Orchestrator.run_vlm_selector
                          w (Orchestrator.args_prompt args)))
    as [sel|e|c]; try reflexivity.
  destruct (truthy_opt sel); reflexivity.
Qed.

(** What [main] does, by how the two stages end. *)
Lemma main_trace (args : Orchestrator.Namespace) :
  trace_of (Orchestrator.main w args)
  = trace_of (Orchestrator.run_image_search w (Orchestrator.args_query args))
    ++ match outcome_of (Orchestrator.run_image_search
                           w (Orchestrator.args_query args)) with
       | Normal true =>
         trace_of (Orchestrator.run_vlm_selector
                     w (Orchestrator.args_prompt args))
         ++ match outcome_of (Orchestrator.run_vlm_selector
                                w (Orchestrator.args_prompt args)) with
            | Normal selected =>
              if truthy_opt selected then
                [EvPrint Stdout ([10%N] ++ Orchestrator.rule);
                 EvPrint Stdout
                         (Orchestrator.report (Orchestrator.format selected));
                 EvPrint Stdout Orchestrator.rule]
              else [EvPrint Stderr ([10%N] ++ u "无法从VLM选择器获取结果。")]
            | _ => []
            end
       | _ => []
       end.
Proof.
  unfold Orchestrator.main. rewrite trace_bind. f_equal.
  destruct (outcome_of (Orchestrator.run_image_search
                          w (Orchestrator.args_query args)))
    as [[|]|e|c]; try reflexivity.
  cbn [negb]. rewrite trace_bind. f_equal.
  destruct (outcome_of (Orchestrator.run_vlm_selector
                          w (Orchestrator.args_prompt args)))
    as [sel|e|c]; try reflexivity.
  destruct (truthy_opt sel); reflexivity.
Qed.

Lemma report_inj (a b : pystr) :
  Orchestrator.report a = Orchestrator.report b -> a = b.
Proof.
  unfold Orchestrator.report. apply app_inv_head.
Qed.

(** [main] ends normally exactly when both children exit with status 0
    and the selector printed something other than whitespace. *)
Lemma main_succeeds_iff (args : Orchestrator.Namespace) :
  outcome_of (Orchestrator.main w args) = Normal tt
  <-> exists label, Spec.stages_yield w args label.
Proof.
  rewrite main_outcome, run_image_search_outcome, run_vlm_selector_outcome.
  unfold Spec.stages_yield.
  destruct (Orchestrator.spawn w (Orchestrator.annotator_call
                                    w (Orchestrator.args_query args)))
    as [rc1 o1 e1|m1|m1].
  2, 3: split; [discriminate | intros [l [? [? [? [? [H _]]]]]]; discriminate H].
  destruct (rc1 =? 0)%Z eqn:Hz1.
  2: { split; [discriminate|].
       intros [l [? [? [? [? [H _]]]]]]. injection H as -> _ _.
       discriminate Hz1. }
  apply Z.eqb_eq in Hz1. subst rc1.
  destruct (Orchestrator.spawn w (Orchestrator.selector_call
                                    w (Orchestrator.args_prompt args)))
    as [rc2 o2 e2|m2|m2].
  2, 3: split; [discriminate
               | intros [l [? [? [? [? [_ [H _]]]]]]]; discriminate H].
  destruct (rc2 =? 0)%Z eqn:Hz2.
  2: { split; [discriminate|].
       intros [l [? [? [? [? [_ [H _]]]]]]]. injection H as -> _ _.
       discriminate Hz2. }
  apply Z.eqb_eq in Hz2. subst rc2. cbn [truthy_opt].
  destruct (truthy (strip o2)) eqn:Ht; split.
  - intros _. exists (strip o2), o1, e1, o2, e2.
    repeat split. now apply truthy_nonempty.
  - reflexivity.
  - discriminate.
  - intros [l [? [? [? [? [_ [H [-> Hne]]]]]]]]. injection H as <- _.
    apply truthy_nonempty in Hne. congruence.
Qed.

(** On that path the label is the selector's output, trimmed, and is
    what [main] reports; on no other path does [main] report a label. *)
Lemma main_reports_iff (args : Orchestrator.Namespace) (label : pystr) :
  Spec.reports (trace_of (Orchestrator.main w args)) label
  <-> Spec.stages_yield w args label.
Proof.
  unfold Spec.reports. rewrite main_trace.
  pose proof (run_image_search_trace (Orchestrator.args_query args))
    as [_ Hno1].
  pose proof (run_vlm_selector_trace (Orchestrator.args_prompt args) label)
    as Hno2.
  unfold Spec.reports in Hno1, Hno2.
  rewrite run_image_search_outcome, run_vlm_selector_outcome.
  unfold Spec.stages_yield.
  assert (Hparts : forall tail,
             In (EvPrint Stdout (Orchestrator.report label))
                (trace_of (Orchestrator.run_image_search
                             w (Orchestrator.args_query args))
                 ++ trace_of (Orchestrator.run_vlm_selector
                                w (Orchestrator.args_prompt args))
                 ++ tail) ->
             In (EvPrint Stdout (Orchestrator.report label)) tail).
  { intros tail H. apply in_app_or in H as [H|H]; [now apply Hno1 in H|].
    apply in_app_or in H as [H|H]; [now apply Hno2 in H | exact H]. }
  destruct (Orchestrator.spawn w (Orchestrator.annotator_call
                                    w (Orchestrator.args_query args)))
    as [rc1 o1 e1|m1|m1].
  2, 3: rewrite app_nil_r; split;
    [intros H; now apply Hno1 in H
    | intros [? [? [? [? [H _]]]]]; discriminate H].
  destruct (rc1 =? 0)%Z eqn:Hz1.
  2: { rewrite app_nil_r. split; [intros H; now apply Hno1 in H|].
       intros [? [? [? [? [H _]]]]]. injection H as -> _ _.
       discriminate Hz1. }
  apply Z.eqb_eq in Hz1. subst rc1.
  destruct (Orchestrator.spawn w (Orchestrator.selector_call
                                    w (Orchestrator.args_prompt args)))
    as [rc2 o2 e2|m2|m2].
  2, 3: split;
    [intros H; apply Hparts in H; simpl in H;
     repeat (destruct H as [H|H]; [discriminate H|]); contradiction
    | intros [? [? [? [? [_ [H _]]]]]]; discriminate H].
  destruct (rc2 =? 0)%Z eqn:Hz2.
  2: { split.
       - intros H. apply Hparts in H. destruct H as [H|[]]. discriminate H.
       - intros [? [? [? [? [_ [H _]]]]]]. injection H as -> _ _.
         discriminate Hz2. }
  apply Z.eqb_eq in Hz2. subst rc2. cbn [truthy_opt Orchestrator.format].
  destruct (truthy (strip o2)) eqn:Ht; split.
  - intros H. apply Hparts in H.
    destruct H as [H|[H|[H|[]]]]; apply print_inj in H; try fourth H.
    apply report_inj in H. subst label.
    exists o1, e1, o2, e2. repeat split. now apply truthy_nonempty.
  - intros [? [? [? [? [_ [H [-> _]]]]]]]. injection H as <- _.
    apply in_or_app. right. apply in_or_app. right. pick.
  - intros H. apply Hparts in H. destruct H as [H|[]]. discriminate H.
  - intros [? [? [? [? [_ [H [-> Hne]]]]]]]. injection H as <- _.
    apply truthy_nonempty in Hne. congruence.
Qed.

Lemma main_exit_status (args : Orchestrator.Namespace) :
  outcome_of (Orchestrator.main w args) <> Normal tt ->
  exit_status (Orchestrator.main w args) = 1%Z.
Proof.
  unfold exit_status.
  rewrite main_outcome, run_image_search_outcome, run_vlm_selector_outcome.
  destruct (Orchestrator.spawn w (Orchestrator.annotator_call
                                    w (Orchestrator.args_query args)))
    as [rc1 o1 e1|m1|m1]; try reflexivity.
  destruct (rc1 =? 0)%Z; try reflexivity.
  destruct (Orchestrator.spawn w (Orchestrator.selector_call
                                    w (Orchestrator.args_prompt args)))
    as [rc2 o2 e2|m2|m2]; try reflexivity.
  destruct (truthy_opt (if (rc2 =? 0)%Z then Some (strip o2) else None));
    [intros H; now contradiction H | reflexivity].
Qed.

(** C2. Whenever the annotator stage fails (its child exits with a
    non-zero status, or cannot be started or waited for), the stage
    does not report success, the orchestrator never starts the
    selection client (call count 0), and the pipeline exits with
    status 1. *)
Theorem selector_not_called_after_failed_annotation
        (args : Orchestrator.Namespace) :
  Spec.annotation_failed w args ->
  outcome_of (Orchestrator.run_image_search w (Orchestrator.args_query args))
  <> Normal true
  /\ Spec.selector_calls (trace_of (Orchestrator.main w args)) = 0
  /\ exit_status (Orchestrator.main w args) = 1%Z.
Proof.
  intros Hfail. unfold Spec.annotation_failed in Hfail.
  unfold exit_status. rewrite main_outcome, main_trace.
  pose proof (run_image_search_trace (Orchestrator.args_query args))
    as [Hcalls _].
  rewrite run_image_search_outcome.
  destruct (Orchestrator.spawn w (Orchestrator.annotator_call
                                    w (Orchestrator.args_query args)))
    as [rc o e|m|m].
  - destruct (rc =? 0)%Z eqn:Hz.
    + apply Z.eqb_eq in Hz. subst rc. now contradiction (Hfail o e).
    + rewrite app_nil_r. repeat split; [discriminate | exact Hcalls].
  - rewrite app_nil_r. repeat split; [discriminate | exact Hcalls].
  - rewrite app_nil_r. repeat split; [discriminate | exact Hcalls].
Qed.


End OrchestratorFacts.

Lemma selector_not_called_after_failed_annotation_witness :
  Spec.selector_calls (trace_of (Orchestrator.main Spec.annotation_fails
                                                   Spec.cats)) = 0
  /\ exit_status (Orchestrator.main Spec.annotation_fails Spec.cats) = 1%Z.
Proof.
  apply (@selector_not_called_after_failed_annotation
           Spec.annotation_fails Spec.cats).
  intros o e. discriminate.
Defined.


(* ================================================================== *)
(** * The selection client, alone and under the orchestrator *)
(* ================================================================== *)

Lemma printed_app {Op} (f : stream) (t1 t2 : list (event Op)) :
  printed f (t1 ++ t2) = printed f t1 ++ printed f t2.
Proof.
  induction t1 as [|[[|] s|c] t1 IH]; destruct f; simpl;
    rewrite ?IH, <- ?app_assoc; reflexivity.
Qed.

Section SelectorFacts.

Variable sw : Selector.world.

(** With a connection parameter missing or empty, the client returns
    the configuration-error string at once and does nothing else. *)
Lemma unconfigured_call (image_path text_prompt : pystr) :
  Spec.configured sw = false ->
  Selector.call_vlm_api sw image_path text_prompt
  = ([], Normal Selector.CONFIG_ERROR).
Proof.
  unfold Spec.configured, Selector.call_vlm_api. intros ->. reflexivity.
Qed.

(** When the model answers [t], the client makes its three calls,
    prints nothing and returns [t] trimmed. *)
Lemma answered_call (image_path text_prompt t : pystr) :
  Spec.answers sw image_path text_prompt t ->
  outcome_of (Selector.call_vlm_api sw image_path text_prompt)
  = Normal (strip t)
  /\ printed Stdout (trace_of (Selector.call_vlm_api sw image_path text_prompt))
     = []
  /\ printed Stderr (trace_of (Selector.call_vlm_api sw image_path text_prompt))
     = [].
Proof.
  intros [k [b [m [data [rest [Hk [Hb [Hm [Tk [Tb [Tm [Hc [Hr Ha]]]]]]]]]]]]].
  unfold Selector.call_vlm_api.
  rewrite Hk, Hb, Hm.
  cbn [Selector.all forallb truthy_opt]. rewrite Tk, Tb, Tm.
  cbn [andb negb].
  unfold Selector.make_client, Selector.encode_image_to_base64,
    Selector.read_image, Selector.create, Selector.perform.
  rewrite Hc, Hr.
  cbn [bind ret raise fst snd app try_except select_clause].
  rewrite Ha.
  cbn [bind ret raise fst snd app try_except select_clause
       Selector.first_content_stripped Selector.message_content
       trace_of outcome_of printed].
  repeat split.
Qed.

(** The script, started with a path and a prompt, prints what the
    client returns, on one line, and exits with status 0. *)
Lemma main_prints_result (script image_path text_prompt label : pystr) :
  outcome_of (Selector.call_vlm_api sw image_path text_prompt) = Normal label ->
  printed Stdout (trace_of (Selector.call_vlm_api sw image_path text_prompt))
  = [] ->
  printed Stderr (trace_of (Selector.call_vlm_api sw image_path text_prompt))
  = [] ->
  let m := Selector.main sw [script; image_path; text_prompt] in
  exit_status m = 0%Z
  /\ printed Stdout (trace_of m) = label ++ [10%N]
  /\ printed Stderr (trace_of m) = [].
Proof.
  intros Ho Hp He m. subst m. unfold Selector.main, exit_status.
  rewrite outcome_bind, trace_bind, Ho, !printed_app, Hp, He.
  repeat split.
Qed.

End SelectorFacts.

(** ** Text through the pipe *)

Section PipeFacts.

Lemma ascii_app (a b : pystr) :
  Spec.ascii (a ++ b) = Spec.ascii a && Spec.ascii b.
Proof.
  apply forallb_app.
Qed.

Lemma to_linesep_ascii (nl : Pipeline.newline) (s : pystr) :
  Spec.ascii s = true -> Spec.ascii (Pipeline.to_linesep nl s) = true.
Proof.
  destruct nl; [auto|]. simpl.
  induction s as [|c s IH]; simpl; [reflexivity|].
  intros H. apply andb_prop in H as [Hc Hs].
  rewrite ascii_app, (IH Hs), andb_true_r.
  destruct (c =? 10)%N; simpl; [reflexivity | now rewrite Hc].
Qed.

(** Read back, text without a carriage return is what was written,
    whichever line separator the writer uses. *)
Lemma universal_to_linesep (nl : Pipeline.newline) (s : pystr) :
  Spec.no_cr s = true ->
  Pipeline.universal_newlines (Pipeline.to_linesep nl s) = s.
Proof.
  induction s as [|c s IH]; [destruct nl; reflexivity|].
  intros H. simpl in H. apply andb_prop in H as [Hc Hs].
  apply negb_true_iff in Hc. specialize (IH Hs).
  destruct nl; simpl in *.
  - now rewrite Hc, IH.
  - destruct (c =? 10)%N eqn:E; simpl.
    + apply N.eqb_eq in E. subst c. now rewrite IH.
    + now rewrite Hc, IH.
Qed.

Lemma utf8_ascii : Spec.ascii_transparent Pipeline.utf8.
Proof.
  intros s. induction s as [|c s IH]; [split; reflexivity|].
  intros H. simpl in H. apply andb_prop in H as [Hc Hs].
  destruct (IH Hs) as [He Hd]. split.
  - simpl in *. unfold Pipeline.utf8_encode_char. now rewrite Hc, He.
  - simpl in *. now rewrite Hc, Hd.
Qed.

Lemma gbk_ascii : Spec.ascii_transparent Pipeline.gbk.
Proof.
  intros s. induction s as [|c s IH]; [split; reflexivity|].
  intros H. simpl in H. apply andb_prop in H as [Hc Hs].
  destruct (IH Hs) as [He Hd]. split.
  - simpl in *. unfold Pipeline.gbk_encode_char. now rewrite Hc, He.
  - simpl in *. now rewrite Hc, Hd.
Qed.

Lemma sample_platforms_ascii :
  Spec.ascii_platform Spec.windows_gbk /\ Spec.ascii_platform Spec.posix_utf8.
Proof.
  split; (split; [first [exact gbk_ascii | exact utf8_ascii]|]);
    exists Pipeline.gbk; (split; [reflexivity | exact gbk_ascii]).
Qed.

Lemma ascii_decode_bytes (cd : Pipeline.codec) (s : pystr) :
  Spec.ascii_transparent cd -> Spec.ascii s = true ->
  Pipeline.decode_bytes cd s = Some s.
Proof.
  intros Hcd Ha. destruct s as [|x r]; [reflexivity|].
  exact (proj2 (Hcd _ Ha)).
Qed.

(** On a platform whose codecs extend ASCII, the orchestrator reads
    ASCII text without a carriage return as the child printed it. *)
Lemma ascii_heard (pf : Pipeline.platform) (c : Orchestrator.subprocess_call)
      (s : pystr) :
  Spec.ascii_platform pf ->
  Orchestrator.encoding c = Some (u "gbk") ->
  Spec.ascii s = true -> Spec.no_cr s = true ->
  Spec.heard pf c s = Some s.
Proof.
  intros [Hio [cd [Hl Hcd]]] Hc Ha Hn.
  unfold Spec.heard, Pipeline.read_captured.
  pose proof (to_linesep_ascii (Pipeline.linesep pf) s Ha) as Ha'.
  rewrite (proj1 (Hio _ Ha')), Hc, Hl.
  rewrite (@ascii_decode_bytes cd _ Hcd Ha'). simpl.
  now rewrite universal_to_linesep.
Qed.

End PipeFacts.

Section PipelineFacts.

Variable pf : Pipeline.platform.
Variable sw : Selector.world.
Variable exe : pystr.

Lemma stderr_bytes_nil : Pipeline.stderr_bytes pf [] = [].
Proof.
  unfold Pipeline.stderr_bytes. destruct (Pipeline.linesep pf); reflexivity.
Qed.

(** The selection script as the orchestrator's child, when the client
    returns [label] and prints nothing: the child writes one line, or
    stops at its [print] with status 1 when the line cannot be
    encoded. *)
Lemma child_of_result (annotator : Orchestrator.spawn_outcome)
      (prompt label : pystr) :
  let w := Pipeline.children pf exe annotator sw in
  let c := Orchestrator.selector_call w prompt in
  outcome_of (Selector.call_vlm_api sw (u "labeled_screenshot.png") prompt)
  = Normal label ->
  printed Stdout (trace_of (Selector.call_vlm_api
                              sw (u "labeled_screenshot.png") prompt)) = [] ->
  printed Stderr (trace_of (Selector.call_vlm_api
                              sw (u "labeled_screenshot.png") prompt)) = [] ->
  Orchestrator.spawn w c
  = match Pipeline.encode_strict
            (Pipeline.stdio pf)
            (Pipeline.to_linesep (Pipeline.linesep pf) (label ++ [10%N])) with
    | Some out => Pipeline.deliver pf c 0 out []
    | None => Pipeline.deliver pf c 1 []
                               (Pipeline.stderr_bytes pf (Pipeline.uncaught pf))
    end.
Proof.
  intros w c Ho Hp He.
  destruct (main_prints_result sw (u "vlm_selector.py") _ _ Ho Hp He)
    as [Hx [Hout Herr]].
  change (Orchestrator.spawn w c) with (Pipeline.selector_child pf sw c).
  unfold Pipeline.selector_child.
  change (tl (Orchestrator.argv c))
    with [u "vlm_selector.py"; u "labeled_screenshot.png"; prompt].
  rewrite Hx, Hout, Herr, stderr_bytes_nil. reflexivity.
Qed.

Lemma deliver_status (c : Orchestrator.subprocess_call) (status : Z)
      (out err : list N) (o e : pystr) :
  Pipeline.deliver pf c status out err = Orchestrator.Exited 0 o e ->
  status = 0%Z /\ Pipeline.read_captured pf c out = Some o.
Proof.
  unfold Pipeline.deliver.
  destruct (Pipeline.read_captured pf c out) as [o'|]; [|discriminate].
  destruct (Pipeline.read_captured pf c err) as [e'|]; [|discriminate].
  intros H. injection H as -> -> _. split; reflexivity.
Qed.

Lemma read_nothing (c : Orchestrator.subprocess_call) (bs : list N)
      (s : pystr) :
  Pipeline.read_captured pf c bs = Some s ->
  Pipeline.read_captured pf c [] = Some [].
Proof.
  unfold Pipeline.read_captured.
  destruct (Orchestrator.encoding c) as [name|].
  - destruct (Pipeline.lookup pf name); [reflexivity | discriminate].
  - destruct (Orchestrator.text c); reflexivity.
Qed.

(** What the orchestrator hears of the client's line decides the
    child's outcome: the child has exited with status 0 exactly when
    the line went through the pipe, and then the captured output is
    what was heard. *)
Lemma child_exited_iff (annotator : Orchestrator.spawn_outcome)
      (prompt label : pystr) (o : pystr) :
  let w := Pipeline.children pf exe annotator sw in
  let c := Orchestrator.selector_call w prompt in
  outcome_of (Selector.call_vlm_api sw (u "labeled_screenshot.png") prompt)
  = Normal label ->
  printed Stdout (trace_of (Selector.call_vlm_api
                              sw (u "labeled_screenshot.png") prompt)) = [] ->
  printed Stderr (trace_of (Selector.call_vlm_api
                              sw (u "labeled_screenshot.png") prompt)) = [] ->
  (exists e, Orchestrator.spawn w c = Orchestrator.Exited 0 o e)
  <-> Spec.heard pf c (label ++ [10%N]) = Some o.
Proof.
  intros w c Ho Hp He.
  pose proof (child_of_result annotator prompt Ho Hp He) as Hs.
  cbv zeta in Hs. subst w c. rewrite Hs. clear Hs.
  unfold Spec.heard.
  destruct (Pipeline.encode_strict _ _) as [out|].
  - split.
    + intros [e H]. now apply deliver_status in H.
    + intros H. exists []. unfold Pipeline.deliver.
      now rewrite H, (read_nothing _ _ H).
  - split; [|discriminate].
    intros [e H]. apply deliver_status in H as [H _]. discriminate H.
Qed.

(** When the annotator's child has exited with status 0 and the
    orchestrator hears [s] of the client's line, the two stages yield
    [s] trimmed, if that is not empty. *)
Lemma heard_is_yielded (o1 e1 : pystr) (args : Orchestrator.Namespace)
      (label s : pystr) :
  let w := Pipeline.children pf exe (Orchestrator.Exited 0 o1 e1) sw in
  outcome_of (Selector.call_vlm_api sw (u "labeled_screenshot.png")
                                    (Orchestrator.args_prompt args))
  = Normal label ->
  printed Stdout (trace_of (Selector.call_vlm_api
                              sw (u "labeled_screenshot.png")
                              (Orchestrator.args_prompt args))) = [] ->
  printed Stderr (trace_of (Selector.call_vlm_api
                              sw (u "labeled_screenshot.png")
                              (Orchestrator.args_prompt args))) = [] ->
  Spec.heard pf (Orchestrator.selector_call w (Orchestrator.args_prompt args))
             (label ++ [10%N]) = Some s ->
  strip s <> [] ->
  Spec.stages_yield w args (strip s).
Proof.
  intros w Ho Hp He Hh Hne.
  apply (child_exited_iff (Orchestrator.Exited 0 o1 e1) _ s Ho Hp He)
    in Hh as [e Hh].
  exists o1, e1, s, e. repeat split; assumption.
Qed.


Lemma yielded_is_reported (w : Orchestrator.world)
      (args : Orchestrator.Namespace) (label : pystr) :
  Spec.stages_yield w args label ->
  Spec.reports (trace_of (Orchestrator.main w args)) label
  /\ outcome_of (Orchestrator.main w args) = Normal tt
  /\ exit_status (Orchestrator.main w args) = 0%Z.
Proof.
  intros H. split; [now apply main_reports_iff|].
  assert (Hn : outcome_of (Orchestrator.main w args) = Normal tt)
    by (apply main_succeeds_iff; eauto).
  split; [exact Hn|]. unfold exit_status. now rewrite Hn.
Qed.

Lemma nothing_yielded_fails (w : Orchestrator.world)
      (args : Orchestrator.Namespace) :
  (forall l, ~ Spec.stages_yield w args l) ->
  exit_status (Orchestrator.main w args) = 1%Z
  /\ forall l, ~ Spec.reports (trace_of (Orchestrator.main w args)) l.
Proof.
  intros H. split.
  - apply main_exit_status. intros Hn.
    apply main_succeeds_iff in Hn as [l Hl]. exact (H l Hl).
  - intros l Hr. apply main_reports_iff in Hr. exact (H l Hr).
Qed.

(** A client that answers ASCII text without a carriage return, under
    an orchestrator on a platform whose codecs extend ASCII: the text
    is the label the pipeline reports. *)
Lemma ascii_result_is_reported (args : Orchestrator.Namespace)
      (label : pystr) :
  outcome_of (Selector.call_vlm_api sw (u "labeled_screenshot.png")
                                    (Orchestrator.args_prompt args))
  = Normal label ->
  printed Stdout (trace_of (Selector.call_vlm_api
                              sw (u "labeled_screenshot.png")
                              (Orchestrator.args_prompt args))) = [] ->
  printed Stderr (trace_of (Selector.call_vlm_api
                              sw (u "labeled_screenshot.png")
                              (Orchestrator.args_prompt args))) = [] ->
  Spec.ascii_platform pf ->
  Spec.trimmed label -> label <> [] ->
  Spec.ascii label = true -> Spec.no_cr label = true ->
  Spec.pipeline_reports pf exe sw args label.
Proof.
  intros Ho Hp He Hpf Ht Hne Ha Hn o1 e1.
  assert (Hh : Spec.heard
                 pf
                 (Orchestrator.selector_call
                    (Pipeline.children pf exe (Orchestrator.Exited 0 o1 e1) sw)
                    (Orchestrator.args_prompt args))
                 (label ++ [10%N]) = Some (label ++ [10%N])).
  { apply ascii_heard; [exact Hpf | reflexivity | |].
    - rewrite ascii_app, Ha. reflexivity.
    - unfold Spec.no_cr in *. rewrite forallb_app, Hn. reflexivity. }
  pose proof (heard_is_yielded o1 e1 args Ho Hp He Hh) as Hy.
  rewrite (strip_line Ht) in Hy.
  destruct (yielded_is_reported (Hy Hne)) as [Hr [_ Hx]].
  split; assumption.
Qed.


(** C7. Whatever text the model answers, the client returns that text
    with the whitespace at its two ends removed and nothing else
    changed, digits or not. Under the orchestrator, after a successful
    annotation, the pipeline reports what the orchestrator reads of the
    printed line, trimmed, whenever that is not empty, and ends with
    status 0; on a platform whose codecs extend ASCII, an answer whose
    trimmed text is ASCII without a carriage return, and not empty, is
    read as printed, so the trimmed answer is the reported label. So
    the answer " 3 " comes out of the pipeline as "3", and
    "I think it's number 3." comes out as it is. *)
Theorem response_is_trimmed_and_passed_through
        (args : Orchestrator.Namespace) (image_path text_prompt t : pystr) :
  Spec.answers sw image_path text_prompt t ->
  outcome_of (Selector.call_vlm_api sw image_path text_prompt)
  = Normal (strip t)
  /\ Spec.trimmed_from t (strip t)
  /\ (forall o1 e1 s,
         image_path = u "labeled_screenshot.png" ->
         text_prompt = Orchestrator.args_prompt args ->
         Spec.heard_label pf exe sw (Orchestrator.Exited 0 o1 e1) args (strip t)
         = Some s ->
         strip s <> [] ->
         Spec.reports
           (trace_of (Orchestrator.main
                        (Pipeline.children pf exe (Orchestrator.Exited 0 o1 e1)
                                           sw)
                        args))
           (strip s)
         /\ exit_status (Orchestrator.main
                           (Pipeline.children pf exe
                                              (Orchestrator.Exited 0 o1 e1) sw)
                           args) = 0%Z)
  /\ (image_path = u "labeled_screenshot.png" ->
      text_prompt = Orchestrator.args_prompt args ->
      Spec.ascii_platform pf ->
      Spec.ascii (strip t) = true -> Spec.no_cr (strip t) = true ->
      strip t <> [] ->
      Spec.pipeline_reports pf exe sw args (strip t))
  /\ (t = u " 3 " ->
      strip t = u "3"
      /\ (image_path = u "labeled_screenshot.png" ->
          text_prompt = Orchestrator.args_prompt args ->
          Spec.ascii_platform pf ->
          Spec.pipeline_reports pf exe sw args (u "3")))
  /\ (t = u "I think it's number 3." ->
      strip t = t
      /\ (image_path = u "labeled_screenshot.png" ->
          text_prompt = Orchestrator.args_prompt args ->
          Spec.ascii_platform pf ->
          Spec.pipeline_reports pf exe sw args t)).
Proof.
  intros Ha. destruct (answered_call Ha) as [Ho [Hp He]].
  assert (Hascii : image_path = u "labeled_screenshot.png" ->
                   text_prompt = Orchestrator.args_prompt args ->
                   Spec.ascii_platform pf ->
                   Spec.ascii (strip t) = true -> Spec.no_cr (strip t) = true ->
                   strip t <> [] ->
                   Spec.pipeline_reports pf exe sw args (strip t)).
  { intros Hi Hq Hpf Hasc Hcr Hne. subst image_path text_prompt.
    now apply ascii_result_is_reported; try apply strip_trimmed. }
  split; [exact Ho|]. split; [apply strip_trimmed_from|]. split; [|split].
  - intros o1 e1 s Hi Hq Hh Hne. subst image_path text_prompt.
    destruct (yielded_is_reported
                (heard_is_yielded o1 e1 args Ho Hp He Hh Hne))
      as [Hr [_ Hx]].
    split; assumption.
  - exact Hascii.
  - split; intros Ht.
    + assert (Hs : strip t = u "3") by (subst t; reflexivity).
      split; [exact Hs|]. intros Hi Hq Hpf. rewrite <- Hs.
      apply Hascii; try assumption; rewrite Hs;
        [reflexivity | reflexivity | discriminate].
    + assert (Hs : strip t = t) by (subst t; reflexivity).
      split; [exact Hs|]. intros Hi Hq Hpf. rewrite <- Hs.
      apply Hascii; try assumption; rewrite Hs; subst t;
        [reflexivity | reflexivity | discriminate].
Qed.


End PipelineFacts.

(** On the two sample platforms: a Windows machine with the Chinese
    locale reads the configuration-error line as it was printed; on a
    POSIX machine with a UTF-8 locale the child writes UTF-8, which
    the orchestrator cannot read as GBK. *)
Lemma config_error_heard_on_samples :
  Spec.heard_label Spec.windows_gbk (u "python") Spec.unconfigured
                   (Orchestrator.Exited 0 [] []) Spec.cats
                   Selector.CONFIG_ERROR
  = Some (Selector.CONFIG_ERROR ++ [10%N])
  /\ Spec.heard_label Spec.posix_utf8 (u "python") Spec.unconfigured
                      (Orchestrator.Exited 0 [] []) Spec.cats
                      Selector.CONFIG_ERROR
     = None.
Proof.
  split; vm_compute; reflexivity.
Qed.

(** An answer outside ASCII is read as printed on the Windows machine
    and cannot be read on the POSIX machine; a carriage return inside
    an answer is read as a line feed. *)
Lemma answers_heard_on_samples :
  Spec.heard_label Spec.windows_gbk (u "python") (Spec.answering (u "第3张"))
                   (Orchestrator.Exited 0 [] []) Spec.cats (u "第3张")
  = Some (u "第3张" ++ [10%N])
  /\ Spec.heard_label Spec.posix_utf8 (u "python") (Spec.answering (u "第3张"))
                      (Orchestrator.Exited 0 [] []) Spec.cats (u "第3张")
     = None
  /\ Spec.heard_label Spec.posix_utf8 (u "python")
                      (Spec.answering [49; 13; 50]%N)
                      (Orchestrator.Exited 0 [] []) Spec.cats [49; 13; 50]%N
     = Some [49; 10; 50; 10]%N.
Proof.
  repeat split; vm_compute; reflexivity.
Qed.

(** With no variable set, on the POSIX machine: the orchestrator's
    [subprocess.run] raises on the child's output, nothing catches it
    and the pipeline ends with status 1. *)
Lemma missing_config_on_utf8_ends_in_failure :
  Orchestrator.spawn
    (Pipeline.children Spec.posix_utf8 (u "python")
                       (Orchestrator.Exited 0 [] []) Spec.unconfigured)
    (Orchestrator.selector_call
       (Pipeline.children Spec.posix_utf8 (u "python")
                          (Orchestrator.Exited 0 [] []) Spec.unconfigured)
       (Orchestrator.args_prompt Spec.cats))
  = Orchestrator.Failed (u "UnicodeDecodeError")
  /\ exit_status (Orchestrator.main
                    (Pipeline.children Spec.posix_utf8 (u "python")
                                       (Orchestrator.Exited 0 [] [])
                                       Spec.unconfigured)
                    Spec.cats) = 1%Z.
Proof.
  split; vm_compute; reflexivity.
Qed.

Lemma response_is_trimmed_and_passed_through_witness :
  Spec.pipeline_reports Spec.posix_utf8 (u "python")
                        (Spec.answering (u " 3 ")) Spec.cats (u "3").
Proof.
  destruct (@response_is_trimmed_and_passed_through
              Spec.posix_utf8 (Spec.answering (u " 3 ")) (u "python")
              Spec.cats
              (u "labeled_screenshot.png") (u "a yawning cat") (u " 3 "))
    as [_ [_ [_ [_ [H _]]]]].
  - exists (u "x" ++ u "OPENAI_API_KEY"), (u "x" ++ u "OPENAI_API_BASE"),
           (u "x" ++ u "OPENAI_MODEL_NAME"), [137; 80; 78; 71]%N, [].
    repeat split; reflexivity.
  - destruct (H eq_refl) as [_ Hpipe].
    apply Hpipe; [reflexivity | reflexivity |].
    exact (proj2 sample_platforms_ascii).
Defined.



(* ================================================================== *)
(** * More on the injected script *)
(* ================================================================== *)

Section ScriptBehaviour.

Variable num : Type.
Variable js_add : num -> num -> num.

Lemma js_code_children (pg : Annotator.page_state num) :
  Annotator.body_children (fst (Annotator.js_code js_add pg))
  = Annotator.body_children pg ++ Annotator.labels_added js_add pg.
Proof.
  rewrite labels_added_eq. unfold Annotator.js_code. simpl fst.
  apply forEach_children.
Qed.

Lemma js_code_frame (pg : Annotator.page_state num) :
  let pg' := fst (Annotator.js_code js_add pg) in
  Annotator.images pg' = Annotator.images pg
  /\ Annotator.scrollX pg' = Annotator.scrollX pg
  /\ Annotator.scrollY pg' = Annotator.scrollY pg.
Proof.
  destruct (forEach_frame js_add (Annotator.images pg) 0 pg) as [HX [HY HI]].
  repeat split; assumption.
Qed.

(** X1. The script only appends: after it the children of the body are
    the former ones, unchanged and in place, followed by the new
    labels, one per image; the images and the scroll offset are what
    they were. *)
Theorem js_code_only_appends (pg : Annotator.page_state num) :
  let pg' := fst (Annotator.js_code js_add pg) in
  Annotator.body_children pg'
  = Annotator.body_children pg ++ Annotator.labels_added js_add pg
  /\ List.length (Annotator.body_children pg')
     = List.length (Annotator.body_children pg)
       + List.length (Annotator.images pg)
  /\ Annotator.images pg' = Annotator.images pg
  /\ Annotator.scrollX pg' = Annotator.scrollX pg
  /\ Annotator.scrollY pg' = Annotator.scrollY pg.
Proof.
  intros pg'. subst pg'.
  destruct (js_code_frame pg) as [HI [HX HY]].
  repeat split; try assumption; [apply js_code_children|].
  rewrite js_code_children, length_app, labels_added_eq, length_map,
    length_combine, length_seq.
  now rewrite Nat.min_id.
Qed.

(** X2. The script does not look for labels it added before: evaluated
    a second time on the page it left, it adds the same labels again,
    so every image then carries its number twice. *)
Theorem js_code_again_adds_the_same_labels (pg : Annotator.page_state num) :
  let pg1 := fst (Annotator.js_code js_add pg) in
  let pg2 := fst (Annotator.js_code js_add pg1) in
  Annotator.labels_added js_add pg1 = Annotator.labels_added js_add pg
  /\ Annotator.body_children pg2
     = Annotator.body_children pg
       ++ Annotator.labels_added js_add pg
       ++ Annotator.labels_added js_add pg
  /\ snd (Annotator.js_code js_add pg1) = snd (Annotator.js_code js_add pg).
Proof.
  cbv zeta.
  destruct (js_code_frame pg) as [HI [HX HY]].
  assert (H1 : Annotator.labels_added
                 js_add (fst (Annotator.js_code js_add pg))
               = Annotator.labels_added js_add pg).
  { rewrite !labels_added_eq, HI. apply map_ext. intros [k img].
    unfold Annotator.make_label. now rewrite HX, HY. }
  repeat split.
  - exact H1.
  - rewrite js_code_children, H1, js_code_children.
    now rewrite <- app_assoc.
  - change (List.length
              (Annotator.images (fst (Annotator.js_code js_add pg)))
            = List.length (Annotator.images pg)).
    now rewrite HI.
Qed.

End ScriptBehaviour.

(* ================================================================== *)
(** * More on the annotator's runs *)
(* ================================================================== *)


Section AnnotatorBehaviourFacts.

Variable num : Type.
Variable js_add : num -> num -> num.


Lemma attempted_iff (path : pystr) (t : Spec.atrace num) :
  Spec.attempted path t <-> existsb (Behaviour.shot path) t = true.
Proof.
  rewrite existsb_exists. split.
  - intros [fp [r Hin]]. eexists. split; [exact Hin|].
    simpl. apply pystr_eqb_refl.
  - intros [[f s|[c r]] [Hin Hw]]; try discriminate Hw.
    destruct c; simpl in Hw; try discriminate Hw.
    apply pystr_eqb_eq in Hw. subst. eexists _, _. exact Hin.
Qed.


Ltac at_start w s :=
  destruct (Annotator.fault w s) eqn:?;
  cbn [bind try_finally fst snd app trace_of outcome_of forallb andb
       Behaviour.is_startup Annotator.stop_playwright].

(** A fault before the [try] block leaves the function as it is, after
    nothing but calls that start and stop things. *)
Lemma startup_failure (w : Annotator.world num) (query : pystr)
      (headless : bool) (e : Annotator.page_exn) :
  Spec.first_fault w Behaviour.startup_sites = Some e ->
  outcome_of (Annotator.annotate_image_search js_add w query headless)
  = Raised e
  /\ forallb (@Behaviour.is_startup num)
             (trace_of (Annotator.annotate_image_search js_add w query
                                                        headless)) = true.
Proof.
  unfold Annotator.annotate_image_search, with_, Annotator.call,
    Behaviour.startup_sites.
  cbn [Spec.first_fault].
  at_start w Annotator.at_sync_playwright;
    [intros H; apply Some_eq in H; subst; split; reflexivity|].
  at_start w Annotator.at_launch;
    [intros H; apply Some_eq in H; subst; split; reflexivity|].
  at_start w Annotator.at_new_page;
    [intros H; apply Some_eq in H; subst; split; reflexivity|].
  discriminate.
Qed.






Lemma startup_no_shot (t : Spec.atrace num) (path : pystr) :
  forallb (@Behaviour.is_startup num) t = true ->
  existsb (Behaviour.shot path) t = false
  /\ existsb (Behaviour.wrote path) t = false
  /\ filter (@Spec.is_close num) t = [].
Proof.
  intros H. induction t as [|ev t IH]; [repeat split|].
  simpl in H. apply andb_prop in H as [Hev Ht].
  destruct (IH Ht) as [H1 [H2 H3]]. simpl. rewrite H1, H2, H3.
  destruct ev as [f s|[c r]]; try discriminate Hev.
  destruct c; simpl in Hev; try discriminate Hev; destruct r; repeat split.
Qed.






(** X6. When starting the driver, launching the browser or opening the
    page raises, the exception leaves the function (exit status 1), no
    screenshot is attempted on either path, and [browser.close()] is
    never called: the [finally] clause does not cover these calls. The
    driver is still stopped when it had started. *)
Theorem startup_fault_propagates
        (w : Annotator.world num) (query : pystr) (headless : bool)
        (e : Annotator.page_exn) :
  Spec.first_fault w Behaviour.startup_sites = Some e ->
  let r := Annotator.annotate_image_search js_add w query headless in
  outcome_of r = Raised e
  /\ exit_status r = 1%Z
  /\ (forall path, ~ Spec.attempted path (trace_of r))
  /\ filter (@Spec.is_close num) (trace_of r) = []
  /\ (Annotator.fault w Annotator.at_sync_playwright = None ->
      Spec.stopped_at_exit (trace_of r)).
Proof.
  intros E r. destruct (startup_failure w query headless E) as [Ho Ht].
  fold r in Ho, Ht.
  split; [exact Ho|].
  split; [unfold exit_status; now rewrite Ho|].
  split.
  { intros path H. apply attempted_iff in H.
    destruct (@startup_no_shot _ path Ht) as [Hs _]. congruence. }
  split; [apply (@startup_no_shot _ [] Ht)|].
  intros H0. subst r.
  unfold Annotator.annotate_image_search, with_.
  rewrite trace_bind, trace_call, outcome_call, H0, trace_try_finally.
  eexists. rewrite app_assoc. reflexivity.
Qed.


End AnnotatorBehaviourFacts.

(* ================================================================== *)
(** * More on the selection client *)
(* ================================================================== *)

Section SelectorBehaviourFacts.

Variable sw : Selector.world.

Ltac client :=
  cbn [bind ret raise fst snd app try_except select_clause eprint print
       sys_exit trace_of outcome_of andb negb forallb truthy_opt
       Selector.all Selector.perform Selector.first_content_stripped
       Behaviour.ops_of Behaviour.answer_of Behaviour.image_error printed].

Ltac done4 :=
  unfold Behaviour.api_error;
  split; [reflexivity | split; [reflexivity | split; reflexivity]].

Lemma configured_values :
  Spec.configured sw = true ->
  exists api_key base_url model_name,
    Behaviour.configured_with sw api_key base_url model_name.
Proof.
  unfold Spec.configured, Behaviour.configured_with. cbn [Selector.all forallb].
  destruct (Selector.getenv sw (u "OPENAI_API_KEY")) as [k|];
    [|discriminate].
  destruct (Selector.getenv sw (u "OPENAI_API_BASE")) as [b|];
    [|cbn [truthy_opt]; rewrite andb_false_r; discriminate].
  destruct (Selector.getenv sw (u "OPENAI_MODEL_NAME")) as [m|];
    [|cbn [truthy_opt]; rewrite !andb_false_r; discriminate].
  cbn [truthy_opt]. intros H.
  apply andb_prop in H as [Hk H]. apply andb_prop in H as [Hb H].
  apply andb_prop in H as [Hm _].
  exists k, b, m. repeat split; assumption.
Qed.

(** What the client does once the three parameters are known to be
    set: its result, its calls in order, and what it prints. *)
Lemma configured_call (image_path text_prompt api_key base_url model_name
                       : pystr) :
  Behaviour.configured_with sw api_key base_url model_name ->
  let r := Selector.call_vlm_api sw image_path text_prompt in
  outcome_of r = Behaviour.result_of sw image_path text_prompt
  /\ Behaviour.ops_of (trace_of r)
     = Selector.new_client api_key base_url
       :: match Selector.OpenAI sw api_key base_url with
          | Some _ => []
          | None =>
            Selector.open_read image_path
            :: match Selector.read_binary sw image_path with
               | Selector.FileRaises _ => []
               | Selector.FileBytes data =>
                 [Selector.create_completion
                    (Behaviour.request_of sw text_prompt data)]
               end
          end
  /\ printed Stdout (trace_of r) = []
  /\ printed Stderr (trace_of r)
     = match Selector.OpenAI sw api_key base_url,
             Selector.read_binary sw image_path with
       | None, Selector.FileRaises e =>
         Behaviour.image_error image_path e ++ [10%N]
       | _, _ => []
       end.
Proof.
  intros [Hk [Hb [Hm [Tk [Tb Tm]]]]] r. subst r.
  unfold Behaviour.result_of, Spec.configured, Behaviour.client_fault,
    Behaviour.request_of, Behaviour.api_error, Selector.call_vlm_api.
  rewrite Hk, Hb, Hm. client. rewrite Tk, Tb, Tm. client.
  unfold Selector.make_client, Selector.encode_image_to_base64,
    Selector.read_image, Selector.create. client.
  destruct (Selector.OpenAI sw api_key base_url) as [e|]; client;
    [done4|].
  destruct (Selector.read_binary sw image_path) as [data|e]; client.
  - destruct (Selector.chat_completions_create sw _) as [choices|e]; client;
      [|done4].
    destruct choices as [|c rest]; client; [done4|].
    destruct (Selector.message_content c); client; done4.
  - destruct e; client; done4.
Qed.

Lemma call_outcome (image_path text_prompt : pystr) :
  outcome_of (Selector.call_vlm_api sw image_path text_prompt)
  = Behaviour.result_of sw image_path text_prompt.
Proof.
  destruct (Spec.configured sw) eqn:Hc.
  - destruct (configured_values Hc) as [k [b [m Hv]]].
    apply (configured_call image_path text_prompt Hv).
  - rewrite (unconfigured_call sw _ _ Hc). unfold Behaviour.result_of.
    now rewrite Hc.
Qed.


Lemma answer_of_normal (choices : list Selector.choice) :
  exists s, Behaviour.answer_of choices = Normal s.
Proof.
  destruct choices as [|c rest]; simpl; [eauto|].
  destruct (Selector.message_content c); eauto.
Qed.

(** X8. [call_vlm_api] never lets an exception out: it returns a
    string, or the process exits with status 1, which happens exactly
    when the three parameters are set, the client is built and the
    image cannot be read. *)
Theorem client_never_raises (image_path text_prompt : pystr) :
  let r := Selector.call_vlm_api sw image_path text_prompt in
  (forall e, outcome_of r <> Raised e)
  /\ (forall code, outcome_of r = SysExit code -> code = 1%Z)
  /\ (outcome_of r = SysExit 1
      <-> Spec.configured sw = true
          /\ Behaviour.client_fault sw = None
          /\ exists e, Selector.read_binary sw image_path
                       = Selector.FileRaises e).
Proof.
  intros r. subst r. rewrite call_outcome. unfold Behaviour.result_of.
  destruct (Spec.configured sw); cbn [negb];
    [|repeat split; try discriminate; intros [H _]; discriminate H].
  destruct (Behaviour.client_fault sw);
    [repeat split; try discriminate; intros [_ [H _]]; discriminate H|].
  destruct (Selector.read_binary sw image_path) as [data|e].
  - destruct (Selector.chat_completions_create sw _) as [choices|e];
      [destruct (answer_of_normal choices) as [s ->]|];
      (repeat split; try discriminate;
       intros [_ [_ [e' H]]]; discriminate H).
  - repeat split; try discriminate; eauto.
    intros code H. now injection H as <-.
Qed.


(** X9. The calls of the client, in order: none when a parameter is
    missing; otherwise the client is built first, from the key and the
    base URL; the image is opened only once the client is built; and
    the one request, made only once the image is read, carries the
    model name, the prompt template around the user's text, the image
    as a base64 data URL and [max_tokens=10]. *)
Theorem client_calls_in_order (image_path text_prompt : pystr) :
  let t := trace_of (Selector.call_vlm_api sw image_path text_prompt) in
  (Spec.configured sw = false -> Behaviour.ops_of t = [])
  /\ (forall api_key base_url model_name,
         Behaviour.configured_with sw api_key base_url model_name ->
         Behaviour.ops_of t
         = Selector.new_client api_key base_url
           :: match Selector.OpenAI sw api_key base_url with
              | Some _ => []
              | None =>
                Selector.open_read image_path
                :: match Selector.read_binary sw image_path with
                   | Selector.FileRaises _ => []
                   | Selector.FileBytes data =>
                     [Selector.create_completion
                        {| Selector.model := model_name;
                           Selector.content_text :=
                             Selector.prompt_template text_prompt;
                           Selector.content_image_url :=
                             u "data:image/png;base64,"
                             ++ Selector.b64encode sw data;
                           Selector.max_tokens := 10 |}]
                   end
              end)
  /\ List.length (filter Behaviour.is_request (Behaviour.ops_of t)) <= 1.
Proof.
  intros t. subst t. split; [|split].
  - intros Hc. now rewrite (unconfigured_call sw _ _ Hc).
  - intros k b m Hv.
    destruct (configured_call image_path text_prompt Hv) as [_ [Ho _]].
    cbv zeta in Ho. rewrite Ho. unfold Behaviour.request_of.
    destruct Hv as [_ [_ [-> _]]]. reflexivity.
  - destruct (Spec.configured sw) eqn:Hc.
    + destruct (configured_values Hc) as [k [b [m Hv]]].
      destruct (configured_call image_path text_prompt Hv) as [_ [Ho _]].
      cbv zeta in Ho. rewrite Ho.
      destruct (Selector.OpenAI sw k b); simpl; [lia|].
      destruct (Selector.read_binary sw image_path); simpl; lia.
    + rewrite (unconfigured_call sw _ _ Hc). simpl. lia.
Qed.

(** X10. Every exception met between building the client and reading
    the answer is turned into a returned string, the text of line 107
    followed by the exception's message: an exception of the [OpenAI]
    constructor, one of the request, the [IndexError] of an empty list
    of choices, the [AttributeError] of a first choice without
    content. *)
Theorem api_failures_are_returned_as_text
        (image_path text_prompt api_key base_url model_name : pystr) :
  Behaviour.configured_with sw api_key base_url model_name ->
  let r := outcome_of (Selector.call_vlm_api sw image_path text_prompt) in
  (forall e, Selector.OpenAI sw api_key base_url = Some e ->
             r = Normal (u "调用API时发生未知错误: " ++ Selector.str_exn e))
  /\ (forall data,
         Selector.OpenAI sw api_key base_url = None ->
         Selector.read_binary sw image_path = Selector.FileBytes data ->
         (forall e,
             Selector.chat_completions_create
               sw (Behaviour.request_of sw text_prompt data)
             = Selector.ApiRaises e ->
             r = Normal (u "调用API时发生未知错误: " ++ Selector.str_exn e))
         /\ (Selector.chat_completions_create
               sw (Behaviour.request_of sw text_prompt data)
             = Selector.Response [] ->
             r = Normal (u "调用API时发生未知错误: "
                         ++ u "list index out of range"))
         /\ (forall c rest,
                Selector.chat_completions_create
                  sw (Behaviour.request_of sw text_prompt data)
                = Selector.Response (c :: rest) ->
                Selector.message_content c = None ->
                r = Normal (u "调用API时发生未知错误: "
                            ++ u "'NoneType' object has no attribute 'strip'"))).
Proof.
  intros Hv r. subst r. rewrite call_outcome.
  unfold Behaviour.result_of, Behaviour.client_fault.
  destruct Hv as [Hk [Hb [Hm [Tk [Tb Tm]]]]].
  unfold Spec.configured. rewrite Hk, Hb, Hm.
  cbn [Selector.all forallb truthy_opt]. rewrite Tk, Tb, Tm. cbn [andb negb].
  split.
  - intros e ->. reflexivity.
  - intros data -> ->. split; [|split].
    + intros e ->. reflexivity.
    + intros ->. reflexivity.
    + intros c rest -> Hc. cbn [Behaviour.answer_of]. rewrite Hc. reflexivity.
Qed.


(** X12. When the image cannot be read, the process stops at once with
    status 1: one line on standard error tells why (file not found, or
    the exception's message), nothing is written to standard output,
    and no request is made. *)
Theorem unreadable_image_exits_before_request
        (script image_path text_prompt api_key base_url model_name : pystr)
        (e : Selector.sel_exn) :
  Behaviour.configured_with sw api_key base_url model_name ->
  Selector.OpenAI sw api_key base_url = None ->
  Selector.read_binary sw image_path = Selector.FileRaises e ->
  let m := Selector.main sw [script; image_path; text_prompt] in
  outcome_of m = SysExit 1
  /\ exit_status m = 1%Z
  /\ printed Stdout (trace_of m) = []
  /\ printed Stderr (trace_of m) = Behaviour.image_error image_path e ++ [10%N]
  /\ Behaviour.ops_of (trace_of m)
     = [Selector.new_client api_key base_url; Selector.open_read image_path].
Proof.
  intros Hv Hc Hr m. subst m.
  destruct (configured_call image_path text_prompt Hv) as [Ho [Hops [Hp He]]].
  cbv zeta in Ho, Hops, Hp, He.
  rewrite Hc, Hr in Hops, He.
  assert (Hx : outcome_of (Selector.call_vlm_api sw image_path text_prompt)
               = SysExit 1).
  { rewrite Ho. unfold Behaviour.result_of, Behaviour.client_fault.
    destruct Hv as [Hk [Hb [Hm [Tk [Tb Tm]]]]].
    unfold Spec.configured. rewrite Hk, Hb, Hm.
    cbn [Selector.all forallb truthy_opt]. rewrite Tk, Tb, Tm.
    cbn [andb negb]. now rewrite Hc, Hr. }
  unfold Selector.main, exit_status.
  rewrite outcome_bind, trace_bind, Hx.
  cbn [trace_of outcome_of fst snd]. rewrite app_nil_r.
  repeat split; assumption.
Qed.

(** X13. Started with anything but two arguments, the script writes
    the usage line to standard error and exits with status 1; it does
    not read the environment, the image or the network. *)
Theorem selector_usage_error (sys_argv : list pystr) :
  List.length sys_argv <> 3 ->
  Selector.main sw sys_argv
  = ([EvPrint Stderr Behaviour.usage], SysExit 1)
  /\ exit_status (Selector.main sw sys_argv) = 1%Z.
Proof.
  intros H.
  assert (E : Selector.main sw sys_argv
              = ([EvPrint Stderr Behaviour.usage], SysExit 1)).
  { destruct sys_argv as [|a [|b [|c [|d l]]]];
      [| | | now contradiction H |];
      unfold Selector.main, Behaviour.usage; reflexivity. }
  split; [exact E|]. now rewrite E.
Qed.

End SelectorBehaviourFacts.

(* ================================================================== *)
(** * More on the orchestrator *)
(* ================================================================== *)

Section OrchestratorBehaviourFacts.

Variable w : Orchestrator.world.

Ltac stage :=
  cbn [bind print eprint ret sys_exit fst snd app trace_of outcome_of
       try_except select_clause andb negb truthy_opt
       Orchestrator.check Orchestrator.annotator_call
       Orchestrator.selector_call Orchestrator.cp_stdout
       Behaviour.ops_of printed].

Lemma ops_of_app {Op} (t1 t2 : list (event Op)) :
  Behaviour.ops_of (t1 ++ t2) = Behaviour.ops_of t1 ++ Behaviour.ops_of t2.
Proof.
  induction t1 as [|[f s|c] t1 IH]; simpl; rewrite ?IH; reflexivity.
Qed.

Lemma run_image_search_ops (query : pystr) :
  Behaviour.ops_of (trace_of (Orchestrator.run_image_search w query))
  = [Orchestrator.annotator_call w query].
Proof.
  unfold Orchestrator.run_image_search, Orchestrator.subprocess_run.
  destruct (Orchestrator.spawn w (Orchestrator.annotator_call w query))
    as [rc o e|m|m]; stage; try reflexivity.
  destruct (rc =? 0)%Z; reflexivity.
Qed.

Lemma run_vlm_selector_ops (prompt : pystr) :
  Behaviour.ops_of (trace_of (Orchestrator.run_vlm_selector w prompt))
  = [Orchestrator.selector_call w prompt].
Proof.
  unfold Orchestrator.run_vlm_selector, Orchestrator.subprocess_run.
  destruct (Orchestrator.spawn w (Orchestrator.selector_call w prompt))
    as [rc o e|m|m]; stage; try reflexivity.
  destruct (rc =? 0)%Z; reflexivity.
Qed.

Lemma tail_has_no_ops (selected : option pystr) :
  Behaviour.ops_of
    (if truthy_opt selected then
       [EvPrint Stdout ([10%N] ++ Orchestrator.rule);
        EvPrint Stdout (Orchestrator.report (Orchestrator.format selected));
        EvPrint Stdout Orchestrator.rule]
     else [EvPrint Stderr ([10%N] ++ u "无法从VLM选择器获取结果。")])
  = ([] : list Orchestrator.subprocess_call).
Proof.
  destruct (truthy_opt selected); reflexivity.
Qed.

(** X14. The children the orchestrator starts, in order: always the
    annotator, once, with the interpreter, the script name and the
    query and nothing else (so never with [--visible]); then, only
    when the annotator has exited with status 0, the selection script,
    once, with the fixed image path and the prompt, its output to be
    read as GBK. Nothing else is started. *)
Theorem orchestrator_calls_in_order (args : Orchestrator.Namespace) :
  Behaviour.ops_of (trace_of (Orchestrator.main w args))
  = Orchestrator.annotator_call w (Orchestrator.args_query args)
    :: match Orchestrator.spawn
               w (Orchestrator.annotator_call w (Orchestrator.args_query args))
       with
       | Orchestrator.Exited rc _ _ =>
         if (rc =? 0)%Z
         then [Orchestrator.selector_call w (Orchestrator.args_prompt args)]
         else []
       | _ => []
       end
  /\ Orchestrator.argv
       (Orchestrator.annotator_call w (Orchestrator.args_query args))
     = [Orchestrator.sys_executable w; u "image_search_annotator.py";
        Orchestrator.args_query args]
  /\ Orchestrator.argv
       (Orchestrator.selector_call w (Orchestrator.args_prompt args))
     = [Orchestrator.sys_executable w; u "vlm_selector.py";
        u "labeled_screenshot.png"; Orchestrator.args_prompt args]
  /\ Orchestrator.encoding
       (Orchestrator.selector_call w (Orchestrator.args_prompt args))
     = Some (u "gbk")
  /\ Orchestrator.encoding
       (Orchestrator.annotator_call w (Orchestrator.args_query args))
     = None.
Proof.
  split; [|repeat split].
  rewrite main_trace, ops_of_app, run_image_search_ops,
    run_image_search_outcome.
  cbn [app]. f_equal.
  destruct (Orchestrator.spawn w (Orchestrator.annotator_call
                                    w (Orchestrator.args_query args)))
    as [rc o e|m|m]; try reflexivity.
  destruct (rc =? 0)%Z; [|reflexivity].
  rewrite ops_of_app, run_vlm_selector_ops.
  destruct (outcome_of (Orchestrator.run_vlm_selector
                          w (Orchestrator.args_prompt args)))
    as [sel|x|c]; [|reflexivity|reflexivity].
  now rewrite tail_has_no_ops.
Qed.

Lemma run_image_search_errors (query : pystr) :
  printed Stderr (trace_of (Orchestrator.run_image_search w query))
  = match Orchestrator.spawn w (Orchestrator.annotator_call w query) with
    | Orchestrator.Exited rc out err =>
      if (rc =? 0)%Z then []
      else Behaviour.lines [u "错误: 运行 image_search_annotator.py 失败。";
                            u "返回码: " ++ str_of_Z rc;
                            u "输出: " ++ out;
                            u "错误输出: " ++ err]
    | Orchestrator.NotFound _ =>
      Behaviour.lines
        [u "错误: 'image_search_annotator.py' 未找到。请确保它在当前目录中。"]
    | Orchestrator.Failed _ => []
    end.
Proof.
  unfold Orchestrator.run_image_search, Orchestrator.subprocess_run.
  destruct (Orchestrator.spawn w (Orchestrator.annotator_call w query))
    as [rc o e|m|m]; stage; unfold Behaviour.lines; cbn [flat_map];
    [|now rewrite app_nil_r|reflexivity].
  destruct (rc =? 0)%Z; stage; [reflexivity|].
  rewrite <- ?app_assoc. cbn [app]. reflexivity.
Qed.

Lemma run_vlm_selector_errors (prompt : pystr) :
  printed Stderr (trace_of (Orchestrator.run_vlm_selector w prompt))
  = match Orchestrator.spawn w (Orchestrator.selector_call w prompt) with
    | Orchestrator.Exited rc out err =>
      if (rc =? 0)%Z then []
      else Behaviour.lines [u "错误: 运行 vlm_selector.py 失败。";
                            u "返回码: " ++ str_of_Z rc;
                            u "输出: " ++ out;
                            u "错误输出: " ++ err]
    | Orchestrator.NotFound _ =>
      Behaviour.lines
        [u "错误: 'vlm_selector.py' 或 'labeled_screenshot.png' 未找到。"]
    | Orchestrator.Failed _ => []
    end.
Proof.
  unfold Orchestrator.run_vlm_selector, Orchestrator.subprocess_run.
  destruct (Orchestrator.spawn w (Orchestrator.selector_call w prompt))
    as [rc o e|m|m]; stage; unfold Behaviour.lines; cbn [flat_map];
    [|now rewrite app_nil_r|reflexivity].
  destruct (rc =? 0)%Z; stage; [reflexivity|].
  rewrite <- ?app_assoc. cbn [app]. reflexivity.
Qed.

(** X15. Only [CalledProcessError] and [FileNotFoundError] are caught.
    Any other exception of [subprocess.run], in either stage, leaves
    [main] as it is: the orchestrator writes no message of its own to
    standard error, and the process ends with status 1. *)
Theorem other_exception_leaves_main (args : Orchestrator.Namespace)
        (msg : pystr) :
  (Orchestrator.spawn
     w (Orchestrator.annotator_call w (Orchestrator.args_query args))
   = Orchestrator.Failed msg
   \/ (exists o e,
          Orchestrator.spawn
            w (Orchestrator.annotator_call w (Orchestrator.args_query args))
          = Orchestrator.Exited 0 o e)
      /\ Orchestrator.spawn
           w (Orchestrator.selector_call w (Orchestrator.args_prompt args))
         = Orchestrator.Failed msg) ->
  outcome_of (Orchestrator.main w args)
  = Raised (Orchestrator.OtherException msg)
  /\ printed Stderr (trace_of (Orchestrator.main w args)) = []
  /\ exit_status (Orchestrator.main w args) = 1%Z.
Proof.
  intros H.
  assert (Ho : outcome_of (Orchestrator.main w args)
               = Raised (Orchestrator.OtherException msg)).
  { rewrite main_outcome, run_image_search_outcome, run_vlm_selector_outcome.
    destruct H as [->|[[o [e ->]] ->]]; reflexivity. }
  split; [exact Ho|]. split; [|unfold exit_status; now rewrite Ho].
  rewrite main_trace, printed_app, run_image_search_errors,
    run_image_search_outcome.
  destruct H as [->|[[o [e ->]] Hs]]; [reflexivity|].
  cbn [Z.eqb app].
  rewrite printed_app, run_vlm_selector_errors, run_vlm_selector_outcome, Hs.
  reflexivity.
Qed.


(** X17. Both children exit with status 0 but the selection script's
    output is blank: the orchestrator reports no label, writes its one
    failure line to standard error and exits with status 1. *)
Theorem blank_output_is_reported_as_failure
        (args : Orchestrator.Namespace) (o1 e1 out err : pystr) :
  Orchestrator.spawn
    w (Orchestrator.annotator_call w (Orchestrator.args_query args))
  = Orchestrator.Exited 0 o1 e1 ->
  Orchestrator.spawn
    w (Orchestrator.selector_call w (Orchestrator.args_prompt args))
  = Orchestrator.Exited 0 out err ->
  strip out = [] ->
  outcome_of (Orchestrator.main w args) = SysExit 1
  /\ exit_status (Orchestrator.main w args) = 1%Z
  /\ printed Stderr (trace_of (Orchestrator.main w args))
     = Behaviour.lines [[10%N] ++ u "无法从VLM选择器获取结果。"]
  /\ forall label,
      ~ Spec.reports (trace_of (Orchestrator.main w args)) label.
Proof.
  intros H1 H2 Hb.
  assert (Ho : outcome_of (Orchestrator.main w args) = SysExit 1).
  { rewrite main_outcome, run_image_search_outcome, run_vlm_selector_outcome,
      H1, H2.
    cbn [Z.eqb truthy_opt]. now rewrite Hb. }
  split; [exact Ho|]. split; [unfold exit_status; now rewrite Ho|]. split.
  - rewrite main_trace, printed_app, run_image_search_errors,
      run_image_search_outcome, H1.
    cbn [Z.eqb app].
    rewrite printed_app, run_vlm_selector_errors, run_vlm_selector_outcome, H2.
    cbn [Z.eqb app truthy_opt]. rewrite Hb. reflexivity.
  - intros label Hr. apply main_reports_iff in Hr.
    destruct Hr as [a [b [o2 [e2 [_ [Hs [-> Hne]]]]]]].
    rewrite H2 in Hs. injection Hs as <- _. now apply Hne.
Qed.

End OrchestratorBehaviourFacts.

(* ================================================================== *)
(** * More on the two scripts run together *)
(* ================================================================== *)

Section PipelineBehaviourFacts.

Variable pf : Pipeline.platform.
Variable sw : Selector.world.
Variable exe : pystr.

Lemma failed_child_is_not_a_success (c : Orchestrator.subprocess_call)
      (o e : pystr) :
  exit_status (Selector.main sw (tl (Orchestrator.argv c))) <> 0%Z ->
  Pipeline.selector_child pf sw c <> Orchestrator.Exited 0 o e.
Proof.
  intros Hx H. unfold Pipeline.selector_child in H.
  destruct (Pipeline.encode_strict _ _);
    apply deliver_status in H as [H _]; [now apply Hx | discriminate H].
Qed.


(** X19. When the selection script cannot read the image, its status 1
    makes the second stage fail on every platform: after a successful
    annotation the orchestrator has started both children, reports no
    label and ends with status 1. *)
Theorem unreadable_image_fails_pipeline
        (o1 e1 : pystr) (args : Orchestrator.Namespace)
        (api_key base_url model_name : pystr) (e : Selector.sel_exn) :
  Behaviour.configured_with sw api_key base_url model_name ->
  Selector.OpenAI sw api_key base_url = None ->
  Selector.read_binary sw (u "labeled_screenshot.png")
  = Selector.FileRaises e ->
  let w := Pipeline.children pf exe (Orchestrator.Exited 0 o1 e1) sw in
  exit_status (Orchestrator.main w args) = 1%Z
  /\ (forall label,
         ~ Spec.reports (trace_of (Orchestrator.main w args)) label)
  /\ Behaviour.ops_of (trace_of (Orchestrator.main w args))
     = [Orchestrator.annotator_call w (Orchestrator.args_query args);
        Orchestrator.selector_call w (Orchestrator.args_prompt args)].
Proof.
  intros Hv Hc Hr w.
  assert (Hx : exit_status (Selector.main
                              sw [u "vlm_selector.py";
                                  u "labeled_screenshot.png";
                                  Orchestrator.args_prompt args]) = 1%Z).
  { destruct (@configured_call sw (u "labeled_screenshot.png")
                               (Orchestrator.args_prompt args) _ _ _ Hv)
      as [Ho _].
    cbv zeta in Ho. unfold Selector.main, exit_status.
    rewrite outcome_bind, Ho.
    unfold Behaviour.result_of, Behaviour.client_fault.
    destruct Hv as [Hk [Hb [Hm [Tk [Tb Tm]]]]].
    unfold Spec.configured. rewrite Hk, Hb, Hm.
    cbn [Selector.all forallb truthy_opt]. rewrite Tk, Tb, Tm.
    cbn [andb negb]. now rewrite Hc, Hr. }
  assert (Hno : forall l, ~ Spec.stages_yield w args l).
  { intros l [a [b [o2 [e2 [_ [H2 _]]]]]].
    revert H2. apply failed_child_is_not_a_success.
    change (tl (Orchestrator.argv
                  (Orchestrator.selector_call
                     w (Orchestrator.args_prompt args))))
      with [u "vlm_selector.py"; u "labeled_screenshot.png";
            Orchestrator.args_prompt args].
    rewrite Hx. discriminate. }
  destruct (nothing_yielded_fails Hno) as [H1 H2].
  split; [exact H1|]. split; [exact H2|].
  rewrite main_trace, ops_of_app, run_image_search_ops,
    run_image_search_outcome.
  change (Orchestrator.spawn
            w (Orchestrator.annotator_call w (Orchestrator.args_query args)))
    with (Orchestrator.Exited 0 o1 e1).
  cbn [Z.eqb app]. f_equal.
  rewrite ops_of_app, run_vlm_selector_ops.
  destruct (outcome_of (Orchestrator.run_vlm_selector
                          w (Orchestrator.args_prompt args)))
    as [sel|x|c]; [|reflexivity|reflexivity].
  now rewrite tail_has_no_ops.
Qed.

End PipelineBehaviourFacts.

(** X20. An answer outside ASCII: on the Windows machine it is the
    label the pipeline reports, with status 0; on the POSIX machine
    the child writes it as UTF-8, the orchestrator cannot read that as
    GBK, and the pipeline ends with status 1. *)
Theorem answer_outside_ascii_depends_on_platform :
  outcome_of (Selector.call_vlm_api (Spec.answering (u "第3张"))
                                    (u "labeled_screenshot.png")
                                    (Orchestrator.args_prompt Spec.cats))
  = Normal (u "第3张")
  /\ Spec.pipeline_reports Spec.windows_gbk (u "python")
                           (Spec.answering (u "第3张")) Spec.cats (u "第3张")
  /\ exit_status (Orchestrator.main
                    (Pipeline.children Spec.posix_utf8 (u "python")
                                       (Orchestrator.Exited 0 [] [])
                                       (Spec.answering (u "第3张")))
                    Spec.cats) = 1%Z.
Proof.
  split; [vm_compute; reflexivity|]. split; [|vm_compute; reflexivity].
  intros o1 e1.
  assert (Hy : Spec.stages_yield
                 (Pipeline.children Spec.windows_gbk (u "python")
                                    (Orchestrator.Exited 0 o1 e1)
                                    (Spec.answering (u "第3张")))
                 Spec.cats (u "第3张")).
  { exists o1, e1, (u "第3张" ++ [10%N]), [].
    split; [reflexivity|]. split; [vm_compute; reflexivity|].
    split; [vm_compute; reflexivity | discriminate]. }
  destruct (yielded_is_reported Hy) as [Hr [_ Hx]]. split; assumption.
Qed.

(** X21. A carriage return inside an answer does not reach the report:
    the client returns the answer as it is, but the orchestrator reads
    the child's output in text mode, and the label it reports has a
    line feed in its place. *)
Theorem carriage_return_in_answer_is_read_as_line_feed :
  outcome_of (Selector.call_vlm_api (Spec.answering [49; 13; 50]%N)
                                    (u "labeled_screenshot.png")
                                    (Orchestrator.args_prompt Spec.cats))
  = Normal [49; 13; 50]%N
  /\ Spec.pipeline_reports Spec.posix_utf8 (u "python")
                           (Spec.answering [49; 13; 50]%N) Spec.cats
                           [49; 10; 50]%N
  /\ forall o1 e1,
      ~ Spec.reports
          (trace_of (Orchestrator.main
                       (Pipeline.children Spec.posix_utf8 (u "python")
                                          (Orchestrator.Exited 0 o1 e1)
                                          (Spec.answering [49; 13; 50]%N))
                       Spec.cats))
          [49; 13; 50]%N.
Proof.
  split; [vm_compute; reflexivity|]. split.
  - intros o1 e1.
    assert (Hy : Spec.stages_yield
                   (Pipeline.children Spec.posix_utf8 (u "python")
                                      (Orchestrator.Exited 0 o1 e1)
                                      (Spec.answering [49; 13; 50]%N))
                   Spec.cats [49; 10; 50]%N).
    { exists o1, e1, [49; 10; 50; 10]%N, [].
      split; [reflexivity|]. split; [vm_compute; reflexivity|].
      split; [vm_compute; reflexivity | discriminate]. }
    destruct (yielded_is_reported Hy) as [Hr [_ Hx]]. split; assumption.
  - intros o1 e1 Hr. apply main_reports_iff in Hr.
    destruct Hr as [a [b [o2 [e2 [_ [Hs [Hl _]]]]]]].
    vm_compute in Hs. injection Hs as <- _.
    vm_compute in Hl. discriminate Hl.
Qed.

(* ================================================================== *)
(** * More on the annotator's command line *)
(* ================================================================== *)


(* ================================================================== *)
(** * The further properties on sample runs *)
(* ================================================================== *)

Lemma startup_fault_propagates_witness :
  outcome_of (Annotator.annotate_image_search
                Z.add Behaviour.launch_fails (u "cute cats") true)
  = Raised (Annotator.OtherException (u "Executable doesn't exist"))
  /\ exit_status (Annotator.annotate_image_search
                    Z.add Behaviour.launch_fails (u "cute cats") true) = 1%Z.
Proof.
  destruct (@startup_fault_propagates
              Z Z.add Behaviour.launch_fails (u "cute cats") true
              (Annotator.OtherException (u "Executable doesn't exist"))
              eq_refl)
    as [Ho [Hx _]].
  split; assumption.
Defined.


Lemma api_failures_are_returned_as_text_witness :
  outcome_of (Selector.call_vlm_api Behaviour.endpoint_down
                                    (u "labeled_screenshot.png")
                                    (u "a yawning cat"))
  = Normal (u "调用API时发生未知错误: " ++ u "Connection error.").
Proof.
  destruct (@api_failures_are_returned_as_text
              Behaviour.endpoint_down
              (u "labeled_screenshot.png") (u "a yawning cat")
              (u "x" ++ u "OPENAI_API_KEY") (u "x" ++ u "OPENAI_API_BASE")
              (u "x" ++ u "OPENAI_MODEL_NAME"))
    as [_ H].
  - repeat split; reflexivity.
  - destruct (H [137; 80; 78; 71]%N eq_refl eq_refl) as [Hr _].
    exact (Hr (Selector.OtherException (u "Connection error.")) eq_refl).
Defined.


Lemma unreadable_image_exits_before_request_witness :
  exit_status (Selector.main Behaviour.image_missing
                             [u "vlm_selector.py"; u "labeled_screenshot.png";
                              u "a yawning cat"]) = 1%Z
  /\ printed Stderr
             (trace_of (Selector.main
                          Behaviour.image_missing
                          [u "vlm_selector.py"; u "labeled_screenshot.png";
                           u "a yawning cat"]))
     = u "错误：图片文件未找到于 'labeled_screenshot.png'。" ++ [10%N].
Proof.
  destruct (@unreadable_image_exits_before_request
              Behaviour.image_missing (u "vlm_selector.py")
              (u "labeled_screenshot.png") (u "a yawning cat")
              (u "x" ++ u "OPENAI_API_KEY") (u "x" ++ u "OPENAI_API_BASE")
              (u "x" ++ u "OPENAI_MODEL_NAME")
              (Selector.FileNotFoundError (u "No such file or directory")))
    as [_ [Hx [_ [He _]]]].
  - repeat split; reflexivity.
  - reflexivity.
  - reflexivity.
  - split; [exact Hx|]. rewrite He. vm_compute. reflexivity.
Defined.

Lemma selector_usage_error_witness :
  exit_status (Selector.main Spec.unconfigured [u "vlm_selector.py"]) = 1%Z.
Proof.
  apply (@selector_usage_error Spec.unconfigured [u "vlm_selector.py"]).
  simpl. lia.
Defined.

Lemma other_exception_leaves_main_witness :
  outcome_of (Orchestrator.main
                (Pipeline.children Spec.posix_utf8 (u "python")
                                   (Orchestrator.Exited 0 [] [])
                                   Spec.unconfigured)
                Spec.cats)
  = Raised (Orchestrator.OtherException (u "UnicodeDecodeError"))
  /\ printed Stderr
             (trace_of (Orchestrator.main
                          (Pipeline.children Spec.posix_utf8 (u "python")
                                             (Orchestrator.Exited 0 [] [])
                                             Spec.unconfigured)
                          Spec.cats))
     = [].
Proof.
  destruct (@other_exception_leaves_main
              (Pipeline.children Spec.posix_utf8 (u "python")
                                 (Orchestrator.Exited 0 [] [])
                                 Spec.unconfigured)
              Spec.cats (u "UnicodeDecodeError"))
    as [Ho [He _]].
  - right. split; [exists [], []; reflexivity | vm_compute; reflexivity].
  - split; assumption.
Defined.

Lemma blank_output_is_reported_as_failure_witness :
  exit_status (Orchestrator.main (Behaviour.both_exit_zero (u "  ")) Spec.cats)
  = 1%Z.
Proof.
  destruct (@blank_output_is_reported_as_failure
              (Behaviour.both_exit_zero (u "  ")) Spec.cats [] [] (u "  ") [])
    as [_ [Hx _]]; [reflexivity | reflexivity | reflexivity | exact Hx].
Defined.


Lemma unreadable_image_fails_pipeline_witness :
  exit_status (Orchestrator.main
                 (Pipeline.children Spec.windows_gbk (u "python")
                                    (Orchestrator.Exited 0 [] [])
                                    Behaviour.image_missing)
                 Spec.cats) = 1%Z.
Proof.
  destruct (@unreadable_image_fails_pipeline
              Spec.windows_gbk Behaviour.image_missing (u "python")
              [] [] Spec.cats
              (u "x" ++ u "OPENAI_API_KEY") (u "x" ++ u "OPENAI_API_BASE")
              (u "x" ++ u "OPENAI_MODEL_NAME")
              (Selector.FileNotFoundError (u "No such file or directory")))
    as [Hx _].
  - repeat split; reflexivity.
  - reflexivity.
  - reflexivity.
  - exact Hx.
Defined.
